(** * tiger-claude: the command-line client and its diagnostics

    A shallow embedding of [claude_powerbook.py] (request builder, API
    invoker, command dispatcher) and of the diagnostics of
    [test_setup.py], followed by the properties of the specification that
    were checked against it.

    Python values are an inductive type, exceptions are values of an error
    monad over an explicit I/O state (standard output and the log of
    requests handed to [urlopen]); the operating system, the network and
    the [json] library are oracles collected in a record [world]. *)

From Stdlib Require Import Bool List ZArith Lia Ascii String DecimalString.
From Stdlib Require Import Floats.SpecFloat.
Import ListNotations.

Local Open Scope list_scope.
Local Open Scope string_scope.
Local Open Scope Z_scope.

(** ** Python values, exceptions and the builtins the program uses *)

Module PyModel.

(** A [str] is a sequence of characters; code points are limited to the
    range of [ascii] (0..255).  [bytes] objects are byte strings. *)
Definition bytes := string.

Definition nl : string := String "010"%char EmptyString.
Definition dquote : string := String "034"%char EmptyString.

(** [str(n)] for an [int]. *)
Definition str_of_int (n : Z) : string := NilZero.string_of_int (Z.to_int n).

(** [needle in hay] for two [str]. *)
Fixpoint contains (needle hay : string) : bool :=
  if String.prefix needle hay then true
  else match hay with
       | EmptyString => false
       | String _ rest => contains needle rest
       end.

(** [sep.join(parts)]. *)
Fixpoint join (sep : string) (parts : list string) : string :=
  match parts with
  | [] => EmptyString
  | [p] => p
  | p :: rest => p ++ sep ++ join sep rest
  end.

(** [str.isspace] on one character, for code points below 256. *)
Definition is_space (c : ascii) : bool :=
  let n := Z.of_nat (nat_of_ascii c) in
  ((9 <=? n) && (n <=? 13)) || ((28 <=? n) && (n <=? 32))
  || (n =? 133) || (n =? 160).

Fixpoint lstrip (s : string) : string :=
  match s with
  | String c rest => if is_space c then lstrip rest else s
  | EmptyString => EmptyString
  end.

Fixpoint rstrip (s : string) : string :=
  match s with
  | EmptyString => EmptyString
  | String c rest =>
      match rstrip rest with
      | EmptyString => if is_space c then EmptyString else String c EmptyString
      | r => String c r
      end
  end.

(** [s.strip()]. *)
Definition strip (s : string) : string := rstrip (lstrip s).

(** The first whitespace-delimited word of [s] and what follows it. *)
Fixpoint span_word (s : string) : string * string :=
  match s with
  | EmptyString => (EmptyString, EmptyString)
  | String c rest =>
      if is_space c then (EmptyString, s)
      else let (word, tail) := span_word rest in (String c word, tail)
  end.

(** [s.split(None, maxsplit)]: runs of whitespace separate the words; once
    [maxsplit] words are taken the remainder is kept as it is. *)
Fixpoint split_ws (maxsplit : nat) (s : string) : list string :=
  match lstrip s with
  | EmptyString => []
  | body =>
      match maxsplit with
      | O => [body]
      | S m => let (word, tail) := span_word body in word :: split_ws m tail
      end
  end.

(** The values [json.loads] can produce.  A [dict] keeps its insertion
    order; its keys are [str]. *)
#[warnings="-register-all"]
Inductive pyval : Type :=
| PNone
| PBool (b : bool)
| PInt (n : Z)
| PFloat (f : spec_float)
| PStr (s : string)
| PList (items : list pyval)
| PDict (entries : list (string * pyval)).

Fixpoint dict_get (d : list (string * pyval)) (k : string) : option pyval :=
  match d with
  | [] => None
  | (k', v) :: rest => if String.eqb k' k then Some v else dict_get rest k
  end.

(** The exception classes the program distinguishes.  [OSError] stands for
    [IOError] and all its subclasses raised by file operations;
    [OtherException] for any further subclass of [Exception].
    [HTTPError] and [URLError] are outcomes of [urlopen], see below. *)
Inductive exc_class : Type :=
| OSError
| UnicodeDecodeError
| ValueError
| TypeError
| KeyError
| IndexError
| AttributeError
| JSONDecodeError
| ImportError
| EOFError
| OtherException
| KeyboardInterrupt.

(** An exception with the text [str(e)] gives; [sys.exit(code)] raises
    [SystemExit]. *)
Inductive exn : Type :=
| Exc (cls : exc_class) (msg : string)
| SystemExit (code : Z).

Definition exc_str (e : exn) : string :=
  match e with
  | Exc _ msg => msg
  | SystemExit code => str_of_int code
  end.

(** [isinstance(e, IOError)]. *)
Definition is_IOError (e : exn) : bool :=
  match e with
  | Exc OSError _ => true
  | _ => false
  end.

(** [isinstance(e, Exception)]: everything but [KeyboardInterrupt] and
    [SystemExit], which derive from [BaseException] directly. *)
Definition is_Exception (e : exn) : bool :=
  match e with
  | Exc KeyboardInterrupt _ => false
  | Exc _ _ => true
  | SystemExit _ => false
  end.

Definition is_KeyboardInterrupt (e : exn) : bool :=
  match e with
  | Exc KeyboardInterrupt _ => true
  | _ => false
  end.

Definition is_EOFError (e : exn) : bool :=
  match e with
  | Exc EOFError _ => true
  | _ => false
  end.

(** The result of an expression that may raise. *)
Inductive outcome (A : Type) : Type :=
| Return (a : A)
| Raise (e : exn).
Arguments Return {A} a.
Arguments Raise {A} e.

Definition obind {A B : Type} (x : outcome A) (k : A -> outcome B) : outcome B :=
  match x with
  | Return a => k a
  | Raise e => Raise e
  end.

Notation "'let?' x ':=' c 'in' k" := (obind c (fun x => k))
  (at level 10, x name, c at level 100, k at level 200).

Definition type_name (v : pyval) : string :=
  match v with
  | PNone => "NoneType"
  | PBool _ => "bool"
  | PInt _ => "int"
  | PFloat _ => "float"
  | PStr _ => "str"
  | PList _ => "list"
  | PDict _ => "dict"
  end.

Definition quoted (k : string) : string := "'" ++ k ++ "'".

(** [key in container] for a [str] key. *)
Definition py_in (key : string) (container : pyval) : outcome bool :=
  match container with
  | PDict d => Return (match dict_get d key with Some _ => true | None => false end)
  | PList items =>
      Return (existsb (fun x => match x with PStr s => String.eqb s key | _ => false end) items)
  | PStr s => Return (contains key s)
  | v => Raise (Exc TypeError
                  ("argument of type " ++ quoted (type_name v) ++ " is not iterable"))
  end.

Definition not_subscriptable {A : Type} (v : pyval) : outcome A :=
  Raise (Exc TypeError (quoted (type_name v) ++ " object is not subscriptable")).

(** [container[key]] for a [str] key. *)
Definition py_getitem_str (container : pyval) (key : string) : outcome pyval :=
  match container with
  | PDict d =>
      match dict_get d key with
      | Some v => Return v
      | None => Raise (Exc KeyError (quoted key))
      end
  | PList _ => Raise (Exc TypeError "list indices must be integers or slices, not str")
  | PStr _ => Raise (Exc TypeError "string indices must be integers")
  | v => not_subscriptable v
  end.

(** [container[0]]. *)
Definition py_getitem_0 (container : pyval) : outcome pyval :=
  match container with
  | PList (x :: _) => Return x
  | PList [] => Raise (Exc IndexError "list index out of range")
  | PStr (String c _) => Return (PStr (String c EmptyString))
  | PStr EmptyString => Raise (Exc IndexError "string index out of range")
  | PDict _ => Raise (Exc KeyError "0")
  | v => not_subscriptable v
  end.

(** [len(v)]. *)
Definition py_len (v : pyval) : outcome Z :=
  match v with
  | PList items => Return (Z.of_nat (List.length items))
  | PStr s => Return (Z.of_nat (String.length s))
  | PDict d => Return (Z.of_nat (List.length d))
  | v => Raise (Exc TypeError
                  ("object of type " ++ quoted (type_name v) ++ " has no len()"))
  end.

(** [v.get(key, default)]: only a [dict] has the method. *)
Definition py_get (v : pyval) (key : string) (default : pyval) : outcome pyval :=
  match v with
  | PDict d =>
      Return (match dict_get d key with Some x => x | None => default end)
  | v => Raise (Exc AttributeError
                  (quoted (type_name v) ++ " object has no attribute 'get'"))
  end.

(** The integer a finite float equals, when it equals one. *)
Definition float_as_int (f : spec_float) : option Z :=
  match f with
  | S754_zero _ => Some 0
  | S754_finite s m e =>
      let v := if s then Z.neg m else Z.pos m in
      if 0 <=? e then Some (v * 2 ^ e)
      else if v mod 2 ^ (- e) =? 0 then Some (v / 2 ^ (- e)) else None
  | _ => None
  end.

Definition int_eq_float (n : Z) (f : spec_float) : bool :=
  match float_as_int f with
  | Some k => n =? k
  | None => false
  end.

Definition int_of_bool (b : bool) : Z := if b then 1 else 0.

(** [a == b].  Numbers compare by value across [bool], [int] and [float];
    lists compare element by element; two dicts are equal when they have
    the same keys with equal values, whatever the order. *)
Fixpoint py_eq (a b : pyval) {struct a} : bool :=
  match a, b with
  | PNone, PNone => true
  | PBool x, PBool y => Bool.eqb x y
  | PBool x, PInt n => int_of_bool x =? n
  | PInt n, PBool y => n =? int_of_bool y
  | PBool x, PFloat f => int_eq_float (int_of_bool x) f
  | PFloat f, PBool y => int_eq_float (int_of_bool y) f
  | PInt n, PInt m => n =? m
  | PInt n, PFloat f => int_eq_float n f
  | PFloat f, PInt n => int_eq_float n f
  | PFloat f, PFloat g => SFeqb f g
  | PStr s, PStr t => String.eqb s t
  | PList xs, PList ys =>
      (fix each (xs ys : list pyval) {struct xs} : bool :=
         match xs, ys with
         | [], [] => true
         | x :: xs', y :: ys' => py_eq x y && each xs' ys'
         | _, _ => false
         end) xs ys
  | PDict d, PDict d' =>
      (List.length d =? List.length d')%nat
      && (fix each (d : list (string * pyval)) {struct d} : bool :=
            match d with
            | [] => true
            | (k, v) :: rest =>
                match dict_get d' k with
                | Some v' => py_eq v v'
                | None => false
                end && each rest
            end) d
  | _, _ => false
  end.

(** How [repr] writes one byte inside a bytes literal delimited by [q]. *)
Definition hex_digit (n : nat) : string :=
  String.substring n 1 "0123456789abcdef".

Definition repr_byte (q : ascii) (c : ascii) : string :=
  let n := nat_of_ascii c in
  if Ascii.eqb c "\"%char then "\\"
  else if Ascii.eqb c q then String "\"%char (String c EmptyString)
  else if Ascii.eqb c "009"%char then "\t"
  else if Ascii.eqb c "010"%char then "\n"
  else if Ascii.eqb c "013"%char then "\r"
  else if ((n <? 32) || (126 <? n))%nat
       then "\x" ++ hex_digit (Nat.div n 16) ++ hex_digit (Nat.modulo n 16)
  else String c EmptyString.

Fixpoint repr_body (q : ascii) (b : bytes) : string :=
  match b with
  | EmptyString => EmptyString
  | String c rest => repr_byte q c ++ repr_body q rest
  end.

Fixpoint has_char (c : ascii) (s : string) : bool :=
  match s with
  | EmptyString => false
  | String c' rest => Ascii.eqb c c' || has_char c rest
  end.

(** [repr(b)] of a [bytes] object, which is also what an f-string writes
    for it: single quotes unless the bytes hold a single quote and no
    double quote. *)
Definition bytes_repr (b : bytes) : string :=
  let q := if has_char "'"%char b && negb (has_char "034"%char b)
           then "034"%char else "'"%char in
  "b" ++ String q (repr_body q b) ++ String q EmptyString.

End PyModel.

(** ** The environment and the monad of the two scripts *)

Module Env.
Import PyModel.

(** What [urllib.request.Request] is given. *)
Record request : Type := mk_request {
  req_url : string;
  req_data : bytes;
  req_headers : list (string * string);
  req_timeout : Z
}.

(** What opening and reading a file does: the text, or the exception that
    [open] or [f.read()] raises ([OSError] for a missing or unreadable
    file, [UnicodeDecodeError] for bytes that are not text, ...). *)
Inductive read_outcome : Type :=
| ReadOk (text : string)
| ReadRaises (e : exn).

(** What [urlopen] does with a request.
    - [Response body]: a response arrives; [body] is what
      [response.read().decode('utf-8')] evaluates to;
    - [HTTPError code body]: the server answers with an error status;
      [body] is what [e.read()] evaluates to;
    - [URLError reason]: the transport fails; [reason] is [str(e.reason)];
    - [Raised e]: any other exception. *)
Inductive net_outcome : Type :=
| Response (body : outcome string)
| HTTPError (code : Z) (body : outcome bytes)
| URLError (reason : string)
| Raised (e : exn).

(** The process environment, the file system, the network and the library
    functions whose code is not part of the program.  [urlopen] may answer
    differently at each call: its first argument counts the calls made
    before.  [json_dumps] is total: every [pyval] is serialisable.
    [py_repr] is [repr] on floats and containers. *)
Record world : Type := mk_world {
  environ : string -> option string;
  fs : string -> read_outcome;
  urlopen : nat -> request -> net_outcome;
  json_dumps : pyval -> string;
  json_loads : string -> outcome pyval;
  json_loads_bytes : bytes -> outcome pyval;
  json_importable : bool;
  py_repr : pyval -> string;
  ssl_OPENSSL_VERSION : option string;
  ssl_has_PROTOCOL_TLSv1_2 : bool
}.

(** [os.environ.get(name, '')]. *)
Definition environ_get (w : world) (name : string) : string :=
  match environ w name with
  | Some v => v
  | None => EmptyString
  end.

(** Truth value of a [str]. *)
Definition truthy (s : string) : bool :=
  match s with
  | EmptyString => false
  | String _ _ => true
  end.

(** [str(v)], which is also what an f-string writes for [v]. *)
Definition py_str (w : world) (v : pyval) : string :=
  match v with
  | PStr s => s
  | PNone => "None"
  | PBool true => "True"
  | PBool false => "False"
  | PInt n => str_of_int n
  | v => py_repr w v
  end.

(** The observable state: what was written to standard output, oldest
    first, and the requests handed to [urlopen], oldest first. *)
Record io_state : Type := mk_state {
  stdout : list string;
  sent : list request
}.

Definition M (A : Type) : Type := io_state -> outcome A * io_state.

Definition ret {A : Type} (a : A) : M A := fun st => (Return a, st).

Definition raise {A : Type} (e : exn) : M A := fun st => (Raise e, st).

Definition bind {A B : Type} (m : M A) (k : A -> M B) : M B :=
  fun st =>
    match m st with
    | (Return a, st') => k a st'
    | (Raise e, st') => (Raise e, st')
    end.

Definition lift {A : Type} (o : outcome A) : M A := fun st => (o, st).

Declare Scope py_scope.
Delimit Scope py_scope with py.
Notation "x <- m ;; k" := (bind m (fun x => k))
  (at level 61, m at next level, right associativity) : py_scope.
Notation "m ;; k" := (bind m (fun _ => k))
  (at level 61, right associativity) : py_scope.

(** Writing to standard output.  Standard output takes every string it
    is given, as a terminal in UTF-8 does: writing never raises. *)
Definition write (s : string) : M unit :=
  fun st => (Return tt, mk_state (stdout st ++ [s])%list (sent st)).

(** [print(s)]. *)
Definition print (s : string) : M unit := write (s ++ nl).

(** [urllib.request.urlopen(req, timeout=...)]: the request goes out. *)
Definition do_urlopen (w : world) (req : request) : M net_outcome :=
  fun st =>
    (Return (urlopen w (List.length (sent st)) req),
     mk_state (stdout st) (sent st ++ [req])%list).

(** How a process ends: status 0 when [main] returns, the code of
    [sys.exit], 1 after the traceback of an uncaught exception, and 130
    when that exception is [KeyboardInterrupt]. *)
Definition exit_status {A : Type} (r : outcome A) : Z :=
  match r with
  | Return _ => 0
  | Raise (SystemExit code) => code
  | Raise (Exc KeyboardInterrupt _) => 130
  | Raise (Exc _ _) => 1
  end.

End Env.

(** ** claude_powerbook.py *)

Module claude_powerbook.
Import PyModel Env.
Local Open Scope py_scope.

Definition ANTHROPIC_API_KEY (w : world) : string :=
  environ_get w "ANTHROPIC_API_KEY".
Definition API_URL : string := "https://api.anthropic.com/v1/messages".
Definition API_VERSION : string := "2023-06-01".
Definition MODEL : string := "claude-sonnet-4-20250514".
Definition MAX_TOKENS : Z := 4000.

Definition check_ssl (w : world) : M bool :=
  match ssl_OPENSSL_VERSION w with
  | Some ssl_version =>
      print ("Using: " ++ ssl_version) ;;
      if negb (ssl_has_PROTOCOL_TLSv1_2 w) then
        print "WARNING: TLS 1.2 support may not be available" ;;
        print "You may need to rebuild Python's ssl module against OpenSSL 3.x" ;;
        ret false
      else ret true
  | None =>
      print "ERROR: SSL module not available or too old" ;;
      ret false
  end.

(** [None] is the value the source returns after an [IOError]; any other
    exception leaves the function. *)
Definition read_file (w : world) (filepath : string) : M (option string) :=
  match fs w filepath with
  | ReadOk text => ret (Some text)
  | ReadRaises e =>
      if is_IOError e then
        print ("Error reading file: " ++ exc_str e) ;;
        ret None
      else raise e
  end.

(** The dictionary [payload] of [call_claude_api]. *)
Definition payload (prompt : string) : pyval :=
  PDict [("model", PStr MODEL);
         ("max_tokens", PInt MAX_TOKENS);
         ("messages", PList [PDict [("role", PStr "user");
                                    ("content", PStr prompt)]])].

Definition api_request (w : world) (prompt : string) : request :=
  mk_request API_URL
             (json_dumps w (payload prompt))
             [("Content-Type", "application/json");
              ("x-api-key", ANTHROPIC_API_KEY w);
              ("anthropic-version", API_VERSION)]
             60.

(** "Extract the response text": the [if]/[else] on the decoded body. *)
Definition extract_text (result : pyval) : outcome pyval :=
  let? has_content := py_in "content" result in
  let? nonempty :=
    (if has_content : bool then
       let? content := py_getitem_str result "content" in
       let? n := py_len content in
       Return (0 <? n)
     else Return false) in
  if nonempty : bool then
    let? content := py_getitem_str result "content" in
    let? first := py_getitem_0 content in
    py_getitem_str first "text"
  else Return (PStr "ERROR: Unexpected response format").

(** The inner [try] of the [HTTPError] handler; its bare [except] catches
    whatever the first branch raises. *)
Definition http_error_text (w : world) (code : Z) (error_body : bytes) : string :=
  match (let? error_json := json_loads_bytes w error_body in
         let? err := py_get error_json "error" (PDict []) in
         let? message := py_get err "message" (PStr "Unknown error") in
         Return ("API Error (" ++ str_of_int code ++ "): " ++ py_str w message)) with
  | Return text => text
  | Raise _ => "HTTP Error " ++ str_of_int code ++ ": " ++ bytes_repr error_body
  end.

(** [except Exception as e: return f"Error: {e}"]. *)
Definition except_Exception (o : outcome pyval) : M pyval :=
  match o with
  | Return v => ret v
  | Raise e =>
      if is_Exception e then ret (PStr ("Error: " ++ exc_str e))
      else raise e
  end.

Definition call_claude_api (w : world) (prompt : string) : M pyval :=
  if negb (truthy (ANTHROPIC_API_KEY w)) then
    ret (PStr "ERROR: ANTHROPIC_API_KEY environment variable not set")
  else
    answer <- do_urlopen w (api_request w prompt) ;;
    match answer with
    | Response (Return body) =>
        except_Exception (let? result := json_loads w body in extract_text result)
    | Response (Raise e) => except_Exception (Raise e)
    | HTTPError code (Return error_body) =>
        ret (PStr (http_error_text w code error_body))
    | HTTPError code (Raise e) => raise e
    | URLError reason => ret (PStr ("Connection Error: " ++ reason))
    | Raised e => except_Exception (Raise e)
    end.

(** The section of one context file. *)
Definition file_section (filepath : string) (content : option string) : string :=
  match content with
  | Some ((String _ _) as text) =>
      nl ++ "--- " ++ filepath ++ " ---" ++ nl ++ text ++ nl
  | _ => nl ++ "--- " ++ filepath ++ " ---" ++ nl ++ "[Could not read file]" ++ nl
  end.

(** The [for] loop of [send_to_claude]. *)
Fixpoint append_context (w : world) (full_prompt : string)
         (context_files : list string) : M string :=
  match context_files with
  | [] => ret full_prompt
  | filepath :: rest =>
      content <- read_file w filepath ;;
      append_context w (full_prompt ++ file_section filepath content) rest
  end.

(** The value of [full_prompt] when [send_to_claude] reaches its last
    line.  [None] and the empty list are both false. *)
Definition build_full_prompt (w : world) (prompt : string)
           (context_files : option (list string)) : M string :=
  match context_files with
  | Some ((_ :: _) as files) =>
      append_context w (prompt ++ nl ++ nl ++ "Context files:" ++ nl) files
  | _ => ret prompt
  end.

Definition send_to_claude (w : world) (prompt : string)
           (context_files : option (list string)) : M pyval :=
  full_prompt <- build_full_prompt w prompt context_files ;;
  call_claude_api w full_prompt.

(** What [input] meets on standard input: a line, which it returns
    without its newline; Ctrl-C, on which it raises [KeyboardInterrupt];
    or anything else that makes it raise, such as bytes that are not text
    in the encoding of the terminal ([UnicodeDecodeError]).  The end of
    the list is the end of input. *)
Inductive stdin_event : Type :=
| Line (text : string)
| Interrupt
| InputRaises (e : exn).

(** How one turn of the [while] loop ends. *)
Inductive loop_ctl : Type :=
| Continue
| Break.

(** The commands that send a fixed instruction about one file. *)
Definition file_command (w : world) (parts : list string)
           (usage progress instruction : string) : M loop_ctl :=
  if (List.length parts <? 2)%nat then
    print usage ;; ret Continue
  else
    let filepath := nth 1 parts EmptyString in
    print (nl ++ progress) ;;
    response <- send_to_claude w instruction (Some [filepath]) ;;
    print (nl ++ py_str w response ++ nl) ;;
    ret Continue.

(** The body of the [try] block after [input] returned [line]. *)
Definition handle_line (w : world) (line : string) : M loop_ctl :=
  let line := strip line in
  if negb (truthy line) then ret Continue
  else if String.eqb line "quit" then ret Break
  else
    let parts := split_ws 2 line in
    let command := match parts with c :: _ => c | [] => EmptyString end in
    if String.eqb command "ask" then
      if (List.length parts <? 2)%nat then
        print "Usage: ask <question>" ;; ret Continue
      else
        let question := join " " (tl parts) in
        print (nl ++ "Thinking...") ;;
        response <- send_to_claude w question None ;;
        print (nl ++ py_str w response ++ nl) ;;
        ret Continue
    else if String.eqb command "file" then
      if (List.length parts <? 3)%nat then
        print "Usage: file <path> <question>" ;; ret Continue
      else
        let filepath := nth 1 parts EmptyString in
        let question := nth 2 parts EmptyString in
        print (nl ++ "Analyzing...") ;;
        response <- send_to_claude w question (Some [filepath]) ;;
        print (nl ++ py_str w response ++ nl) ;;
        ret Continue
    else if String.eqb command "explain" then
      file_command w parts "Usage: explain <path>" "Analyzing..."
        "Please explain what this code does, how it works, and any important details:"
    else if String.eqb command "fix" then
      file_command w parts "Usage: fix <path>" "Analyzing..."
        "Please review this code and suggest improvements, bug fixes, or optimizations:"
    else if String.eqb command "review" then
      file_command w parts "Usage: review <path>" "Reviewing..."
        "Please perform a thorough code review, checking for bugs, security issues, style problems, and suggesting improvements:"
    else if String.eqb command "test" then
      file_command w parts "Usage: test <path>" "Generating tests..."
        "Please generate unit tests for this code. Include edge cases and error conditions:"
    else
      print ("Unknown command: " ++ command) ;; ret Continue.

(** The [while True] loop.  [input] writes the prompt and consumes one
    event; at the end of input it raises [EOFError], which leaves the
    loop.  The two handlers see what [input] raises and what the body
    raises; any other exception leaves the function. *)
Fixpoint command_loop (w : world) (stdin : list stdin_event) : M unit :=
  match stdin with
  | [] => write "claude> "
  | event :: rest =>
      write "claude> " ;;
      match event with
      | Interrupt =>
          print (nl ++ "Use 'quit' to exit") ;; command_loop w rest
      | InputRaises e =>
          if is_KeyboardInterrupt e then
            print (nl ++ "Use 'quit' to exit") ;; command_loop w rest
          else if is_EOFError e then ret tt
          else raise e
      | Line text =>
          fun st =>
            match handle_line w text st with
            | (Return Continue, st') => command_loop w rest st'
            | (Return Break, st') => (Return tt, st')
            | (Raise e, st') =>
                if is_KeyboardInterrupt e then
                  (print (nl ++ "Use 'quit' to exit") ;; command_loop w rest) st'
                else if is_EOFError e then (Return tt, st')
                else (Raise e, st')
            end
      end
  end.

Definition interactive_mode (w : world) (stdin : list stdin_event) : M unit :=
  print "Claude Client for PowerBook G4 (Direct API)" ;;
  print EmptyString ;;
  ssl_ok <- check_ssl w ;;
  (if negb ssl_ok then
     print (nl ++ "WARNING: SSL issues detected. API calls may fail.") ;;
     print ("Make sure Python is linked against OpenSSL 3.x" ++ nl)
   else ret tt) ;;
  if negb (truthy (ANTHROPIC_API_KEY w)) then
    print "ERROR: ANTHROPIC_API_KEY environment variable not set!" ;;
    print "Set it with: export ANTHROPIC_API_KEY=sk-ant-..."
  else
    print (nl ++ "Commands:") ;;
    print "  ask <question> - Ask Claude a question" ;;
    print "  file <path> <question> - Ask about a specific file" ;;
    print "  explain <path> - Ask Claude to explain a file" ;;
    print "  fix <path> - Ask Claude to suggest fixes for a file" ;;
    print "  review <path> - Get a code review" ;;
    print "  test <path> - Generate tests for code" ;;
    print "  quit - Exit" ;;
    print EmptyString ;;
    command_loop w stdin ;;
    print "Goodbye!".

(** [sys.argv] is [argv]; [sys.exit(1)] raises [SystemExit]. *)
Definition main (w : world) (argv : list string) (stdin : list stdin_event) : M unit :=
  if (List.length argv =? 1)%nat then
    interactive_mode w stdin
  else
    match nth_error argv 1 with
    | None => raise (Exc IndexError "list index out of range")
    | Some first =>
        if String.eqb first "--check-ssl" then
          print ("Checking SSL configuration..." ++ nl) ;;
          _ <- check_ssl w ;;
          ret tt
        else if (List.length argv =? 2)%nat then
          if negb (truthy (ANTHROPIC_API_KEY w)) then
            print "ERROR: ANTHROPIC_API_KEY not set" ;;
            raise (SystemExit 1)
          else
            response <- send_to_claude w first None ;;
            print (py_str w response)
        else
          if negb (truthy (ANTHROPIC_API_KEY w)) then
            print "ERROR: ANTHROPIC_API_KEY not set" ;;
            raise (SystemExit 1)
          else
            let question := first in
            let files := skipn 2 argv in
            response <- send_to_claude w question (Some files) ;;
            print (py_str w response)
    end.

End claude_powerbook.

(** ** test_setup.py: the JSON self-test *)

Module test_setup.
Import PyModel Env.
Local Open Scope py_scope.

(** ["=" * n]. *)
Fixpoint rule (n : nat) : string :=
  match n with
  | O => EmptyString
  | S k => String "="%char (rule k)
  end.

Definition print_header (text : string) : M unit :=
  print (nl ++ rule 60) ;;
  print text ;;
  print (rule 60).

Definition test_obj : pyval :=
  PDict [("test", PStr "value"); ("number", PInt 42)].

Definition is_ImportError (e : exn) : bool :=
  match e with
  | Exc ImportError _ => true
  | _ => false
  end.

Definition json_not_available : M bool :=
  print "ERROR: JSON module not available" ;;
  print "This should be included in Python 3.10+" ;;
  ret false.

(** [import json] fails with [ImportError] when the module is missing;
    the handler of the [try] also sees what the calls raise. *)
Definition check_json (w : world) : M bool :=
  print_header "JSON Support" ;;
  if json_importable w then
    print "JSON module: Available" ;;
    let encoded := json_dumps w test_obj in
    match json_loads w encoded with
    | Return decoded =>
        if py_eq decoded test_obj then
          print "JSON encoding/decoding: Working" ;;
          print "OK: JSON support is good" ;;
          ret true
        else
          print "ERROR: JSON encoding/decoding failed" ;;
          ret false
    | Raise e =>
        if is_ImportError e then json_not_available else raise e
    end
  else json_not_available.

(** *** The other checks

    What the diagnostics ask of the machine beyond a [world]: the
    interpreter, the modules that can be imported, the files that exist,
    and what the bare connection to the API host does. *)

(** What [urlopen] does with the probe of [test_https_connection]; a
    response is kept with its status, which is all the check reads. *)
Inductive probe_outcome : Type :=
| ProbeResponse (code : Z)
| ProbeHTTPError (code : Z)
| ProbeURLError (reason : string)
| ProbeRaised (e : exn).

(** [version_major], [version_minor] and [version_micro] are the first
    three fields of [sys.version_info]; [HTTPSHandler] is what calling
    [urllib.request.HTTPSHandler()] does. *)
Record host : Type := mk_host {
  host_world : world;
  sys_version : string;
  sys_executable : string;
  version_major : Z;
  version_minor : Z;
  version_micro : Z;
  ssl_importable : bool;
  ssl_has_PROTOCOL_TLS : bool;
  urllib_importable : bool;
  HTTPSHandler : outcome unit;
  path_exists : string -> bool;
  probe : probe_outcome
}.

(** [a < b] on tuples of integers: the first place where they differ
    decides, and a proper prefix is smaller. *)
Fixpoint tuple_lt (a b : list Z) : bool :=
  match a, b with
  | [], [] => false
  | [], _ :: _ => true
  | _ :: _, [] => false
  | x :: a', y :: b' =>
      if x <? y then true
      else if y <? x then false
      else tuple_lt a' b'
  end.

Definition check_python (h : host) : M bool :=
  print_header "Python Version" ;;
  print ("Python version: " ++ sys_version h) ;;
  print ("Python executable: " ++ sys_executable h) ;;
  if tuple_lt [version_major h; version_minor h; version_micro h] [3; 10] then
    print ("WARNING: Python 3.10+ recommended, you have " ++ sys_version h) ;;
    ret false
  else
    print "OK: Python version is compatible" ;;
    ret true.

(** Only [ImportError] is handled: a module without [OPENSSL_VERSION]
    makes the f-string raise [AttributeError]. *)
Definition check_ssl (h : host) : M bool :=
  print_header "SSL/TLS Support" ;;
  if ssl_importable h then
    print "SSL module: Available" ;;
    match ssl_OPENSSL_VERSION (host_world h) with
    | None => raise (Exc AttributeError "module 'ssl' has no attribute 'OPENSSL_VERSION'")
    | Some version =>
        print ("OpenSSL version: " ++ version) ;;
        if ssl_has_PROTOCOL_TLSv1_2 (host_world h) then
          print "TLS 1.2: Supported" ;;
          (if ssl_has_PROTOCOL_TLS h
           then print "TLS 1.3: Supported"
           else print "TLS 1.3: Not available (not critical)") ;;
          print "OK: SSL support looks good" ;;
          ret true
        else
          print "TLS 1.2: NOT SUPPORTED (required for Claude API)" ;;
          print "You need to rebuild Python against OpenSSL 3.x" ;;
          ret false
    end
  else
    print "ERROR: SSL module not available!" ;;
    print "Python was not compiled with SSL support" ;;
    ret false.

Definition urllib_not_available : M bool :=
  print "ERROR: urllib.request not available" ;;
  ret false.

Definition check_urllib (h : host) : M bool :=
  print_header "HTTP/HTTPS Support" ;;
  if urllib_importable h then
    print "urllib.request module: Available" ;;
    match HTTPSHandler h with
    | Return _ =>
        print "HTTPS handler: Available" ;;
        print "OK: HTTP/HTTPS support is good" ;;
        ret true
    | Raise e => if is_ImportError e then urllib_not_available else raise e
    end
  else urllib_not_available.

Definition check_api_key (h : host) : M bool :=
  print_header "API Configuration" ;;
  let api_key := environ_get (host_world h) "ANTHROPIC_API_KEY" in
  if negb (truthy api_key) then
    print "ERROR: ANTHROPIC_API_KEY environment variable not set" ;;
    print "Set it with: export ANTHROPIC_API_KEY=sk-ant-..." ;;
    print "Or add to ~/.bash_profile for permanent setup" ;;
    ret false
  else if String.prefix "sk-ant-" api_key then
    print "API key: Set (starts with sk-ant-)" ;;
    print ("API key length: " ++ str_of_int (Z.of_nat (String.length api_key))
           ++ " characters") ;;
    print "OK: API key is configured" ;;
    ret true
  else
    print "WARNING: API key doesn't start with 'sk-ant-'" ;;
    print "Make sure you're using a valid Anthropic API key" ;;
    ret false.

Definition cert_locations : list string :=
  ["/usr/local/ssl/cert.pem";
   "/usr/local/ssl/certs/ca-bundle.crt";
   "/etc/ssl/cert.pem";
   "/System/Library/OpenSSL/certs"].

(** The [for] loop over the locations, with the variable [found]. *)
Fixpoint scan_locations (h : host) (found : bool) (locations : list string) : M bool :=
  match locations with
  | [] => ret found
  | loc :: rest =>
      if path_exists h loc then
        print ("  " ++ loc ++ " - Found") ;;
        scan_locations h true rest
      else
        print ("  " ++ loc ++ " - Not found") ;;
        scan_locations h found rest
  end.

Definition check_certificates (h : host) : M bool :=
  print_header "SSL Certificates" ;;
  let cert_file := environ_get (host_world h) "SSL_CERT_FILE" in
  (if truthy cert_file then
     print ("SSL_CERT_FILE: " ++ cert_file) ;;
     if path_exists h cert_file
     then print "Certificate file: Exists"
     else print "WARNING: Certificate file not found"
   else print "SSL_CERT_FILE: Not set (using system default)") ;;
  print (nl ++ "Checking common certificate locations:") ;;
  found <- scan_locations h false cert_locations ;;
  if negb found && negb (truthy cert_file) then
    print (nl ++ "WARNING: No certificate bundle found") ;;
    print "SSL verification may fail" ;;
    print "Download certificates from: https://curl.se/ca/cacert.pem" ;;
    ret false
  else
    print "OK: Certificate configuration looks reasonable" ;;
    ret true.

(** [s.upper()], as code points: two characters of the model have their
    capital above 255, and the capital of the sharp s is two letters. *)
Definition upper_point (c : ascii) : list N :=
  let n := N_of_ascii c in
  (if (97 <=? n) && (n <=? 122) then [n - 32]
   else if n =? 181 then [924]
   else if n =? 223 then [83; 83]
   else if (224 <=? n) && (n <=? 254) && negb (n =? 247) then [n - 32]
   else if n =? 255 then [376]
   else [n])%N.

Fixpoint upper_points (s : string) : list N :=
  match s with
  | EmptyString => []
  | String c rest => (upper_point c ++ upper_points rest)%list
  end.

Fixpoint points (s : string) : list N :=
  match s with
  | EmptyString => []
  | String c rest => N_of_ascii c :: points rest
  end.

Fixpoint starts_with (p l : list N) : bool :=
  match p, l with
  | [], _ => true
  | _ :: _, [] => false
  | x :: p', y :: l' => (x =? y)%N && starts_with p' l'
  end.

Fixpoint occurs (p l : list N) : bool :=
  if starts_with p l then true
  else match l with
       | [] => false
       | _ :: rest => occurs p rest
       end.

(** [word in s.upper()]. *)
Definition in_upper (word s : string) : bool := occurs (points word) (upper_points s).

(** [Request('https://api.anthropic.com')] with the timeout of the call:
    it has no data and no headers of its own, the record holds the empty
    ones for it. *)
Definition probe_request : request :=
  mk_request "https://api.anthropic.com" EmptyString [] 10.

Definition do_probe (h : host) : M probe_outcome :=
  fun st => (Return (probe h), mk_state (stdout st) (sent st ++ [probe_request])%list).

(** Evaluating [urllib.error.HTTPError] in an [except] clause when the
    import that binds [urllib] has failed. *)
Definition urllib_unbound {A : Type} : M A :=
  raise (Exc OtherException "local variable 'urllib' referenced before assignment").

Definition test_https_connection (h : host) : M bool :=
  print_header "HTTPS Connection Test" ;;
  if urllib_importable h then
    print "Testing HTTPS connection to api.anthropic.com..." ;;
    answer <- do_probe h ;;
    match answer with
    | ProbeResponse code =>
        print "Connection: SUCCESS" ;;
        print ("Response code: " ++ str_of_int code) ;;
        print "OK: Can connect to Anthropic API" ;;
        ret true
    | ProbeHTTPError code =>
        print "Connection: SUCCESS" ;;
        print ("Response code: " ++ str_of_int code) ;;
        print "OK: HTTPS connection established (HTTP error is expected)" ;;
        ret true
    | ProbeURLError reason =>
        print "Connection: FAILED" ;;
        print ("Error: " ++ reason) ;;
        (if in_upper "CERTIFICATE" reason then
           print (nl ++ "This is a certificate validation error.") ;;
           print "Try: export SSL_CERT_FILE=/path/to/cacert.pem"
         else if in_upper "SSL" reason then
           print (nl ++ "This is an SSL/TLS error.") ;;
           print "Make sure OpenSSL 3.x is installed and Python is linked to it"
         else ret tt) ;;
        ret false
    | ProbeRaised e =>
        if is_Exception e then
          print "Connection: FAILED" ;;
          print ("Error: " ++ exc_str e) ;;
          ret false
        else raise e
    end
  else urllib_unbound.

Definition test_prompt : string :=
  "Say " ++ dquote ++ "Hello from PowerBook G4!" ++ dquote ++ " and nothing else.".

Definition test_payload : pyval :=
  PDict [("model", PStr "claude-sonnet-4-20250514");
         ("max_tokens", PInt 50);
         ("messages", PList [PDict [("role", PStr "user");
                                    ("content", PStr test_prompt)]])].

Definition test_request (w : world) : request :=
  mk_request "https://api.anthropic.com/v1/messages"
             (json_dumps w test_payload)
             [("Content-Type", "application/json");
              ("x-api-key", environ_get w "ANTHROPIC_API_KEY");
              ("anthropic-version", "2023-06-01")]
             30.

(** [except Exception as e] of [test_api_call]. *)
Definition api_call_failed (e : exn) : M bool :=
  if is_Exception e then
    print ("API call failed: " ++ exc_str e) ;;
    ret false
  else raise e.

(** The [if]/[else] on the decoded body. *)
Definition report_reply (w : world) (result : pyval) : M bool :=
  let condition :=
    let? has_content := py_in "content" result in
    if has_content : bool then
      let? content := py_getitem_str result "content" in
      let? n := py_len content in
      Return (0 <? n)
    else Return false in
  match condition with
  | Raise e => api_call_failed e
  | Return false =>
      print "ERROR: Unexpected response format" ;;
      ret false
  | Return true =>
      match (let? content := py_getitem_str result "content" in
             let? first := py_getitem_0 content in
             py_getitem_str first "text") with
      | Raise e => api_call_failed e
      | Return claude_response =>
          print (nl ++ "Claude's response:") ;;
          print ("  " ++ dquote ++ py_str w claude_response ++ dquote) ;;
          print (nl ++ "SUCCESS: Everything is working!") ;;
          ret true
      end
  end.

(** The inner [try] of the [HTTPError] handler: reading the body is
    inside it. *)
Definition report_http_error (w : world) (code : Z) (body : outcome bytes) : M bool :=
  print ("API call failed with HTTP error " ++ str_of_int code) ;;
  match (let? raw := body in
         let? error_body := json_loads_bytes w raw in
         let? err := py_get error_body "error" (PDict []) in
         py_get err "message" (PStr "Unknown")) with
  | Return message => print ("Error message: " ++ py_str w message)
  | Raise _ => print "Could not parse error response"
  end ;;
  ret false.

Definition test_api_call (h : host) : M bool :=
  let w := host_world h in
  print_header "Claude API Test" ;;
  let api_key := environ_get w "ANTHROPIC_API_KEY" in
  if negb (truthy api_key) then
    print "Skipping: API key not set" ;;
    ret false
  else if negb (urllib_importable h) then urllib_unbound
  else if negb (json_importable w) then
    api_call_failed (Exc ImportError "No module named 'json'")
  else
    print "Making test API call..." ;;
    print "(This will use a small amount of your API credits)" ;;
    answer <- do_urlopen w (test_request w) ;;
    match answer with
    | Response (Return body) =>
        match json_loads w body with
        | Return result => report_reply w result
        | Raise e => api_call_failed e
        end
    | Response (Raise e) => api_call_failed e
    | HTTPError code body => report_http_error w code body
    | URLError reason =>
        api_call_failed (Exc OSError ("<urlopen error " ++ reason ++ ">"))
    | Raised e => api_call_failed e
    end.

(** The two marks of the summary lie above code point 255: they are
    kept as the bytes standard output receives for them. *)
Definition check_mark : string :=
  String "226"%char (String "156"%char (String "147"%char EmptyString)).
Definition cross_mark : string :=
  String "226"%char (String "156"%char (String "151"%char EmptyString)).

(** The eight appends to [results]. *)
Definition run_checks (h : host) : M (list (string * bool)) :=
  r1 <- check_python h ;;
  r2 <- check_ssl h ;;
  r3 <- check_json (host_world h) ;;
  r4 <- check_urllib h ;;
  r5 <- check_api_key h ;;
  r6 <- check_certificates h ;;
  r7 <- test_https_connection h ;;
  r8 <- test_api_call h ;;
  ret [("Python", r1); ("SSL/TLS", r2); ("JSON", r3); ("HTTP/HTTPS", r4);
       ("API Key", r5); ("Certificates", r6); ("HTTPS Connection", r7);
       ("API Call", r8)].

(** The [for] loop of the summary, with the variable [all_passed]. *)
Fixpoint summarise (all_passed : bool) (results : list (string * bool)) : M bool :=
  match results with
  | [] => ret all_passed
  | (name, passed) :: rest =>
      let status := if passed : bool then "PASS" else "FAIL" in
      let symbol := if passed : bool then check_mark else cross_mark in
      print (symbol ++ " " ++ name ++ ": " ++ status) ;;
      summarise (if negb passed then false else all_passed) rest
  end.

Definition main (h : host) : M unit :=
  print (rule 60) ;;
  print "Claude PowerBook Client - Diagnostic Test" ;;
  print (rule 60) ;;
  results <- run_checks h ;;
  print_header "Summary" ;;
  all_passed <- summarise true results ;;
  print EmptyString ;;
  (if all_passed : bool then
     print "SUCCESS! Everything is working correctly." ;;
     print "You can now use the Claude client: ./tiger-claude.py"
   else
     print "PROBLEMS DETECTED. Please fix the issues above." ;;
     print "Refer to BUILDING.md for detailed instructions.") ;;
  print EmptyString.

End test_setup.

(** ** A small JSON codec

    It stands for the [json] module in the worlds the properties are
    exercised on.  The encoder writes what [json.dumps] writes with its
    default separators and [ensure_ascii]; floats are written by a function
    it is given.  The decoder reads integers, strings, literals, arrays and
    objects; a number with a fraction or an exponent is refused, and so is
    an escape above code point 255. *)

Module MiniJson.
Import PyModel.

Definition backslash : ascii := "\"%char.

Definition escape_char (c : ascii) : string :=
  let n := nat_of_ascii c in
  if Ascii.eqb c "034"%char then String backslash dquote
  else if Ascii.eqb c backslash then "\\"
  else if Ascii.eqb c "010"%char then "\n"
  else if Ascii.eqb c "013"%char then "\r"
  else if Ascii.eqb c "009"%char then "\t"
  else if Ascii.eqb c "012"%char then "\f"
  else if Ascii.eqb c "008"%char then "\b"
  else if ((n <? 32) || (126 <? n))%nat
       then "\u00" ++ hex_digit (Nat.div n 16) ++ hex_digit (Nat.modulo n 16)
  else String c EmptyString.

Fixpoint escape (s : string) : string :=
  match s with
  | EmptyString => EmptyString
  | String c rest => escape_char c ++ escape rest
  end.

Definition quote (s : string) : string := dquote ++ escape s ++ dquote.

Fixpoint dumps (float_repr : spec_float -> string) (v : pyval) : string :=
  match v with
  | PNone => "null"
  | PBool true => "true"
  | PBool false => "false"
  | PInt n => str_of_int n
  | PFloat f => float_repr f
  | PStr s => quote s
  | PList items => "[" ++ join ", " (map (dumps float_repr) items) ++ "]"
  | PDict entries =>
      "{" ++ join ", " (map (fun kv => let '(k, x) := kv in
                                     quote k ++ ": " ++ dumps float_repr x)
                           entries) ++ "}"
  end.

Definition is_json_ws (c : ascii) : bool :=
  Ascii.eqb c " "%char || Ascii.eqb c "009"%char
  || Ascii.eqb c "010"%char || Ascii.eqb c "013"%char.

Fixpoint skip_ws (s : string) : string :=
  match s with
  | String c rest => if is_json_ws c then skip_ws rest else s
  | EmptyString => EmptyString
  end.

Definition digit_value (c : ascii) : option Z :=
  let n := nat_of_ascii c in
  if ((48 <=? n) && (n <=? 57))%nat then Some (Z.of_nat (n - 48)) else None.

Definition hex_value (c : ascii) : option nat :=
  let n := nat_of_ascii c in
  if ((48 <=? n) && (n <=? 57))%nat then Some (n - 48)%nat
  else if ((97 <=? n) && (n <=? 102))%nat then Some (n - 87)%nat
  else if ((65 <=? n) && (n <=? 70))%nat then Some (n - 55)%nat
  else None.

(** The digits at the head of [s], read in base ten after [acc]. *)
Fixpoint read_digits (acc : Z) (count : nat) (s : string) : Z * nat * string :=
  match s with
  | String c rest =>
      match digit_value c with
      | Some d => read_digits (10 * acc + d) (S count) rest
      | None => (acc, count, s)
      end
  | EmptyString => (acc, count, s)
  end.

Definition starts_fraction (s : string) : bool :=
  match s with
  | String c _ => Ascii.eqb c "."%char || Ascii.eqb c "e"%char || Ascii.eqb c "E"%char
  | EmptyString => false
  end.

Definition read_unsigned (s : string) : option (Z * string) :=
  match read_digits 0 0 s with
  | (_, O, _) => None
  | (n, count, rest) =>
      if String.prefix "0" s && (1 <? count)%nat then None
      else if starts_fraction rest then None
      else Some (n, rest)
  end.

(** The characters of a string literal after its opening quote. *)
Fixpoint read_string (s : string) : option (string * string) :=
  match s with
  | EmptyString => None
  | String c rest =>
      if Ascii.eqb c "034"%char then Some (EmptyString, rest)
      else if Ascii.eqb c backslash then
        match rest with
        | String e rest1 =>
            let plain (x : ascii) :=
              match read_string rest1 with
              | Some (body, tail) => Some (String x body, tail)
              | None => None
              end in
            if Ascii.eqb e "034"%char then plain "034"%char
            else if Ascii.eqb e backslash then plain backslash
            else if Ascii.eqb e "/"%char then plain "/"%char
            else if Ascii.eqb e "n"%char then plain "010"%char
            else if Ascii.eqb e "r"%char then plain "013"%char
            else if Ascii.eqb e "t"%char then plain "009"%char
            else if Ascii.eqb e "f"%char then plain "012"%char
            else if Ascii.eqb e "b"%char then plain "008"%char
            else if Ascii.eqb e "u"%char then
              match rest1 with
              | String h1 (String h2 (String h3 (String h4 rest2))) =>
                  match hex_value h1, hex_value h2, hex_value h3, hex_value h4 with
                  | Some O, Some O, Some a, Some b =>
                      match read_string rest2 with
                      | Some (body, tail) =>
                          Some (String (ascii_of_nat (16 * a + b)) body, tail)
                      | None => None
                      end
                  | _, _, _, _ => None
                  end
              | _ => None
              end
            else None
        | EmptyString => None
        end
      else if (nat_of_ascii c <? 32)%nat then None
      else
        match read_string rest with
        | Some (body, tail) => Some (String c body, tail)
        | None => None
        end
  end.

(** [d[k] = v] on an insertion-ordered dictionary. *)
Fixpoint dict_set (d : list (string * pyval)) (k : string) (v : pyval)
  : list (string * pyval) :=
  match d with
  | [] => [(k, v)]
  | (k', v') :: rest =>
      if String.eqb k' k then (k', v) :: rest else (k', v') :: dict_set rest k v
  end.

Definition drop_prefix (p s : string) : option string :=
  if String.prefix p s
  then Some (String.substring (String.length p) (String.length s - String.length p) s)
  else None.

Fixpoint read_value (fuel : nat) (s : string) : option (pyval * string) :=
  match fuel with
  | O => None
  | S fuel' =>
      match skip_ws s with
      | EmptyString => None
      | (String c rest) as body =>
          if Ascii.eqb c "034"%char then
            match read_string rest with
            | Some (text, tail) => Some (PStr text, tail)
            | None => None
            end
          else if Ascii.eqb c "["%char then
            match skip_ws rest with
            | String c' tail =>
                if Ascii.eqb c' "]"%char then Some (PList [], tail)
                else read_items fuel' [] rest
            | EmptyString => None
            end
          else if Ascii.eqb c "{"%char then
            match skip_ws rest with
            | String c' tail =>
                if Ascii.eqb c' "}"%char then Some (PDict [], tail)
                else read_members fuel' [] rest
            | EmptyString => None
            end
          else if Ascii.eqb c "-"%char then
            match read_unsigned rest with
            | Some (n, tail) => Some (PInt (- n), tail)
            | None => None
            end
          else
            match drop_prefix "true" body, drop_prefix "false" body,
                  drop_prefix "null" body with
            | Some tail, _, _ => Some (PBool true, tail)
            | _, Some tail, _ => Some (PBool false, tail)
            | _, _, Some tail => Some (PNone, tail)
            | _, _, _ =>
                match read_unsigned body with
                | Some (n, tail) => Some (PInt n, tail)
                | None => None
                end
            end
      end
  end

with read_items (fuel : nat) (seen : list pyval) (s : string)
  : option (pyval * string) :=
  match fuel with
  | O => None
  | S fuel' =>
      match read_value fuel' s with
      | Some (v, tail) =>
          match skip_ws tail with
          | String c tail' =>
              if Ascii.eqb c ","%char then read_items fuel' (seen ++ [v])%list tail'
              else if Ascii.eqb c "]"%char then Some (PList (seen ++ [v])%list, tail')
              else None
          | EmptyString => None
          end
      | None => None
      end
  end

with read_members (fuel : nat) (seen : list (string * pyval)) (s : string)
  : option (pyval * string) :=
  match fuel with
  | O => None
  | S fuel' =>
      match skip_ws s with
      | String q rest =>
          if Ascii.eqb q "034"%char then
            match read_string rest with
            | Some (key, tail) =>
                match skip_ws tail with
                | String colon tail1 =>
                    if Ascii.eqb colon ":"%char then
                      match read_value fuel' tail1 with
                      | Some (v, tail2) =>
                          match skip_ws tail2 with
                          | String c tail3 =>
                              if Ascii.eqb c ","%char
                              then read_members fuel' (dict_set seen key v) tail3
                              else if Ascii.eqb c "}"%char
                              then Some (PDict (dict_set seen key v), tail3)
                              else None
                          | EmptyString => None
                          end
                      | None => None
                      end
                    else None
                | EmptyString => None
                end
            | None => None
            end
          else None
      | EmptyString => None
      end
  end.

Definition malformed {A : Type} : outcome A :=
  Raise (Exc JSONDecodeError "Expecting value").

(** [json.loads] on a [str]. *)
Definition loads (s : string) : outcome pyval :=
  match read_value (S (String.length s)) s with
  | Some (v, tail) =>
      match skip_ws tail with
      | EmptyString => Return v
      | String _ _ => Raise (Exc JSONDecodeError "Extra data")
      end
  | None => malformed
  end.

Definition is_ascii_text (b : bytes) : bool :=
  negb (existsb (fun c => (127 <? nat_of_ascii c)%nat) (list_ascii_of_string b)).

(** [json.loads] on [bytes]: ASCII input only. *)
Definition loads_bytes (b : bytes) : outcome pyval :=
  if is_ascii_text b then loads b
  else Raise (Exc UnicodeDecodeError "invalid start byte").

End MiniJson.

(** ** Worlds the properties are exercised on *)

Module Scenario.
Import PyModel Env.

Definition float_text (f : spec_float) : string := "NaN".
Definition object_text (v : pyval) : string := "<object>".

Definition key_only (key : option string) (name : string) : option string :=
  if String.eqb name "ANTHROPIC_API_KEY" then key else None.

Definition undecodable : exn :=
  Exc UnicodeDecodeError
      "'utf-8' codec can't decode byte 0xff in position 0: invalid start byte".

(** A disk with a text file, an empty file and a picture; nothing else. *)
Definition disk (path : string) : read_outcome :=
  if String.eqb path "notes.txt" then ReadOk "remember the milk"
  else if String.eqb path "empty.txt" then ReadOk EmptyString
  else if String.eqb path "photo.jpg" then ReadRaises undecodable
  else ReadRaises (Exc OSError ("[Errno 2] No such file or directory: " ++ quoted path)).

(** The same disk without the picture. *)
Definition text_disk (path : string) : read_outcome :=
  if String.eqb path "photo.jpg"
  then ReadRaises (Exc OSError ("[Errno 2] No such file or directory: " ++ quoted path))
  else disk path.

Definition world_on (files : string -> read_outcome) (key : option string)
           (net : nat -> request -> net_outcome) : world :=
  mk_world (key_only key) files net
           (MiniJson.dumps float_text) MiniJson.loads MiniJson.loads_bytes true
           object_text (Some "OpenSSL 3.0.13 30 Jan 2024") true.

Definition world_of (key : option string) (net : nat -> request -> net_outcome) : world :=
  world_on disk key net.

Definition replies (body : string) (n : nat) (req : request) : net_outcome :=
  Response (Return body).

Definition refuses (code : Z) (body : bytes) (n : nat) (req : request) : net_outcome :=
  HTTPError code (Return body).

Definition unreachable (n : nat) (req : request) : net_outcome :=
  URLError "[Errno 61] Connection refused".

Definition start : io_state := mk_state [] [].

Definition key : option string := Some "sk-ant-test".

(** A success body with one content block. *)
Definition hello_body : string :=
  MiniJson.dumps float_text
    (PDict [("id", PStr "msg_01");
            ("content", PList [PDict [("type", PStr "text"); ("text", PStr "Hello!")]])]).

Definition empty_content_body : string :=
  MiniJson.dumps float_text (PDict [("id", PStr "msg_01"); ("content", PList [])]).

Definition null_text_body : string :=
  MiniJson.dumps float_text (PDict [("content", PList [PDict [("text", PNone)]])]).

Definition overloaded_body : bytes :=
  MiniJson.dumps float_text
    (PDict [("type", PStr "error");
            ("error", PDict [("type", PStr "overloaded_error");
                             ("message", PStr "Overloaded")])]).

(** The plain-text body of a proxy, with its final newline. *)
Definition unavailable_body : bytes := "Service Unavailable" ++ nl.

(** An error status whose body cannot be read to the end. *)
Definition drops_error_body (n : nat) (req : request) : net_outcome :=
  HTTPError 502 (Raise (Exc OtherException "IncompleteRead(0 bytes read)")).

(** A machine that passes every diagnostic but for what the environment
    and the network decide. *)
Definition machine (w : world) (answer : test_setup.probe_outcome) : test_setup.host :=
  test_setup.mk_host w "3.11.4 (main, Jun  7 2023)" "/usr/local/bin/python3"
                     3 11 4 true true true (Return tt)
                     (fun path => String.eqb path "/etc/ssl/cert.pem") answer.

End Scenario.

(** ** Vocabulary of the properties *)

Module Vocabulary.
Import PyModel Env claude_powerbook.

(** [read_file] catches what reading [filepath] raises, if anything. *)
Definition caught (w : world) (filepath : string) : bool :=
  match fs w filepath with
  | ReadOk _ => true
  | ReadRaises e => is_IOError e
  end.

(** The section of [filepath]: its text when the read gives some, the
    marker when the read fails or gives nothing. *)
Definition section_of (w : world) (filepath : string) : string :=
  match fs w filepath with
  | ReadOk ((String _ _) as text) =>
      nl ++ "--- " ++ filepath ++ " ---" ++ nl ++ text ++ nl
  | _ => nl ++ "--- " ++ filepath ++ " ---" ++ nl ++ "[Could not read file]" ++ nl
  end.

Fixpoint sections (w : world) (files : list string) : string :=
  match files with
  | [] => EmptyString
  | filepath :: rest => section_of w filepath ++ sections w rest
  end.

(** [payload['messages'][0]['content']]. *)
Definition first_message_content (payload : pyval) : outcome pyval :=
  let? messages := py_getitem_str payload "messages" in
  let? message := py_getitem_0 messages in
  py_getitem_str message "content".

(** Bytes that [repr] writes as they are inside single quotes. *)
Definition plain_byte (c : ascii) : bool :=
  let n := nat_of_ascii c in
  (32 <=? n)%nat && (n <=? 126)%nat
  && negb (Ascii.eqb c "\"%char) && negb (Ascii.eqb c "'"%char).

Fixpoint all_plain (b : bytes) : bool :=
  match b with
  | EmptyString => true
  | String c rest => plain_byte c && all_plain rest
  end.

(** A world in which nothing escapes the handlers of the client: reading a
    file fails with [IOError] only, the body of an error response can be
    read, and what the network and the decoder raise derives from
    [Exception]. *)
Definition tame_answer (w : world) (answer : net_outcome) : Prop :=
  match answer with
  | Response (Return body) =>
      forall e, json_loads w body = Raise e -> is_Exception e = true
  | Response (Raise e) => is_Exception e = true
  | HTTPError _ (Return _) => True
  | HTTPError _ (Raise _) => False
  | URLError _ => True
  | Raised e => is_Exception e = true
  end.

Definition tame (w : world) : Prop :=
  (forall filepath, caught w filepath = true)
  /\ (forall n req, tame_answer w (urlopen w n req)).

(** The computation ends with a value, whatever the state it starts in. *)
Definition returns {A : Type} (m : M A) : Prop :=
  forall st, exists a st', m st = (Return a, st').

(** A request of the client: the fixed endpoint, the three headers with
    the key of the environment, the timeout of sixty seconds. *)
Definition is_api_request (w : world) (req : request) : Prop :=
  exists prompt : string, req = api_request w prompt.

(** The computation hands at most [bound] requests to [urlopen], each
    satisfying [P], and leaves the earlier ones in the log. *)
Definition adds {A : Type} (bound : nat) (P : request -> Prop) (m : M A) : Prop :=
  forall st, exists new,
    sent (snd (m st)) = (sent st ++ new)%list
    /\ (List.length new <= bound)%nat
    /\ Forall P new.

(** How many requests one call of the client may send. *)
Definition quota (w : world) : nat :=
  if truthy (ANTHROPIC_API_KEY w) then 1%nat else 0%nat.

(** [result['content'][0]['text']] when the decoded body has the shape
    for it. *)
Definition first_text (result : pyval) : option pyval :=
  match result with
  | PDict d =>
      match dict_get d "content" with
      | Some (PList (PDict block :: _)) => dict_get block "text"
      | _ => None
      end
  | _ => None
  end.

(** How the error strings of [call_claude_api] begin. *)
Definition error_tags : list string :=
  ["ERROR: ANTHROPIC_API_KEY environment variable not set";
   "ERROR: Unexpected response format";
   "API Error (";
   "HTTP Error ";
   "Connection Error: ";
   "Error: "].

Definition tagged (s : string) : bool :=
  existsb (fun tag => String.prefix tag s) error_tags.

(** The verbs that take one file and send a fixed instruction. *)
Definition instruction_of (verb : string) : option string :=
  if String.eqb verb "explain" then
    Some "Please explain what this code does, how it works, and any important details:"
  else if String.eqb verb "fix" then
    Some "Please review this code and suggest improvements, bug fixes, or optimizations:"
  else if String.eqb verb "review" then
    Some "Please perform a thorough code review, checking for bugs, security issues, style problems, and suggesting improvements:"
  else if String.eqb verb "test" then
    Some "Please generate unit tests for this code. Include edge cases and error conditions:"
  else None.

(** The usage line of a verb. *)
Definition usage_of (verb : string) : option string :=
  if String.eqb verb "ask" then Some "Usage: ask <question>"
  else if String.eqb verb "file" then Some "Usage: file <path> <question>"
  else if String.eqb verb "explain" then Some "Usage: explain <path>"
  else if String.eqb verb "fix" then Some "Usage: fix <path>"
  else if String.eqb verb "review" then Some "Usage: review <path>"
  else if String.eqb verb "test" then Some "Usage: test <path>"
  else None.

(** What [read_file] prints for the files it cannot read, in order. *)
Fixpoint read_errors (w : world) (files : list string) : list string :=
  match files with
  | [] => []
  | filepath :: rest =>
      match fs w filepath with
      | ReadOk _ => read_errors w rest
      | ReadRaises e =>
          ("Error reading file: " ++ exc_str e ++ nl) :: read_errors w rest
      end
  end.

(** *** What each diagnostic asks for *)

(** The interpreter is 3.10 or later. *)
Definition python_ok (h : test_setup.host) : bool :=
  (3 <? test_setup.version_major h)
  || ((test_setup.version_major h =? 3) && (10 <=? test_setup.version_minor h)).

(** The [ssl] module is there and knows TLS 1.2. *)
Definition tls_ok (h : test_setup.host) : bool :=
  test_setup.ssl_importable h && ssl_has_PROTOCOL_TLSv1_2 (test_setup.host_world h).

(** The [json] module is there and reads the fixed object back. *)
Definition json_ok (w : world) : bool :=
  json_importable w
  && match json_loads w (json_dumps w test_setup.test_obj) with
     | Return decoded => py_eq decoded test_setup.test_obj
     | Raise _ => false
     end.

(** [urllib.request] is there and builds an HTTPS handler. *)
Definition https_ok (h : test_setup.host) : bool :=
  test_setup.urllib_importable h
  && match test_setup.HTTPSHandler h with
     | Return _ => true
     | Raise _ => false
     end.

(** The key begins with [sk-ant-]. *)
Definition key_ok (w : world) : bool :=
  String.prefix "sk-ant-" (environ_get w "ANTHROPIC_API_KEY").

(** [SSL_CERT_FILE] is set, or one of the four usual places exists. *)
Definition certs_ok (h : test_setup.host) : bool :=
  truthy (environ_get (test_setup.host_world h) "SSL_CERT_FILE")
  || existsb (test_setup.path_exists h) test_setup.cert_locations.

(** The host answered the probe, with whatever status. *)
Definition probe_ok (h : test_setup.host) : bool :=
  match test_setup.probe h with
  | test_setup.ProbeResponse _ | test_setup.ProbeHTTPError _ => true
  | _ => false
  end.

(** The live call, made as the [n]-th request, brought a response whose
    first content block has a [text]. *)
Definition api_ok (h : test_setup.host) (n : nat) : bool :=
  let w := test_setup.host_world h in
  truthy (environ_get w "ANTHROPIC_API_KEY")
  && json_importable w
  && match urlopen w n (test_setup.test_request w) with
     | Response (Return body) =>
         match json_loads w body with
         | Return result =>
             match first_text result with
             | Some _ => true
             | None => false
             end
         | Raise _ => false
         end
     | _ => false
     end.

(** What [test_api_call] can handle: anything, the unreadable body of an
    error response included, as long as what is raised derives from
    [Exception]. *)
Definition handled_answer (w : world) (answer : net_outcome) : Prop :=
  match answer with
  | Response (Return body) =>
      forall e, json_loads w body = Raise e -> is_Exception e = true
  | Response (Raise e) => is_Exception e = true
  | HTTPError _ _ => True
  | URLError _ => True
  | Raised e => is_Exception e = true
  end.

(** What [input] does is a matter of the loop: it returns a line, or it
    raises what one of the two handlers catches. *)
Definition handled_input (event : stdin_event) : Prop :=
  match event with
  | InputRaises e => is_KeyboardInterrupt e = true \/ is_EOFError e = true
  | _ => True
  end.

(** A turn of the loop that no exception leaves: what [input] or the
    command raises, if anything, is caught by a handler of the loop. *)
Definition turn_handled (w : world) (event : stdin_event) : Prop :=
  match event with
  | Line text =>
      forall st,
        match fst (handle_line w text st) with
        | Return _ => True
        | Raise e => is_KeyboardInterrupt e = true \/ is_EOFError e = true
        end
  | _ => handled_input event
  end.

(** A turn whose command, if there is one, returns. *)
Definition turn_returns (w : world) (event : stdin_event) : Prop :=
  match event with
  | Line text => returns (handle_line w text)
  | _ => handled_input event
  end.

(** What is left of the input when the session ends in the normal way:
    nothing, or a line that is [quit] once stripped and whatever follows
    it. *)
Definition ends_session (rest : list stdin_event) : Prop :=
  rest = []
  \/ exists (line : string) (after : list stdin_event),
       rest = Line line :: after /\ strip line = "quit".

(** A turn after which the loop asks for the next line: a line other than
    [quit], or Ctrl-C. *)
Definition keeps_going (event : stdin_event) : Prop :=
  match event with
  | Line text => strip text <> "quit"
  | Interrupt => True
  | InputRaises e => is_KeyboardInterrupt e = true
  end.

(** The initial banner of the diagnostics. *)
Definition banner : list string :=
  [test_setup.rule 60 ++ nl;
   "Claude PowerBook Client - Diagnostic Test" ++ nl;
   test_setup.rule 60 ++ nl].

(** What [print_header] writes. *)
Definition header_lines (text : string) : list string :=
  [(nl ++ test_setup.rule 60) ++ nl; text ++ nl; test_setup.rule 60 ++ nl].

(** The line of the summary for one check. *)
Definition summary_line (result : string * bool) : string :=
  let (name, passed) := result in
  if passed then test_setup.check_mark ++ " " ++ name ++ ": PASS" ++ nl
  else test_setup.cross_mark ++ " " ++ name ++ ": FAIL" ++ nl.

(** The last three things the diagnostics print. *)
Definition verdict_lines (ok : bool) : list string :=
  if ok then
    [nl;
     "SUCCESS! Everything is working correctly." ++ nl;
     "You can now use the Claude client: ./tiger-claude.py" ++ nl;
     nl]
  else
    [nl;
     "PROBLEMS DETECTED. Please fix the issues above." ++ nl;
     "Refer to BUILDING.md for detailed instructions." ++ nl;
     nl].

End Vocabulary.

(** * Properties *)

Import PyModel Env claude_powerbook Vocabulary.

(** ** Strings *)

Lemma prefix_app (p s : string) : String.prefix p (p ++ s) = true.
Proof.
  induction p as [|c p IH]; simpl.
  - destruct s; reflexivity.
  - destruct (ascii_dec c c) as [_|ne]; [exact IH | now elim ne].
Qed.

Lemma contains_of_prefix (p s : string) :
  String.prefix p s = true -> contains p s = true.
Proof. intros H. destruct s; cbn [contains]; rewrite H; reflexivity. Qed.

Lemma contains_prefix (p s : string) : contains p (p ++ s) = true.
Proof. apply contains_of_prefix, prefix_app. Qed.

Lemma contains_skip (p a s : string) :
  contains p s = true -> contains p (a ++ s) = true.
Proof.
  intros H. induction a as [|c a IH]; [exact H|].
  change (String c a ++ s) with (String c (a ++ s)).
  cbn [contains]. rewrite IH.
  destruct (String.prefix p (String c (a ++ s))); reflexivity.
Qed.

(** [p] occurs in whatever is written around it. *)
Lemma contains_infix (p a b : string) : contains p (a ++ p ++ b) = true.
Proof. apply contains_skip, contains_prefix. Qed.

Lemma app_assoc_str (a b c : string) : (a ++ b) ++ c = a ++ b ++ c.
Proof. induction a; simpl; congruence. Qed.

(** ** The API invoker *)

(** With a key, the request goes out and the answer decides the rest. *)
Lemma call_claude_api_sends (w : world) (prompt : string) (st : io_state) :
  truthy (ANTHROPIC_API_KEY w) = true ->
  call_claude_api w prompt st =
  (match urlopen w (List.length (sent st)) (api_request w prompt) with
   | Response (Return body) =>
       except_Exception (let? result := json_loads w body in extract_text result)
   | Response (Raise e) => except_Exception (Raise e)
   | HTTPError code (Return error_body) =>
       ret (PStr (http_error_text w code error_body))
   | HTTPError code (Raise e) => raise e
   | URLError reason => ret (PStr ("Connection Error: " ++ reason))
   | Raised e => except_Exception (Raise e)
   end) (mk_state (stdout st) (sent st ++ [api_request w prompt])%list).
Proof.
  intros K. unfold call_claude_api. rewrite K. reflexivity.
Qed.

(** Without a key the call returns at once, in the state it started in. *)
Lemma missing_key_short_circuit_state (w : world) (prompt : string) (st : io_state) :
  truthy (ANTHROPIC_API_KEY w) = false ->
  call_claude_api w prompt st =
  (Return (PStr "ERROR: ANTHROPIC_API_KEY environment variable not set"), st).
Proof.
  intros K. unfold call_claude_api. rewrite K. reflexivity.
Qed.

(** An unset variable and an empty one are the two ways the key is absent. *)
Lemma key_absent_iff (w : world) :
  truthy (ANTHROPIC_API_KEY w) = false <->
  environ w "ANTHROPIC_API_KEY" = None
  \/ environ w "ANTHROPIC_API_KEY" = Some EmptyString.
Proof.
  unfold ANTHROPIC_API_KEY, environ_get.
  destruct (environ w "ANTHROPIC_API_KEY") as [[|c s]|]; simpl; split;
    intros H; auto; try discriminate; destruct H as [H|H]; discriminate.
Qed.

(** **** C3
    Without a credential (the variable unset, or set to the empty string)
    [call_claude_api] returns the fixed "key not set" message at once:
    nothing is written, no request is built and [urlopen] is not called,
    the state is the one it started in. *)
Theorem missing_key_short_circuit (w : world) (prompt : string) (st : io_state) :
  environ w "ANTHROPIC_API_KEY" = None
  \/ environ w "ANTHROPIC_API_KEY" = Some EmptyString ->
  call_claude_api w prompt st =
  (Return (PStr "ERROR: ANTHROPIC_API_KEY environment variable not set"), st)
  /\ sent (snd (call_claude_api w prompt st)) = sent st.
Proof.
  intros K. apply key_absent_iff in K.
  unfold call_claude_api. rewrite K. split; reflexivity.
Qed.

Lemma missing_key_short_circuit_witness :
  call_claude_api (Scenario.world_of None (Scenario.replies Scenario.hello_body))
                  "hi" Scenario.start =
  (Return (PStr "ERROR: ANTHROPIC_API_KEY environment variable not set"),
   Scenario.start).
Proof.
  exact (proj1 (missing_key_short_circuit
                  (Scenario.world_of None (Scenario.replies Scenario.hello_body))
                  "hi" Scenario.start (or_introl eq_refl))).
Defined.

(** **** C2
    When the response body decodes to a JSON object whose [content] is a
    non-empty array and whose first block is an object with a [text]
    field, [call_claude_api] returns exactly the value of that field. *)
Theorem success_returns_first_text
        (w : world) (prompt : string) (st : io_state) (body : string)
        (result first_block : list (string * pyval)) (more : list pyval)
        (text : pyval) :
  truthy (ANTHROPIC_API_KEY w) = true ->
  urlopen w (List.length (sent st)) (api_request w prompt) = Response (Return body) ->
  json_loads w body = Return (PDict result) ->
  dict_get result "content" = Some (PList (PDict first_block :: more)) ->
  dict_get first_block "text" = Some text ->
  fst (call_claude_api w prompt st) = Return text.
Proof.
  intros K N J C T.
  rewrite (call_claude_api_sends _ _ _ K), N, J.
  unfold extract_text; simpl. rewrite C; simpl. rewrite T. reflexivity.
Qed.

Lemma success_returns_first_text_witness :
  fst (call_claude_api (Scenario.world_of Scenario.key (Scenario.replies Scenario.hello_body))
                       "hi" Scenario.start) = Return (PStr "Hello!").
Proof.
  apply (success_returns_first_text _ _ _ Scenario.hello_body
           [("id", PStr "msg_01");
            ("content", PList [PDict [("type", PStr "text"); ("text", PStr "Hello!")]])]
           [("type", PStr "text"); ("text", PStr "Hello!")] []);
    reflexivity.
Defined.

(** **** C5
    When the response body decodes to a JSON object with no [content]
    field, or with an empty [content] array, [call_claude_api] returns the
    fixed "unexpected response format" message. *)
Theorem malformed_success_body
        (w : world) (prompt : string) (st : io_state) (body : string)
        (result : list (string * pyval)) :
  truthy (ANTHROPIC_API_KEY w) = true ->
  urlopen w (List.length (sent st)) (api_request w prompt) = Response (Return body) ->
  json_loads w body = Return (PDict result) ->
  dict_get result "content" = None \/ dict_get result "content" = Some (PList []) ->
  fst (call_claude_api w prompt st) = Return (PStr "ERROR: Unexpected response format").
Proof.
  intros K N J C.
  rewrite (call_claude_api_sends _ _ _ K), N, J.
  unfold extract_text; simpl.
  destruct C as [C|C]; rewrite C; reflexivity.
Qed.

Lemma malformed_success_body_witness :
  fst (call_claude_api
         (Scenario.world_of Scenario.key (Scenario.replies Scenario.empty_content_body))
         "hi" Scenario.start)
  = Return (PStr "ERROR: Unexpected response format").
Proof.
  apply (malformed_success_body _ _ _ Scenario.empty_content_body
           [("id", PStr "msg_01"); ("content", PList [])]);
    [reflexivity | reflexivity | reflexivity | right; reflexivity].
Defined.

(** A body that decodes to a scalar is not searched for [content]: the
    [in] test raises and the last handler reports the [TypeError]. *)
Lemma scalar_success_body (w : world) (prompt : string) (st : io_state)
      (body : string) (result : pyval) :
  truthy (ANTHROPIC_API_KEY w) = true ->
  urlopen w (List.length (sent st)) (api_request w prompt) = Response (Return body) ->
  json_loads w body = Return result ->
  match result with
  | PNone | PBool _ | PInt _ | PFloat _ => True
  | _ => False
  end ->
  fst (call_claude_api w prompt st) =
  Return (PStr ("Error: argument of type " ++ quoted (type_name result)
                ++ " is not iterable")).
Proof.
  intros K N J S.
  rewrite (call_claude_api_sends _ _ _ K), N, J.
  destruct result; try contradiction; reflexivity.
Qed.

(** An array without the string [content] among its items gets the fixed
    message too. *)
Lemma array_success_body (w : world) (prompt : string) (st : io_state)
      (body : string) (items : list pyval) :
  truthy (ANTHROPIC_API_KEY w) = true ->
  urlopen w (List.length (sent st)) (api_request w prompt) = Response (Return body) ->
  json_loads w body = Return (PList items) ->
  py_in "content" (PList items) = Return false ->
  fst (call_claude_api w prompt st) = Return (PStr "ERROR: Unexpected response format").
Proof.
  intros K N J C.
  rewrite (call_claude_api_sends _ _ _ K), N, J.
  cbn [obind]. unfold extract_text. rewrite C. reflexivity.
Qed.

(** ** The request builder *)

Lemma read_file_caught (w : world) (filepath : string) (st : io_state) :
  caught w filepath = true ->
  exists st',
    read_file w filepath st =
    (Return (match fs w filepath with ReadOk text => Some text | ReadRaises _ => None end),
     st')
    /\ sent st' = sent st.
Proof.
  unfold caught, read_file. destruct (fs w filepath) as [text|e]; intros H.
  - exists st. split; reflexivity.
  - rewrite H. eexists. split; reflexivity.
Qed.

Lemma file_section_of (w : world) (filepath : string) :
  file_section filepath
    (match fs w filepath with ReadOk text => Some text | ReadRaises _ => None end)
  = section_of w filepath.
Proof.
  unfold file_section, section_of.
  destruct (fs w filepath) as [[|c text]|e]; reflexivity.
Qed.

(** When every read succeeds or fails with an [IOError], the loop returns
    the prompt followed by one section per path, in the order given, and
    sends nothing. *)
Lemma append_context_sections (w : world) (files : list string) :
  Forall (fun filepath => caught w filepath = true) files ->
  forall (full_prompt : string) (st : io_state),
  exists st',
    append_context w full_prompt files st =
    (Return (full_prompt ++ sections w files), st')
    /\ sent st' = sent st.
Proof.
  induction 1 as [|filepath rest Hc _ IH]; intros full_prompt st.
  - exists st. simpl. split; [|reflexivity].
    unfold ret. f_equal. f_equal.
    induction full_prompt; simpl; congruence.
  - destruct (read_file_caught w filepath st Hc) as (st1 & R & S1).
    destruct (IH (full_prompt ++ section_of w filepath) st1) as (st2 & A & S2).
    exists st2. split; [|congruence].
    simpl. unfold bind. rewrite R, file_section_of, A, app_assoc_str. reflexivity.
Qed.


(** The text built for a non-empty list of readable or missing files. *)
Lemma build_full_prompt_sections (w : world) (prompt filepath : string)
      (rest : list string) (st : io_state) :
  Forall (fun p => caught w p = true) (filepath :: rest) ->
  fst (build_full_prompt w prompt (Some (filepath :: rest)) st) =
  Return (prompt ++ nl ++ nl ++ "Context files:" ++ nl ++ sections w (filepath :: rest)).
Proof.
  intros H. unfold build_full_prompt.
  destruct (append_context_sections w _ H
              (prompt ++ nl ++ nl ++ "Context files:" ++ nl) st) as (st' & A & _).
  rewrite A. cbn [fst]. rewrite !app_assoc_str. reflexivity.
Qed.

(** **** C1
    The builder does raise: on the picture of the scenario disk, whose
    bytes are not text, [read_file] lets the [UnicodeDecodeError] through,
    no prompt is built and no request is sent; [send_to_claude] ends with
    the same exception. *)
Theorem builder_raises_on_undecodable_file :
  let w := Scenario.world_of Scenario.key (Scenario.replies Scenario.hello_body) in
  fs w "photo.jpg" = ReadRaises Scenario.undecodable
  /\ is_IOError Scenario.undecodable = false
  /\ build_full_prompt w "What is this?" (Some ["notes.txt"; "photo.jpg"]) Scenario.start
     = (Raise Scenario.undecodable, Scenario.start)
  /\ send_to_claude w "What is this?" (Some ["notes.txt"; "photo.jpg"]) Scenario.start
     = (Raise Scenario.undecodable, Scenario.start).
Proof. repeat split. Qed.

(** **** C10
    A file that is read and holds the empty string gets the marker: the
    loop goes on with the text it would have after a failed read, since
    the section written for an empty text is the one written for [None]. *)
Theorem empty_file_gets_placeholder
        (w : world) (full_prompt filepath : string) (rest : list string)
        (st : io_state) :
  fs w filepath = ReadOk EmptyString ->
  append_context w full_prompt (filepath :: rest) st =
  append_context w
    (full_prompt ++ nl ++ "--- " ++ filepath ++ " ---" ++ nl ++ "[Could not read file]" ++ nl)
    rest st
  /\ file_section filepath (Some EmptyString) = file_section filepath None.
Proof.
  intros H. split; [|reflexivity].
  simpl. unfold bind, read_file. rewrite H. reflexivity.
Qed.

Lemma empty_file_gets_placeholder_witness :
  fst (append_context (Scenario.world_of Scenario.key Scenario.unreachable)
                      "Why?" ["empty.txt"] Scenario.start)
  = Return ("Why?" ++ nl ++ "--- empty.txt ---" ++ nl ++ "[Could not read file]" ++ nl).
Proof.
  rewrite (proj1 (empty_file_gets_placeholder
                    (Scenario.world_of Scenario.key Scenario.unreachable)
                    "Why?" "empty.txt" [] Scenario.start eq_refl)).
  reflexivity.
Defined.

(** **** C7
    With no context files ([None] or the empty list) and a key, exactly
    one request goes out; its body is the serialised [payload], and
    [payload['messages'][0]['content']] is the prompt, unchanged.  Without
    a key nothing goes out. *)
Theorem prompt_sent_verbatim
        (w : world) (prompt : string) (context_files : option (list string))
        (st : io_state) :
  context_files = None \/ context_files = Some [] ->
  sent (snd (send_to_claude w prompt context_files st)) =
  (sent st ++ if truthy (ANTHROPIC_API_KEY w) then [api_request w prompt] else [])%list
  /\ req_data (api_request w prompt) = json_dumps w (payload prompt)
  /\ first_message_content (payload prompt) = Return (PStr prompt).
Proof.
  intros H. split; [|split; reflexivity].
  assert (E : send_to_claude w prompt context_files st = call_claude_api w prompt st)
    by (destruct H as [-> | ->]; reflexivity).
  rewrite E. destruct (truthy (ANTHROPIC_API_KEY w)) eqn:K.
  - rewrite (call_claude_api_sends _ _ _ K).
    destruct (urlopen w (List.length (sent st)) (api_request w prompt))
      as [[body|e]|code [error_body|e]|reason|e]; try reflexivity.
    + unfold except_Exception.
      destruct (let? result := json_loads w body in extract_text result) as [v|e];
        [reflexivity | destruct (is_Exception e); reflexivity].
    + simpl. destruct (is_Exception e); reflexivity.
    + simpl. destruct (is_Exception e); reflexivity.
  - rewrite (missing_key_short_circuit_state w prompt st K). simpl.
    now rewrite app_nil_r.
Qed.

Lemma prompt_sent_verbatim_witness :
  sent (snd (send_to_claude (Scenario.world_of Scenario.key Scenario.unreachable)
                            "Why is the sky blue?" None Scenario.start))
  = [api_request (Scenario.world_of Scenario.key Scenario.unreachable)
                 "Why is the sky blue?"].
Proof.
  exact (proj1 (prompt_sent_verbatim
                  (Scenario.world_of Scenario.key Scenario.unreachable)
                  "Why is the sky blue?" None Scenario.start (or_introl eq_refl))).
Defined.

(** ** The request on the wire *)

Lemma read_string_escape_char (c : ascii) (tail : string) :
  MiniJson.read_string (MiniJson.escape_char c ++ tail) =
  match MiniJson.read_string tail with
  | Some (body, rest) => Some (String c body, rest)
  | None => None
  end.
Proof.
  destruct c as [b0 b1 b2 b3 b4 b5 b6 b7].
  destruct b0, b1, b2, b3, b4, b5, b6, b7; reflexivity.
Qed.

(** The decoder reads an escaped string back, whatever its characters. *)
Lemma read_string_escape (s rest : string) :
  MiniJson.read_string (MiniJson.escape s ++ dquote ++ rest) = Some (s, rest).
Proof.
  induction s as [|c s IH]; [reflexivity|].
  cbn [MiniJson.escape].
  rewrite app_assoc_str, read_string_escape_char, IH. reflexivity.
Qed.

(** The body of the request, as the codec writes it. *)
Lemma dumps_payload (float_repr : spec_float -> string) (prompt : string) :
  MiniJson.dumps float_repr (payload prompt) =
  "{" ++ dquote ++ "model" ++ dquote ++ ": "
      ++ dquote ++ "claude-sonnet-4-20250514" ++ dquote ++ ", "
      ++ dquote ++ "max_tokens" ++ dquote ++ ": 4000, "
      ++ dquote ++ "messages" ++ dquote ++ ": [{"
      ++ dquote ++ "role" ++ dquote ++ ": " ++ dquote ++ "user" ++ dquote ++ ", "
      ++ dquote ++ "content" ++ dquote ++ ": "
      ++ dquote ++ MiniJson.escape prompt ++ dquote ++ "}]}".
Proof.
  unfold payload. cbn [MiniJson.dumps map join].
  change (MiniJson.quote "model") with (dquote ++ "model" ++ dquote).
  change (MiniJson.quote "max_tokens") with (dquote ++ "max_tokens" ++ dquote).
  change (MiniJson.quote "messages") with (dquote ++ "messages" ++ dquote).
  change (MiniJson.quote "role") with (dquote ++ "role" ++ dquote).
  change (MiniJson.quote "user") with (dquote ++ "user" ++ dquote).
  change (MiniJson.quote "content") with (dquote ++ "content" ++ dquote).
  change (MiniJson.quote MODEL) with (dquote ++ "claude-sonnet-4-20250514" ++ dquote).
  change (str_of_int MAX_TOKENS) with "4000".
  unfold MiniJson.quote. rewrite !app_assoc_str. reflexivity.
Qed.

(** Decoding the body of the request gives the payload back: the prompt
    arrives as [messages[0].content], character for character. *)
Lemma payload_round_trip (float_repr : spec_float -> string) (prompt : string) :
  MiniJson.loads (MiniJson.dumps float_repr (payload prompt)) = Return (payload prompt).
Proof.
  rewrite dumps_payload. unfold MiniJson.loads.
  match goal with
  | |- context [MiniJson.read_value (S (String.length ?body)) _] =>
      assert (L : exists fuel : nat, String.length body = (11 + fuel)%nat)
        by (cbn [String.length append dquote]; eexists; reflexivity)
  end.
  destruct L as (fuel & ->).
  change (S (11 + fuel)%nat) with (S (S (S (S (S (S (S (S (S (S (S (S fuel)))))))))))).
  simpl.
  rewrite (read_string_escape prompt "}]}"
           : MiniJson.read_string (MiniJson.escape prompt ++ String "034"%char "}]}") = _).
  reflexivity.
Qed.

Lemma request_body_decodes (key : option string) (net : nat -> request -> net_outcome)
      (prompt : string) :
  (let? body := MiniJson.loads (req_data (api_request (Scenario.world_of key net) prompt)) in
   first_message_content body) = Return (PStr prompt).
Proof.
  unfold api_request, Scenario.world_of, Scenario.world_on. cbn [req_data json_dumps].
  rewrite payload_round_trip. reflexivity.
Qed.

(** ** Error responses *)

Lemma prefix_refl (p : string) : String.prefix p p = true.
Proof.
  induction p as [|c p IH]; simpl; [reflexivity|].
  destruct (ascii_dec c c) as [_|ne]; [exact IH | now elim ne].
Qed.

Lemma contains_suffix (p a : string) : contains p (a ++ p) = true.
Proof. apply contains_skip, contains_of_prefix, prefix_refl. Qed.

Lemma repr_byte_plain (c : ascii) :
  plain_byte c = true -> repr_byte "'"%char c = String c EmptyString.
Proof.
  destruct c as [b0 b1 b2 b3 b4 b5 b6 b7].
  destruct b0, b1, b2, b3, b4, b5, b6, b7; intros H;
    first [reflexivity | vm_compute in H; discriminate H].
Qed.

Lemma plain_byte_not_quote (c : ascii) :
  plain_byte c = true -> Ascii.eqb "'"%char c = false.
Proof.
  destruct c as [b0 b1 b2 b3 b4 b5 b6 b7].
  destruct b0, b1, b2, b3, b4, b5, b6, b7; intros H;
    first [reflexivity | vm_compute in H; discriminate H].
Qed.

Lemma repr_body_plain (b : bytes) :
  all_plain b = true -> repr_body "'"%char b = b.
Proof.
  induction b as [|c b IH]; cbn [all_plain repr_body]; [reflexivity|].
  intros H. apply andb_true_iff in H. destruct H as [Hc Hb].
  rewrite (repr_byte_plain c Hc), (IH Hb). reflexivity.
Qed.

Lemma has_quote_plain (b : bytes) :
  all_plain b = true -> has_char "'"%char b = false.
Proof.
  induction b as [|c b IH]; cbn [all_plain has_char]; [reflexivity|].
  intros H. apply andb_true_iff in H. destruct H as [Hc Hb].
  rewrite (plain_byte_not_quote c Hc), (IH Hb). reflexivity.
Qed.

(** A body of printable ASCII without backslash or single quote is written
    as it is, between [b'] and [']. *)
Lemma bytes_repr_plain (b : bytes) :
  all_plain b = true -> bytes_repr b = "b'" ++ b ++ "'".
Proof.
  intros H. unfold bytes_repr.
  rewrite (has_quote_plain b H). cbn [andb].
  rewrite (repr_body_plain b H). reflexivity.
Qed.

Lemma http_error_text_message (w : world) (code : Z) (error_body : bytes)
      (error_json error : list (string * pyval)) (message : pyval) :
  json_loads_bytes w error_body = Return (PDict error_json) ->
  dict_get error_json "error" = Some (PDict error) ->
  dict_get error "message" = Some message ->
  http_error_text w code error_body =
  "API Error (" ++ str_of_int code ++ "): " ++ py_str w message.
Proof.
  intros J E Msg. unfold http_error_text. rewrite J. simpl.
  rewrite E. simpl. rewrite Msg. reflexivity.
Qed.

Lemma http_error_text_fallback (w : world) (code : Z) (error_body : bytes) (e : exn) :
  json_loads_bytes w error_body = Raise e ->
  http_error_text w code error_body =
  "HTTP Error " ++ str_of_int code ++ ": " ++ bytes_repr error_body.
Proof. intros J. unfold http_error_text. rewrite J. reflexivity. Qed.

(** A JSON error body without an [error] member, or whose [error] object
    has no [message], is reported as [Unknown error]. *)
Lemma http_error_text_unknown (w : world) (code : Z) (error_body : bytes)
      (error_json : list (string * pyval)) :
  json_loads_bytes w error_body = Return (PDict error_json) ->
  dict_get error_json "error" = None
  \/ (exists error, dict_get error_json "error" = Some (PDict error)
                    /\ dict_get error "message" = None) ->
  http_error_text w code error_body =
  "API Error (" ++ str_of_int code ++ "): Unknown error".
Proof.
  intros J [E | (error & E & Msg)]; unfold http_error_text; rewrite J; simpl;
    rewrite E; simpl; [|rewrite Msg]; reflexivity.
Qed.

(** A JSON error body that is no object, or whose [error] is no object,
    has no [get]: the bare [except] takes over. *)
Lemma http_error_text_shape (w : world) (code : Z) (error_body : bytes)
      (error_json : pyval) :
  json_loads_bytes w error_body = Return error_json ->
  match error_json with
  | PDict d => match dict_get d "error" with
               | Some (PDict _) | None => False
               | Some _ => True
               end
  | _ => True
  end ->
  http_error_text w code error_body =
  "HTTP Error " ++ str_of_int code ++ ": " ++ bytes_repr error_body.
Proof.
  intros J S. unfold http_error_text. rewrite J.
  destruct error_json as [| b | n | f | s | items | d]; try reflexivity.
  simpl. destruct (dict_get d "error") as [[| b | n | f | s | items | d']|];
    try contradiction; reflexivity.
Qed.

(** **** C6, as the specification words it, fails
    A 503 whose body is the plain text [Service Unavailable] and a newline
    does not decode as JSON; the string returned holds the bytes literal
    of the body, in which the newline is written as a backslash and an
    [n]: the body itself does not occur in it. *)
Lemma raw_body_not_contained :
  let w := Scenario.world_of Scenario.key (Scenario.refuses 503 Scenario.unavailable_body) in
  json_loads_bytes w Scenario.unavailable_body = Raise (Exc JSONDecodeError "Expecting value")
  /\ fst (call_claude_api w "hi" Scenario.start)
     = Return (PStr "HTTP Error 503: b'Service Unavailable\n'")
  /\ contains Scenario.unavailable_body "HTTP Error 503: b'Service Unavailable\n'" = false.
Proof. repeat split. Qed.

(** **** C6, amended
    For an error status whose body can be read: if the body decodes to a
    JSON object whose [error] is an object with a [message], the string
    returned is [API Error (code): message] and so contains the status
    code and the message; if the body does not decode, the string returned
    is [HTTP Error code: ] followed by the bytes literal of the body, so
    it contains the status code and that literal, and it contains the body
    itself when the body is printable ASCII without backslash or single
    quote. *)
Theorem http_error_reported
        (w : world) (prompt : string) (st : io_state) (code : Z) (error_body : bytes) :
  truthy (ANTHROPIC_API_KEY w) = true ->
  urlopen w (List.length (sent st)) (api_request w prompt)
  = HTTPError code (Return error_body) ->
  (forall (error_json error : list (string * pyval)) (message : pyval),
      json_loads_bytes w error_body = Return (PDict error_json) ->
      dict_get error_json "error" = Some (PDict error) ->
      dict_get error "message" = Some message ->
      let text := "API Error (" ++ str_of_int code ++ "): " ++ py_str w message in
      fst (call_claude_api w prompt st) = Return (PStr text)
      /\ contains (str_of_int code) text = true
      /\ contains (py_str w message) text = true)
  /\ (forall e : exn,
      json_loads_bytes w error_body = Raise e ->
      let text := "HTTP Error " ++ str_of_int code ++ ": " ++ bytes_repr error_body in
      fst (call_claude_api w prompt st) = Return (PStr text)
      /\ contains (str_of_int code) text = true
      /\ contains (bytes_repr error_body) text = true
      /\ (all_plain error_body = true -> contains error_body text = true)).
Proof.
  intros K N. split.
  - intros error_json error message J E Msg text.
    rewrite (call_claude_api_sends _ _ _ K), N. cbn [ret fst].
    rewrite (http_error_text_message _ _ _ _ _ _ J E Msg).
    split; [reflexivity|]. split.
    + apply contains_infix.
    + unfold text. rewrite <- !app_assoc_str. apply contains_suffix.
  - intros e J text.
    rewrite (call_claude_api_sends _ _ _ K), N. cbn [ret fst].
    rewrite (http_error_text_fallback _ _ _ _ J).
    split; [reflexivity|]. split; [|split].
    + apply (contains_infix _ "HTTP Error ").
    + unfold text. rewrite <- !app_assoc_str. apply contains_suffix.
    + intros P. unfold text. rewrite (bytes_repr_plain _ P).
      change ("HTTP Error " ++ str_of_int code ++ ": " ++ "b'" ++ error_body ++ "'")
        with ("HTTP Error " ++ str_of_int code ++ (": " ++ "b'") ++ error_body ++ "'").
      rewrite <- (app_assoc_str (str_of_int code)), <- (app_assoc_str "HTTP Error ").
      apply contains_infix.
Qed.

Lemma http_error_reported_witness :
  fst (call_claude_api
         (Scenario.world_of Scenario.key (Scenario.refuses 529 Scenario.overloaded_body))
         "hi" Scenario.start)
  = Return (PStr "API Error (529): Overloaded")
  /\ fst (call_claude_api
            (Scenario.world_of Scenario.key (Scenario.refuses 502 "Bad Gateway"))
            "hi" Scenario.start)
     = Return (PStr "HTTP Error 502: b'Bad Gateway'")
  /\ contains "Bad Gateway" "HTTP Error 502: b'Bad Gateway'" = true.
Proof.
  split; [|split].
  - exact (proj1 (proj1 (http_error_reported
             (Scenario.world_of Scenario.key (Scenario.refuses 529 Scenario.overloaded_body))
             "hi" Scenario.start 529 Scenario.overloaded_body eq_refl eq_refl)
             [("type", PStr "error");
              ("error", PDict [("type", PStr "overloaded_error");
                               ("message", PStr "Overloaded")])]
             [("type", PStr "overloaded_error"); ("message", PStr "Overloaded")]
             (PStr "Overloaded") eq_refl eq_refl eq_refl)).
  - exact (proj1 (proj2 (http_error_reported
             (Scenario.world_of Scenario.key (Scenario.refuses 502 "Bad Gateway"))
             "hi" Scenario.start 502 "Bad Gateway" eq_refl eq_refl)
             (Exc JSONDecodeError "Expecting value") eq_refl)).
  - exact (proj2 (proj2 (proj2 (proj2 (http_error_reported
             (Scenario.world_of Scenario.key (Scenario.refuses 502 "Bad Gateway"))
             "hi" Scenario.start 502 "Bad Gateway" eq_refl eq_refl)
             (Exc JSONDecodeError "Expecting value") eq_refl))) eq_refl).
Defined.

(** ** What leaves the client layer *)

Lemma except_Exception_returns (o : outcome pyval) (st : io_state) :
  (forall e, o = Raise e -> is_Exception e = true) ->
  exists v, except_Exception o st = (Return v, st).
Proof.
  intros H. destruct o as [v|e]; simpl.
  - now exists v.
  - rewrite (H e eq_refl). eexists; reflexivity.
Qed.

(** Nothing [extract_text] raises gets past [except Exception]. *)
Lemma extract_text_raises_Exception (result : pyval) (e : exn) :
  extract_text result = Raise e -> is_Exception e = true.
Proof.
  unfold extract_text.
  destruct result as [| b | n | f | s | items | d]; simpl;
    try (intros H; injection H as <-; reflexivity).
  - destruct (contains "content" s); simpl; intros H; [injection H as <-; reflexivity | discriminate].
  - destruct (existsb _ items); simpl; intros H; [injection H as <-; reflexivity | discriminate].
  - destruct (dict_get d "content") as [content|]; simpl; [|discriminate].
    destruct content as [| b | n | f | s | [|first more] | [|entry d']]; simpl;
      try discriminate; try (intros H; injection H as <-; reflexivity).
    + destruct s as [|c s]; simpl; [discriminate|].
      intros H; injection H as <-; reflexivity.
    + destruct first as [| b | n | f | s | items | d0]; simpl;
        try (intros H; injection H as <-; reflexivity).
      destruct (dict_get d0 "text"); [discriminate|].
      intros H; injection H as <-; reflexivity.
Qed.

(** In a tame world [call_claude_api] always returns a value. *)
Lemma call_claude_api_returns (w : world) (prompt : string) :
  (forall n req, tame_answer w (urlopen w n req)) ->
  returns (call_claude_api w prompt).
Proof.
  intros T st.
  destruct (truthy (ANTHROPIC_API_KEY w)) eqn:K.
  - rewrite (call_claude_api_sends _ _ _ K).
    specialize (T (List.length (sent st)) (api_request w prompt)).
    destruct (urlopen w (List.length (sent st)) (api_request w prompt))
      as [[body|e]|code [error_body|e]|reason|e]; simpl in T.
    + edestruct except_Exception_returns as (v & E); [|rewrite E; eauto].
      intros e. destruct (json_loads w body) as [result|e'] eqn:J; simpl.
      * apply extract_text_raises_Exception.
      * intros H; injection H as <-. now apply T.
    + edestruct except_Exception_returns as (v & E); [|rewrite E; eauto].
      intros e' H; injection H as <-; exact T.
    + eexists; eexists; reflexivity.
    + contradiction.
    + eexists; eexists; reflexivity.
    + edestruct except_Exception_returns as (v & E); [|rewrite E; eauto].
      intros e' H; injection H as <-; exact T.
  - rewrite (missing_key_short_circuit_state _ _ _ K). eauto.
Qed.

(** In a tame world the client returns a value for every prompt and every
    list of context files. *)
Lemma send_to_claude_returns (w : world) :
  tame w ->
  forall (prompt : string) (context_files : option (list string)),
    returns (send_to_claude w prompt context_files).
Proof.
  intros [Hf Hn] prompt context_files st. unfold send_to_claude, bind.
  assert (B : exists full st1,
             build_full_prompt w prompt context_files st = (Return full, st1)).
  { destruct context_files as [[|filepath rest]|];
      try (eexists; eexists; reflexivity).
    unfold build_full_prompt.
    edestruct (append_context_sections w (filepath :: rest)) as (st1 & A & _).
    - apply Forall_forall. intros p _. apply Hf.
    - rewrite A. eauto. }
  destruct B as (full & st1 & B). rewrite B.
  apply call_claude_api_returns, Hn.
Qed.

(** **** C4
    The client layer does let exceptions through, and does return values
    that are no strings.  On the scenario disk the picture makes
    [send_to_claude] raise [UnicodeDecodeError] before any request is
    sent; an error response whose body cannot be read makes
    [call_claude_api] raise from inside its [HTTPError] handler; a success
    body whose first block has [text: null] makes it return [None]. *)
Theorem client_layer_raises :
  send_to_claude (Scenario.world_of Scenario.key (Scenario.replies Scenario.hello_body))
                 "Please explain what this code does, how it works, and any important details:"
                 (Some ["photo.jpg"]) Scenario.start
  = (Raise Scenario.undecodable, Scenario.start)
  /\ fst (call_claude_api (Scenario.world_of Scenario.key Scenario.drops_error_body)
                          "hi" Scenario.start)
     = Raise (Exc OtherException "IncompleteRead(0 bytes read)")
  /\ fst (call_claude_api
            (Scenario.world_of Scenario.key (Scenario.replies Scenario.null_text_body))
            "hi" Scenario.start)
     = Return PNone.
Proof. repeat split. Qed.

(** ** The command loop and the exit status *)

Lemma returns_ret {A : Type} (a : A) : returns (ret a).
Proof. intros st. eexists; eexists; reflexivity. Qed.

Lemma returns_write (s : string) : returns (write s).
Proof. intros st. eexists; eexists; reflexivity. Qed.

Lemma returns_print (s : string) : returns (print s).
Proof. apply returns_write. Qed.

Lemma returns_bind {A B : Type} (m : M A) (k : A -> M B) :
  returns m -> (forall a, returns (k a)) -> returns (bind m k).
Proof.
  intros Hm Hk st. destruct (Hm st) as (a & st1 & E).
  unfold bind. rewrite E. apply Hk.
Qed.

Lemma bind_inv {A B : Type} (m : M A) (k : A -> M B) (st st' : io_state) (b : B) :
  bind m k st = (Return b, st') ->
  exists a st1, m st = (Return a, st1) /\ k a st1 = (Return b, st').
Proof.
  unfold bind. destruct (m st) as [[a|e] st1]; [eauto | discriminate].
Qed.

(** Sequences of prints around one open step. *)
Ltac returns_steps :=
  repeat match goal with
         | |- returns (bind _ _) => apply returns_bind; [|intros ?]
         | |- returns (print _) => apply returns_print
         | |- returns (write _) => apply returns_write
         | |- returns (ret _) => apply returns_ret
         end.

Lemma check_ssl_returns (w : world) : returns (check_ssl w).
Proof.
  unfold check_ssl.
  destruct (ssl_OPENSSL_VERSION w); [destruct (ssl_has_PROTOCOL_TLSv1_2 w)|];
    cbn [negb]; returns_steps.
Qed.

Section Loop.
Local Open Scope py_scope.
Variable w : world.
Hypothesis client_returns :
  forall (prompt : string) (context_files : option (list string)),
    returns (send_to_claude w prompt context_files).

Lemma file_command_returns (parts : list string) (usage progress instruction : string) :
  returns (file_command w parts usage progress instruction).
Proof.
  unfold file_command. destruct (List.length parts <? 2)%nat; returns_steps.
  apply client_returns.
Qed.

Lemma handle_line_returns (line : string) : returns (handle_line w line).
Proof.
  unfold handle_line.
  repeat match goal with
         | |- context [if ?b then _ else _] => destruct b
         end;
    first [ apply file_command_returns
          | returns_steps; apply client_returns ].
Qed.

End Loop.

(** [quit] is the only command that leaves the loop, and it writes
    nothing. *)
Lemma file_command_continues (w : world) (parts : list string)
      (usage progress instruction : string) (st st' : io_state) :
  file_command w parts usage progress instruction st <> (Return Break, st').
Proof.
  unfold file_command. intros H.
  destruct (List.length parts <? 2)%nat;
    repeat (apply bind_inv in H; destruct H as (? & ? & _ & H));
    discriminate H.
Qed.

Lemma handle_line_break (w : world) (text : string) (st st' : io_state) :
  handle_line w text st = (Return Break, st') ->
  strip text = "quit" /\ st' = st.
Proof.
  unfold handle_line. intros H.
  destruct (negb (truthy (strip text))); [discriminate H|].
  destruct (String.eqb (strip text) "quit") eqn:Q.
  - apply String.eqb_eq in Q. injection H as <-. now split.
  - exfalso.
    repeat match type of H with
           | context [if ?b then _ else _] => destruct b
           end;
      try (now apply file_command_continues in H);
      repeat (apply bind_inv in H; destruct H as (? & ? & _ & H));
      discriminate H.
Qed.

(** The loop is left in the normal way at the first [quit] or at the end
    of input when every turn before returns: the prompt is the last thing
    it wrote. *)
Lemma command_loop_ends (w : world) (before rest : list stdin_event) :
  Forall (turn_returns w) before ->
  ends_session rest ->
  forall st, exists st',
    command_loop w (before ++ rest)%list st = (Return tt, st')
    /\ exists out, stdout st' = (out ++ ["claude> "])%list.
Proof.
  intros F E. induction F as [|event before T F IH]; intros st.
  - cbn [app]. destruct E as [-> | (line & after & -> & Q)].
    + eexists. split; [reflexivity|]. cbn [stdout]. eauto.
    + cbn [command_loop]. unfold bind, write, handle_line. rewrite Q.
      eexists. split; [reflexivity|]. cbn [stdout]. eauto.
  - cbn [app command_loop]. unfold bind at 1. unfold write at 1.
    destruct event as [text| |e]; cbn [turn_returns handled_input] in T.
    + destruct (T (mk_state (stdout st ++ ["claude> "])%list (sent st)))
        as ([|] & st1 & H); rewrite H.
      * apply IH.
      * apply handle_line_break in H. destruct H as [_ ->].
        eexists. split; [reflexivity|]. cbn [stdout]. eauto.
    + unfold bind, print, write. apply IH.
    + destruct (is_KeyboardInterrupt e).
      * unfold bind, print, write. apply IH.
      * destruct T as [T|T]; [discriminate T|]. rewrite T.
        eexists. split; [reflexivity|]. cbn [stdout]. eauto.
Qed.

(** The loop is left with [quit], at the end of input or by [EOFError]
    when what the turns before raise is caught. *)
Lemma command_loop_handled (w : world) (before rest : list stdin_event) :
  Forall (turn_handled w) before ->
  ends_session rest ->
  forall st, exists st', command_loop w (before ++ rest)%list st = (Return tt, st').
Proof.
  intros F E. induction F as [|event before T F IH]; intros st.
  - destruct (command_loop_ends w [] rest (Forall_nil _) E st) as (st' & H & _). eauto.
  - cbn [app command_loop]. unfold bind at 1. unfold write at 1.
    destruct event as [text| |e]; cbn [turn_handled handled_input] in T.
    + specialize (T (mk_state (stdout st ++ ["claude> "])%list (sent st))).
      destruct (handle_line w text _) as [[[|]|e] st1]; cbn [fst] in T.
      * apply IH.
      * eauto.
      * destruct (is_KeyboardInterrupt e).
        -- unfold bind, print, write. apply IH.
        -- destruct T as [T|T]; [discriminate T|]. rewrite T. eauto.
    + unfold bind, print, write. apply IH.
    + destruct (is_KeyboardInterrupt e).
      * unfold bind, print, write. apply IH.
      * destruct T as [T|T]; [discriminate T|]. rewrite T. eexists. reflexivity.
Qed.

Lemma returns_handled (w : world) (stdin : list stdin_event) :
  Forall (turn_returns w) stdin -> Forall (turn_handled w) stdin.
Proof.
  apply Forall_impl. intros [text| |e] T; try exact T.
  intros st. destruct (T st) as (c & st' & ->). exact I.
Qed.

(** An exception of [input] that neither handler catches leaves the loop
    when the turns before it return to the prompt. *)
Lemma command_loop_raises (w : world) (before after : list stdin_event) (e : exn) :
  Forall (turn_returns w) before ->
  Forall keeps_going before ->
  is_KeyboardInterrupt e = false ->
  is_EOFError e = false ->
  forall st, fst (command_loop w (before ++ InputRaises e :: after)%list st) = Raise e.
Proof.
  intros F G K Q. induction F as [|event before T F IH]; intros st.
  - cbn [app command_loop]. unfold bind, write. now rewrite K, Q.
  - apply Forall_inv in G as G1. apply Forall_inv_tail in G. specialize (IH G).
    cbn [app command_loop]. unfold bind at 1. unfold write at 1.
    destruct event as [text| |e0]; cbn [turn_returns keeps_going] in T, G1.
    + destruct (T (mk_state (stdout st ++ ["claude> "])%list (sent st)))
        as ([|] & st1 & H); rewrite H.
      * apply IH.
      * apply handle_line_break in H. destruct H as [H _]. contradiction.
    + unfold bind, print, write. apply IH.
    + rewrite G1. unfold bind, print, write. apply IH.
Qed.

Lemma interactive_mode_ends (w : world) (before rest : list stdin_event) (st : io_state) :
  Forall (turn_handled w) before ->
  ends_session rest ->
  exists st',
    interactive_mode w (before ++ rest)%list st = (Return tt, st')
    /\ (truthy (ANTHROPIC_API_KEY w) = true ->
        (exists out, stdout st' = (out ++ [("Goodbye!" ++ nl)%string])%list)
        /\ (Forall (turn_returns w) before ->
            exists out,
              stdout st' = (out ++ ["claude> "; ("Goodbye!" ++ nl)%string])%list)).
Proof.
  intros F E. unfold interactive_mode. cbv [bind print write].
  match goal with |- context [check_ssl w ?s] =>
    destruct (check_ssl_returns w s) as (ssl_ok & s1 & ->) end.
  destruct (truthy (ANTHROPIC_API_KEY w)).
  - destruct ssl_ok; cbn [negb]; cbv [ret];
      match goal with |- context [command_loop w _ ?s] =>
        pose proof (command_loop_ends w before rest) as P; specialize (fun R => P R E s);
        destruct (command_loop_handled w before rest F E s) as (s2 & L)
      end;
      rewrite L in *;
      (eexists; split; [reflexivity|]); intros _; cbn [stdout];
      (split; [eauto|]); intros R;
      destruct (P R) as (s3 & L3 & out & O); injection L3 as <-; rewrite O;
      exists out; now rewrite <- app_assoc.
  - destruct ssl_ok; cbn [negb]; cbv [ret];
      (eexists; split; [reflexivity|]); discriminate.
Qed.

Lemma interactive_mode_raises (w : world) (before after : list stdin_event) (e : exn)
      (st : io_state) :
  truthy (ANTHROPIC_API_KEY w) = true ->
  Forall (turn_returns w) before ->
  Forall keeps_going before ->
  is_KeyboardInterrupt e = false ->
  is_EOFError e = false ->
  fst (interactive_mode w (before ++ InputRaises e :: after)%list st) = Raise e.
Proof.
  intros Key F G K Q. unfold interactive_mode. rewrite Key. cbv [bind print write].
  match goal with |- context [check_ssl w ?s] =>
    destruct (check_ssl_returns w s) as (ssl_ok & s1 & ->) end.
  destruct ssl_ok; cbn [negb]; cbv [ret];
    match goal with |- context [command_loop w _ ?s] =>
      pose proof (command_loop_raises w before after e F G K Q s) as R;
      destruct (command_loop w (before ++ InputRaises e :: after)%list s) as [r s2]
    end;
    cbn [fst] in R; subst r; reflexivity.
Qed.

(** In a tame world every command returns, so that only [input] can end
    a turn with an exception. *)
Lemma tame_turns (w : world) (stdin : list stdin_event) :
  tame w -> Forall handled_input stdin -> Forall (turn_returns w) stdin.
Proof.
  intros T F. induction F as [|event rest H F IH]; constructor; [|exact IH].
  destruct event as [text| |e]; [|exact H|exact H].
  exact (handle_line_returns w (send_to_claude_returns w T) text).
Qed.

Lemma keeps_going_handled (stdin : list stdin_event) :
  Forall keeps_going stdin -> Forall handled_input stdin.
Proof.
  intros F. induction F as [|event rest H F IH]; constructor; [|exact IH].
  destruct event as [text| |e]; cbn in *; auto.
Qed.

(** In a tame world the interactive client leaves with status zero,
    whatever lines are typed. *)
Lemma interactive_exit_zero (w : world) (prog : string) (stdin : list stdin_event)
      (st : io_state) :
  tame w -> Forall handled_input stdin ->
  fst (main w [prog] stdin st) = Return tt.
Proof.
  intros T F. unfold main. cbn [List.length Nat.eqb].
  destruct (interactive_mode_ends w stdin [] st
              (returns_handled w stdin (tame_turns w stdin T F)) (or_introl eq_refl))
    as (st' & E & _).
  rewrite app_nil_r in E. now rewrite E.
Qed.

(** The scenario world without the picture is tame, so a session in it
    ends with status zero. *)
Lemma text_world_tame :
  tame (Scenario.world_on Scenario.text_disk Scenario.key
                          (Scenario.replies Scenario.hello_body)).
Proof.
  split.
  - intros filepath. unfold caught, Scenario.world_on, Scenario.text_disk, Scenario.disk.
    cbn [fs].
    destruct (String.eqb filepath "photo.jpg"); [reflexivity|].
    destruct (String.eqb filepath "notes.txt"); [reflexivity|].
    destruct (String.eqb filepath "empty.txt"); reflexivity.
  - intros n req e. cbn. discriminate.
Qed.

Lemma text_world_session (stdin : list stdin_event) :
  Forall handled_input stdin ->
  exit_status
    (fst (main (Scenario.world_on Scenario.text_disk Scenario.key
                                  (Scenario.replies Scenario.hello_body))
               ["claude"] stdin Scenario.start)) = 0.
Proof.
  intros F. now rewrite (interactive_exit_zero _ _ _ _ text_world_tame F).
Qed.

(** **** C8
    Single-shot, that is with a first argument that is not the
    [--check-ssl] flag, and without a credential: the process prints
    [ERROR: ANTHROPIC_API_KEY not set], sends nothing and exits with
    status 1.  Interactive, that is without arguments: when the session
    ends in the normal way, at a line that is [quit] or at the end of
    input, no exception having left an earlier turn, [main] returns and
    the exit status is zero; with a key the farewell is written last, and
    right after the prompt when every command before returned. *)
Theorem exit_statuses (w : world) (prog : string) (stdin : list stdin_event)
        (st : io_state) :
  (forall (first : string) (rest : list string),
      String.eqb first "--check-ssl" = false ->
      truthy (ANTHROPIC_API_KEY w) = false ->
      main w (prog :: first :: rest) stdin st =
      (Raise (SystemExit 1),
       mk_state (stdout st ++ [("ERROR: ANTHROPIC_API_KEY not set" ++ nl)%string])%list
                (sent st))
      /\ exit_status (fst (main w (prog :: first :: rest) stdin st)) = 1)
  /\ (forall before rest : list stdin_event,
        stdin = (before ++ rest)%list ->
        Forall (turn_handled w) before ->
        ends_session rest ->
        fst (main w [prog] stdin st) = Return tt
        /\ exit_status (fst (main w [prog] stdin st)) = 0
        /\ (truthy (ANTHROPIC_API_KEY w) = true ->
            (exists out,
                stdout (snd (main w [prog] stdin st))
                = (out ++ [("Goodbye!" ++ nl)%string])%list)
            /\ (Forall (turn_returns w) before ->
                exists out,
                  stdout (snd (main w [prog] stdin st))
                  = (out ++ ["claude> "; ("Goodbye!" ++ nl)%string])%list))).
Proof.
  split.
  - intros first rest F K.
    assert (E : main w (prog :: first :: rest) stdin st =
                (Raise (SystemExit 1),
                 mk_state (stdout st ++ [("ERROR: ANTHROPIC_API_KEY not set" ++ nl)%string])%list
                          (sent st))).
    { unfold main. cbn [List.length Nat.eqb nth_error]. rewrite F, K.
      destruct rest; reflexivity. }
    rewrite E. split; reflexivity.
  - intros before rest -> F E. unfold main. cbn [List.length Nat.eqb].
    destruct (interactive_mode_ends w before rest st F E) as (st' & -> & G).
    cbn [fst snd exit_status]. split; [reflexivity|]. split; [reflexivity | exact G].
Qed.

Lemma exit_statuses_witness :
  exit_status (fst (main (Scenario.world_of None Scenario.unreachable)
                         ["claude"; "hello"; "notes.txt"] [] Scenario.start)) = 1
  /\ exit_status (fst (main (Scenario.world_of Scenario.key
                                               (Scenario.replies Scenario.hello_body))
                            ["claude"] [Line "ask hello"; Line "quit"; Line "ask more"]
                            Scenario.start)) = 0
  /\ exit_status (fst (main (Scenario.world_of Scenario.key
                                               (Scenario.replies Scenario.hello_body))
                            ["claude"] [Interrupt; Line "ask hello"]
                            Scenario.start)) = 0.
Proof.
  assert (T : forall st : io_state,
             match fst (handle_line (Scenario.world_of Scenario.key
                                                       (Scenario.replies Scenario.hello_body))
                                    "ask hello" st) with
             | Return _ => True
             | Raise e => is_KeyboardInterrupt e = true \/ is_EOFError e = true
             end)
    by (intros st; vm_compute; exact I).
  split; [|split].
  - exact (proj2 (proj1 (exit_statuses (Scenario.world_of None Scenario.unreachable)
                           "claude" [] Scenario.start)
                        "hello" ["notes.txt"] eq_refl eq_refl)).
  - refine (proj1 (proj2 (proj2 (exit_statuses
                           (Scenario.world_of Scenario.key
                                              (Scenario.replies Scenario.hello_body))
                           "claude" [Line "ask hello"; Line "quit"; Line "ask more"]
                           Scenario.start)
                        [Line "ask hello"] [Line "quit"; Line "ask more"] eq_refl _ _))).
    + constructor; [exact T | constructor].
    + right. exists "quit", [Line "ask more"]. split; reflexivity.
  - refine (proj1 (proj2 (proj2 (exit_statuses
                           (Scenario.world_of Scenario.key
                                              (Scenario.replies Scenario.hello_body))
                           "claude" [Interrupt; Line "ask hello"]
                           Scenario.start)
                        [Interrupt; Line "ask hello"] [] eq_refl _ _))).
    + constructor; [exact I | constructor; [exact T | constructor]].
    + left. reflexivity.
Defined.

(** ** The JSON self-test *)

(** **** C9
    [check_json] encodes the fixed object [{'test': 'value', 'number': 42}],
    decodes the string, and returns [True] exactly when the [json] module
    is there and the decoded value compares equal to the object. *)
Theorem json_check_passes_iff (w : world) (st : io_state) :
  fst (test_setup.check_json w st) = Return true <->
  json_importable w = true
  /\ exists decoded : pyval,
       json_loads w (json_dumps w (PDict [("test", PStr "value"); ("number", PInt 42)]))
       = Return decoded
       /\ py_eq decoded (PDict [("test", PStr "value"); ("number", PInt 42)]) = true.
Proof.
  unfold test_setup.check_json, test_setup.print_header, test_setup.json_not_available,
    test_setup.test_obj.
  cbv [bind print write ret raise].
  destruct (json_importable w); [|split; [discriminate | intros [? _]; discriminate]].
  destruct (json_loads w (json_dumps w _)) as [decoded|e]; cbv beta iota.
  - destruct (py_eq decoded _) eqn:Q; cbn [fst]; split.
    + intros _. split; [reflexivity|]. exists decoded. split; [reflexivity | exact Q].
    + reflexivity.
    + discriminate.
    + intros (_ & d & D & Q'). injection D as <-. rewrite Q in Q'. discriminate.
  - split.
    + destruct (test_setup.is_ImportError e); discriminate.
    + intros (_ & d & D & _). discriminate.
Qed.

(** With the codec of the scenarios the self-test passes. *)
Lemma json_check_passes_with_codec :
  fst (test_setup.check_json (Scenario.world_of None Scenario.unreachable) Scenario.start)
  = Return true.
Proof. reflexivity. Qed.

(** A decoder that reads the number back as [42.0] passes as well, one
    that reads it back as a string does not. *)
Lemma check_compares_by_value :
  py_eq (PDict [("number", PFloat (S754_finite false 21 1)); ("test", PStr "value")])
        test_setup.test_obj = true
  /\ py_eq (PDict [("test", PStr "value"); ("number", PStr "42")])
           test_setup.test_obj = false.
Proof. split; reflexivity. Qed.

(** * Further properties of the client *)

(** ** The log of requests *)

Lemma adds_ret {A : Type} (P : request -> Prop) (a : A) : adds 0 P (ret a).
Proof. intros st. exists []. cbn. rewrite app_nil_r. auto. Qed.

Lemma adds_raise {A : Type} (P : request -> Prop) (e : exn) : adds 0 P (@raise A e).
Proof. intros st. exists []. cbn. rewrite app_nil_r. auto. Qed.

Lemma adds_write (P : request -> Prop) (s : string) : adds 0 P (write s).
Proof. intros st. exists []. cbn. rewrite app_nil_r. auto. Qed.

Lemma adds_print (P : request -> Prop) (s : string) : adds 0 P (print s).
Proof. apply adds_write. Qed.

Lemma adds_weaken {A : Type} (n k : nat) (P : request -> Prop) (m : M A) :
  (n <= k)%nat -> adds n P m -> adds k P m.
Proof.
  intros L H st. destruct (H st) as (new & E & B & F).
  exists new. repeat split; auto. lia.
Qed.

Lemma adds_bind {A B : Type} (n k : nat) (P : request -> Prop)
      (m : M A) (f : A -> M B) :
  adds n P m -> (forall a, adds k P (f a)) -> adds (n + k) P (bind m f).
Proof.
  intros Hm Hf st. destruct (Hm st) as (new1 & E1 & B1 & F1).
  unfold bind. destruct (m st) as [[a|e] st1]; cbn [snd] in *.
  - destruct (Hf a st1) as (new2 & E2 & B2 & F2).
    exists (new1 ++ new2)%list. rewrite E2, E1, <- app_assoc.
    split; [reflexivity|]. split; [rewrite length_app; lia | now apply Forall_app].
  - exists new1. split; [exact E1|]. split; [lia | exact F1].
Qed.

(** A step that sends nothing, followed by one that sends [k]. *)
Lemma adds_then {A B : Type} (k : nat) (P : request -> Prop) (m : M A) (f : A -> M B) :
  adds 0 P m -> (forall a, adds k P (f a)) -> adds k P (bind m f).
Proof. intros Hm Hf. exact (adds_bind 0 k P m f Hm Hf). Qed.

Ltac adds_steps :=
  repeat match goal with
         | |- adds _ _ (bind (print _) _) => apply adds_then; [apply adds_print|intros ?]
         | |- adds _ _ (bind (write _) _) => apply adds_then; [apply adds_write|intros ?]
         | |- adds _ _ (print _) => apply adds_print
         | |- adds _ _ (write _) => apply adds_write
         | |- adds _ _ (ret _) => apply adds_ret
         | |- adds _ _ (raise _) => apply adds_raise
         end.

Lemma adds_zero_le {A : Type} (k : nat) (P : request -> Prop) (m : M A) :
  adds 0 P m -> adds k P m.
Proof. apply adds_weaken. lia. Qed.

Lemma except_Exception_adds (P : request -> Prop) (o : outcome pyval) :
  adds 0 P (except_Exception o).
Proof.
  destruct o as [v|e]; cbn [except_Exception]; [apply adds_ret|].
  destruct (is_Exception e); [apply adds_ret | apply adds_raise].
Qed.

(** One call of [call_claude_api] sends its request once when there is a
    key, whatever the answer, and nothing when there is none. *)
Lemma call_claude_api_log (w : world) (prompt : string) (st : io_state) :
  sent (snd (call_claude_api w prompt st)) =
  (sent st ++ if truthy (ANTHROPIC_API_KEY w) then [api_request w prompt] else [])%list.
Proof.
  destruct (truthy (ANTHROPIC_API_KEY w)) eqn:K.
  - rewrite (call_claude_api_sends _ _ _ K).
    destruct (urlopen w (List.length (sent st)) (api_request w prompt))
      as [[body|e]|code [error_body|e]|reason|e]; try reflexivity.
    + unfold except_Exception.
      destruct (let? result := json_loads w body in extract_text result) as [v|e];
        [reflexivity | destruct (is_Exception e); reflexivity].
    + simpl. destruct (is_Exception e); reflexivity.
    + simpl. destruct (is_Exception e); reflexivity.
  - rewrite (missing_key_short_circuit_state w prompt st K). simpl.
    now rewrite app_nil_r.
Qed.

Lemma call_claude_api_adds (w : world) (prompt : string) :
  adds (quota w) (is_api_request w) (call_claude_api w prompt).
Proof.
  intros st. rewrite call_claude_api_log. unfold quota.
  destruct (truthy (ANTHROPIC_API_KEY w)).
  - exists [api_request w prompt]. split; [reflexivity|]. split; [cbn; lia|].
    constructor; [now exists prompt | constructor].
  - exists []. split; [reflexivity|]. split; [cbn; lia | constructor].
Qed.

Lemma read_file_adds (w : world) (P : request -> Prop) (filepath : string) :
  adds 0 P (read_file w filepath).
Proof.
  unfold read_file. destruct (fs w filepath) as [text|e]; [apply adds_ret|].
  destruct (is_IOError e); adds_steps.
Qed.

Lemma append_context_adds (w : world) (P : request -> Prop) (files : list string) :
  forall full_prompt, adds 0 P (append_context w full_prompt files).
Proof.
  induction files as [|filepath rest IH]; intros full_prompt; cbn [append_context].
  - apply adds_ret.
  - apply adds_then; [apply read_file_adds | intros content; apply IH].
Qed.

Lemma build_full_prompt_adds (w : world) (P : request -> Prop) (prompt : string)
      (context_files : option (list string)) :
  adds 0 P (build_full_prompt w prompt context_files).
Proof.
  unfold build_full_prompt. destruct context_files as [[|filepath rest]|];
    try apply adds_ret.
  apply append_context_adds.
Qed.

Lemma send_to_claude_adds (w : world) (prompt : string)
      (context_files : option (list string)) :
  adds (quota w) (is_api_request w) (send_to_claude w prompt context_files).
Proof.
  unfold send_to_claude.
  apply adds_then; [apply build_full_prompt_adds | intros full; apply call_claude_api_adds].
Qed.

Lemma file_command_adds (w : world) (parts : list string)
      (usage progress instruction : string) :
  adds (quota w) (is_api_request w) (file_command w parts usage progress instruction).
Proof.
  unfold file_command. destruct (List.length parts <? 2)%nat.
  - apply adds_zero_le. adds_steps.
  - apply adds_then; [apply adds_print | intros _].
    replace (quota w) with (quota w + 0)%nat by lia.
    apply adds_bind; [apply send_to_claude_adds | intros response; adds_steps].
Qed.

Lemma handle_line_adds (w : world) (line : string) :
  adds (quota w) (is_api_request w) (handle_line w line).
Proof.
  unfold handle_line.
  repeat match goal with
         | |- context [if ?b then _ else _] => destruct b
         end;
    try apply file_command_adds;
    try (apply adds_zero_le; adds_steps; fail);
    (apply adds_then; [apply adds_print | intros _];
     replace (quota w) with (quota w + 0)%nat by lia;
     apply adds_bind; [apply send_to_claude_adds | intros response; adds_steps]).
Qed.

Lemma command_loop_adds (w : world) (stdin : list stdin_event) :
  adds (List.length stdin * quota w) (is_api_request w) (command_loop w stdin).
Proof.
  induction stdin as [|event rest IH]; cbn [command_loop List.length Nat.mul].
  - apply adds_write.
  - apply adds_then; [apply adds_write | intros _].
    destruct event as [text| |e0].
    + intros st.
      destruct (handle_line_adds w text st) as (new1 & E1 & B1 & F1).
      destruct (handle_line w text st) as [[[|]|e] st1]; cbn [snd] in E1.
      * destruct (IH st1) as (new2 & E2 & B2 & F2).
        exists (new1 ++ new2)%list. rewrite E2, E1, <- app_assoc.
        split; [reflexivity|].
        split; [rewrite length_app; lia | now apply Forall_app].
      * exists new1. cbn [snd]. split; [exact E1|]. split; [lia | exact F1].
      * destruct (is_KeyboardInterrupt e).
        -- assert (Hk : adds (List.length rest * quota w) (is_api_request w)
                          (bind (print (nl ++ "Use 'quit' to exit"))
                                (fun _ => command_loop w rest)))
             by (apply adds_then; [apply adds_print | intros _; exact IH]).
           destruct (Hk st1) as (new2 & E2 & B2 & F2).
           exists (new1 ++ new2)%list. rewrite E2, E1, <- app_assoc.
           split; [reflexivity|].
           split; [rewrite length_app; lia | now apply Forall_app].
        -- destruct (is_EOFError e); exists new1; cbn [snd];
             (split; [exact E1|]; split; [lia | exact F1]).
    + apply adds_then; [apply adds_print | intros _].
      apply (adds_weaken (List.length rest * quota w)); [lia | exact IH].
    + destruct (is_KeyboardInterrupt e0).
      * apply adds_then; [apply adds_print | intros _].
        apply (adds_weaken (List.length rest * quota w)); [lia | exact IH].
      * apply adds_zero_le. destruct (is_EOFError e0); [apply adds_ret | apply adds_raise].
Qed.

Lemma check_ssl_adds (w : world) (P : request -> Prop) : adds 0 P (check_ssl w).
Proof.
  unfold check_ssl.
  destruct (ssl_OPENSSL_VERSION w); [destruct (ssl_has_PROTOCOL_TLSv1_2 w)|];
    cbn [negb]; adds_steps.
Qed.

Lemma interactive_mode_adds (w : world) (stdin : list stdin_event) :
  adds (List.length stdin * quota w) (is_api_request w) (interactive_mode w stdin).
Proof.
  unfold interactive_mode.
  apply adds_then; [apply adds_print | intros _].
  apply adds_then; [apply adds_print | intros _].
  apply adds_then; [apply check_ssl_adds | intros ssl_ok].
  apply adds_then; [destruct ssl_ok; cbn [negb]; adds_steps | intros _].
  destruct (negb (truthy (ANTHROPIC_API_KEY w))).
  - apply adds_zero_le. adds_steps.
  - adds_steps.
    replace (List.length stdin * quota w)%nat
      with (List.length stdin * quota w + 0)%nat by lia.
    apply adds_bind; [apply command_loop_adds | intros _; apply adds_print].
Qed.

Lemma main_adds (w : world) (argv : list string) (stdin : list stdin_event) :
  adds ((if (List.length argv =? 1)%nat then List.length stdin else 1%nat) * quota w)
       (is_api_request w) (main w argv stdin).
Proof.
  unfold main. destruct (List.length argv =? 1)%nat.
  - apply interactive_mode_adds.
  - apply (adds_weaken (quota w)); [nia|].
    destruct (nth_error argv 1) as [first|]; [|apply adds_zero_le, adds_raise].
    destruct (String.eqb first "--check-ssl").
    + apply adds_zero_le. apply adds_then; [apply adds_print | intros _].
      apply adds_then; [apply check_ssl_adds | intros _; apply adds_ret].
    + destruct (List.length argv =? 2)%nat;
        (destruct (negb (truthy (ANTHROPIC_API_KEY w)));
         [apply adds_zero_le; adds_steps|]);
        (replace (quota w) with (quota w + 0)%nat by lia;
         apply adds_bind; [apply send_to_claude_adds | intros response; adds_steps]).
Qed.

(** **** X1
    Without a credential the client sends nothing, whatever its arguments
    and whatever is typed: not in a single shot, not from the prompt, not
    with context files. *)
Theorem no_key_no_request (w : world) (argv : list string) (stdin : list stdin_event)
        (st : io_state) :
  truthy (ANTHROPIC_API_KEY w) = false ->
  sent (snd (main w argv stdin st)) = sent st
  /\ forall prompt context_files st0,
       sent (snd (send_to_claude w prompt context_files st0)) = sent st0.
Proof.
  intros K. split.
  - destruct (main_adds w argv stdin st) as (new & E & B & _).
    unfold quota in B. rewrite K, Nat.mul_0_r in B.
    destruct new; [now rewrite app_nil_r in E | cbn in B; lia].
  - intros prompt context_files st0.
    destruct (send_to_claude_adds w prompt context_files st0) as (new & E & B & _).
    unfold quota in B. rewrite K in B.
    destruct new; [now rewrite app_nil_r in E | cbn in B; lia].
Qed.

Lemma no_key_no_request_witness :
  sent (snd (main (Scenario.world_of None (Scenario.replies Scenario.hello_body))
                  ["claude"; "What is this?"; "notes.txt"] [] Scenario.start)) = [].
Proof.
  exact (proj1 (no_key_no_request
                  (Scenario.world_of None (Scenario.replies Scenario.hello_body))
                  ["claude"; "What is this?"; "notes.txt"] [] Scenario.start eq_refl)).
Defined.

Lemma build_full_prompt_keeps_log (w : world) (prompt : string)
      (context_files : option (list string)) (st : io_state) :
  sent (snd (build_full_prompt w prompt context_files st)) = sent st.
Proof.
  destruct (build_full_prompt_adds w (fun _ => True) prompt context_files st)
    as (new & E & B & _).
  destruct new; [now rewrite app_nil_r in E | cbn in B; lia].
Qed.

(** **** X2
    With a key, once the prompt is built [send_to_claude] hands exactly one
    request to [urlopen], the one that carries the built prompt, whatever
    the answer is: a reply, an error status, a transport failure or an
    exception.  Nothing is sent twice. *)
Theorem one_request_per_call
        (w : world) (prompt : string) (context_files : option (list string))
        (st : io_state) (full_prompt : string) :
  truthy (ANTHROPIC_API_KEY w) = true ->
  fst (build_full_prompt w prompt context_files st) = Return full_prompt ->
  sent (snd (send_to_claude w prompt context_files st)) =
  (sent st ++ [api_request w full_prompt])%list.
Proof.
  intros K B. unfold send_to_claude, bind.
  pose proof (build_full_prompt_keeps_log w prompt context_files st) as L.
  destruct (build_full_prompt w prompt context_files st) as [r st1].
  cbn [fst snd] in *. subst r.
  rewrite call_claude_api_log, K, L. reflexivity.
Qed.

Lemma one_request_per_call_witness :
  sent (snd (send_to_claude (Scenario.world_of Scenario.key Scenario.unreachable)
                            "Why?" (Some ["notes.txt"; "missing.txt"]) Scenario.start))
  = [api_request (Scenario.world_of Scenario.key Scenario.unreachable)
                 ("Why?" ++ nl ++ nl ++ "Context files:" ++ nl
                  ++ nl ++ "--- notes.txt ---" ++ nl ++ "remember the milk" ++ nl
                  ++ nl ++ "--- missing.txt ---" ++ nl ++ "[Could not read file]" ++ nl)].
Proof.
  apply (one_request_per_call (Scenario.world_of Scenario.key Scenario.unreachable)
           "Why?" (Some ["notes.txt"; "missing.txt"]) Scenario.start);
    vm_compute; reflexivity.
Defined.

(** **** X3
    Every request the client sends during a run goes to the fixed
    endpoint with the content type, the key of the environment and the
    API version as headers and a timeout of sixty seconds, and its body is
    the serialised payload of some prompt.  An interactive session sends
    at most one request per line typed, a single shot at most one. *)
Theorem requests_of_a_run (w : world) (argv : list string) (stdin : list stdin_event)
        (st : io_state) :
  exists new : list request,
    sent (snd (main w argv stdin st)) = (sent st ++ new)%list
    /\ (List.length new <=
        if (List.length argv =? 1)%nat then List.length stdin else 1)%nat
    /\ Forall (fun req =>
                 req_url req = "https://api.anthropic.com/v1/messages"
                 /\ req_headers req = [("Content-Type", "application/json");
                                       ("x-api-key", environ_get w "ANTHROPIC_API_KEY");
                                       ("anthropic-version", "2023-06-01")]
                 /\ req_timeout req = 60
                 /\ exists prompt, req_data req = json_dumps w (payload prompt)) new.
Proof.
  destruct (main_adds w argv stdin st) as (new & E & B & F).
  exists new. split; [exact E|]. split.
  - unfold quota in B. destruct (truthy (ANTHROPIC_API_KEY w)); nia.
  - apply (Forall_impl _ (P := is_api_request w)); [|exact F].
    intros req (prompt & ->). repeat split. now exists prompt.
Qed.

(** ** The dispatcher *)

Lemma split_of_nothing : split_ws 2 EmptyString = [].
Proof. reflexivity. Qed.

(** What [handle_line] does once the line is known to hold words and not
    to be [quit]. *)
Lemma handle_line_words (w : world) (line word : string) (more : list string) :
  split_ws 2 (strip line) = word :: more ->
  String.eqb (strip line) "quit" = false ->
  handle_line w line =
  (let parts := word :: more in
   let command := word in
   if String.eqb command "ask" then
     if (List.length parts <? 2)%nat then
       bind (print "Usage: ask <question>") (fun _ => ret Continue)
     else
       bind (print (nl ++ "Thinking..."))
            (fun _ => bind (send_to_claude w (join " " (tl parts)) None)
                           (fun response =>
                              bind (print (nl ++ py_str w response ++ nl))
                                   (fun _ => ret Continue)))
   else if String.eqb command "file" then
     if (List.length parts <? 3)%nat then
       bind (print "Usage: file <path> <question>") (fun _ => ret Continue)
     else
       bind (print (nl ++ "Analyzing..."))
            (fun _ => bind (send_to_claude w (nth 2 parts EmptyString)
                                           (Some [nth 1 parts EmptyString]))
                           (fun response =>
                              bind (print (nl ++ py_str w response ++ nl))
                                   (fun _ => ret Continue)))
   else if String.eqb command "explain" then
     file_command w parts "Usage: explain <path>" "Analyzing..."
       "Please explain what this code does, how it works, and any important details:"
   else if String.eqb command "fix" then
     file_command w parts "Usage: fix <path>" "Analyzing..."
       "Please review this code and suggest improvements, bug fixes, or optimizations:"
   else if String.eqb command "review" then
     file_command w parts "Usage: review <path>" "Reviewing..."
       "Please perform a thorough code review, checking for bugs, security issues, style problems, and suggesting improvements:"
   else if String.eqb command "test" then
     file_command w parts "Usage: test <path>" "Generating tests..."
       "Please generate unit tests for this code. Include edge cases and error conditions:"
   else
     bind (print ("Unknown command: " ++ command)) (fun _ => ret Continue)).
Proof.
  intros P Q. unfold handle_line. rewrite P, Q.
  destruct (strip line) as [|c rest]; [discriminate P | reflexivity].
Qed.

Lemma not_quit_of_usage (line verb usage : string) (more : list string) :
  split_ws 2 (strip line) = verb :: more ->
  usage_of verb = Some usage ->
  String.eqb (strip line) "quit" = false.
Proof.
  intros P U. destruct (String.eqb (strip line) "quit") eqn:Q; [|reflexivity].
  apply String.eqb_eq in Q. rewrite Q in P. vm_compute in P.
  injection P as <- _. vm_compute in U. discriminate U.
Qed.

(** **** X4
    A verb typed without what it needs gets its usage line and nothing
    else: [ask], [explain], [fix], [review] and [test] alone on the line,
    [file] alone or with a path only.  No request is sent, and the loop
    goes on. *)
Theorem usage_on_missing_argument
        (w : world) (line verb usage : string) (more : list string) (st : io_state) :
  split_ws 2 (strip line) = verb :: more ->
  usage_of verb = Some usage ->
  more = [] \/ (verb = "file" /\ List.length more = 1%nat) ->
  handle_line w line st =
  (Return Continue, mk_state (stdout st ++ [(usage ++ nl)%string])%list (sent st)).
Proof.
  intros P U A.
  rewrite (handle_line_words w line verb more P (not_quit_of_usage _ _ _ _ P U)).
  cbv zeta. unfold usage_of in U.
  destruct A as [-> | [-> L]].
  - repeat match type of U with
           | (if ?b then _ else _) = _ => destruct b
           end; try discriminate U; injection U as <-; reflexivity.
  - destruct more as [|path [|x more]]; try discriminate L.
    injection U as <-. reflexivity.
Qed.

Lemma usage_on_missing_argument_witness :
  handle_line (Scenario.world_of Scenario.key (Scenario.replies Scenario.hello_body))
              "  file notes.txt " Scenario.start
  = (Return Continue,
     mk_state [("Usage: file <path> <question>" ++ nl)%string] []).
Proof.
  apply (usage_on_missing_argument _ "  file notes.txt " "file"
           "Usage: file <path> <question>" ["notes.txt"]);
    [reflexivity | reflexivity | right; split; reflexivity].
Defined.

(** **** X5
    A line whose first word is none of the six verbs, and which is not
    [quit], is answered with [Unknown command: ] and that word; no request
    is sent, and the loop goes on. *)
Theorem unknown_command_reported
        (w : world) (line word : string) (more : list string) (st : io_state) :
  split_ws 2 (strip line) = word :: more ->
  String.eqb (strip line) "quit" = false ->
  usage_of word = None ->
  handle_line w line st =
  (Return Continue,
   mk_state (stdout st ++ [("Unknown command: " ++ word ++ nl)%string])%list (sent st)).
Proof.
  intros P Q U. rewrite (handle_line_words w line word more P Q).
  cbv zeta. unfold usage_of in U.
  repeat match type of U with
         | (if ?b then _ else _) = _ => destruct b
         end; try discriminate U.
  cbv [bind print write ret]. rewrite app_assoc_str. reflexivity.
Qed.

Lemma unknown_command_reported_witness :
  handle_line (Scenario.world_of Scenario.key (Scenario.replies Scenario.hello_body))
              "help me please" Scenario.start
  = (Return Continue, mk_state [("Unknown command: help" ++ nl)%string] []).
Proof.
  apply (unknown_command_reported _ "help me please" "help" ["me"; "please"]);
    reflexivity.
Defined.

(** **** X6
    What is typed after [quit] is never read: a session is the same
    whatever follows the first line that is [quit] once stripped. *)
Theorem nothing_after_quit
        (w : world) (before after : list stdin_event) (line : string) (st : io_state) :
  strip line = "quit" ->
  command_loop w (before ++ Line line :: after)%list st
  = command_loop w (before ++ [Line line])%list st.
Proof.
  intros Q. revert st.
  assert (H : forall rest st, command_loop w (Line line :: rest) st
                              = (Return tt, mk_state (stdout st ++ ["claude> "])%list (sent st))).
  { intros rest st. cbn [command_loop]. unfold bind, write, handle_line.
    rewrite Q. reflexivity. }
  induction before as [|event before IH]; intros st.
  - cbn [app]. now rewrite !H.
  - cbn [app command_loop]. unfold bind, print, write.
    destruct event as [text| |e]; [|apply IH|].
    + destruct (handle_line w text _) as [[[|]|e] st1]; [apply IH | reflexivity |].
      destruct (is_KeyboardInterrupt e); [apply IH | reflexivity].
    + destruct (is_KeyboardInterrupt e); [apply IH | reflexivity].
Qed.

Lemma nothing_after_quit_witness :
  command_loop (Scenario.world_of Scenario.key (Scenario.replies Scenario.hello_body))
               [Line "ask hello"; Line " quit "; Line "ask again"] Scenario.start
  = command_loop (Scenario.world_of Scenario.key (Scenario.replies Scenario.hello_body))
                 [Line "ask hello"; Line " quit "] Scenario.start.
Proof.
  exact (nothing_after_quit
           (Scenario.world_of Scenario.key (Scenario.replies Scenario.hello_body))
           [Line "ask hello"] [Line "ask again"] " quit " Scenario.start eq_refl).
Defined.

(** ** What the invoker returns *)

Lemma http_error_text_forms (w : world) (code : Z) (error_body : bytes) :
  exists tail : string,
    http_error_text w code error_body = "API Error (" ++ str_of_int code ++ tail
    \/ http_error_text w code error_body = "HTTP Error " ++ str_of_int code ++ tail.
Proof.
  unfold http_error_text.
  destruct (json_loads_bytes w error_body) as [error_json|e]; cbn [obind];
    [|eexists; right; reflexivity].
  destruct (py_get error_json "error" (PDict [])) as [err|e]; cbn [obind];
    [|eexists; right; reflexivity].
  destruct (py_get err "message" (PStr "Unknown error")) as [message|e]; cbn [obind];
    eexists; [left | right]; reflexivity.
Qed.

(** **** X7
    Whatever the body of an error response holds, JSON or not, with or
    without a message, the string returned names the status code, after
    [API Error (] or after [HTTP Error ]. *)
Theorem http_error_names_status
        (w : world) (prompt : string) (st : io_state) (code : Z) (error_body : bytes) :
  truthy (ANTHROPIC_API_KEY w) = true ->
  urlopen w (List.length (sent st)) (api_request w prompt)
  = HTTPError code (Return error_body) ->
  exists text : string,
    fst (call_claude_api w prompt st) = Return (PStr text)
    /\ contains (str_of_int code) text = true
    /\ (String.prefix ("API Error (" ++ str_of_int code) text = true
        \/ String.prefix ("HTTP Error " ++ str_of_int code) text = true).
Proof.
  intros K N. rewrite (call_claude_api_sends _ _ _ K), N. cbn [ret fst].
  exists (http_error_text w code error_body). split; [reflexivity|].
  destruct (http_error_text_forms w code error_body) as (tail & [E|E]); rewrite E.
  - split; [apply contains_infix|]. left.
    rewrite <- app_assoc_str. apply prefix_app.
  - split; [apply (contains_infix _ "HTTP Error ")|]. right.
    rewrite <- app_assoc_str. apply prefix_app.
Qed.

Lemma http_error_names_status_witness :
  exists text : string,
    fst (call_claude_api
           (Scenario.world_of Scenario.key (Scenario.refuses 503 Scenario.unavailable_body))
           "hi" Scenario.start) = Return (PStr text)
    /\ contains "503" text = true.
Proof.
  destruct (http_error_names_status
              (Scenario.world_of Scenario.key (Scenario.refuses 503 Scenario.unavailable_body))
              "hi" Scenario.start 503 Scenario.unavailable_body eq_refl eq_refl)
    as (text & R & C & _).
  exists text. split; [exact R | exact C].
Defined.

(** What [extract_text] returns is the text of the first block or the
    fixed message. *)
Lemma extract_text_value (result v : pyval) :
  extract_text result = Return v ->
  first_text result = Some v \/ v = PStr "ERROR: Unexpected response format".
Proof.
  unfold extract_text, first_text.
  destruct result as [| b | n | f | s | items | d]; simpl; try discriminate.
  - destruct (contains "content" s); simpl; [discriminate|].
    intros H; injection H as <-; now right.
  - destruct (existsb _ items); simpl; [discriminate|].
    intros H; injection H as <-; now right.
  - destruct (dict_get d "content") as [content|]; simpl;
      [|intros H; injection H as <-; now right].
    destruct content as [| b | n | f | s | [|first more] | [|entry rest]]; simpl;
      try discriminate; try (intros H; injection H as <-; now right).
    + destruct s as [|c s]; simpl; [|discriminate].
      intros H; injection H as <-; now right.
    + destruct first as [| b | n | f | s | items | block]; simpl; try discriminate.
      destruct (dict_get block "text"); [|discriminate].
      intros H; injection H as <-; now left.
Qed.

Lemma prefix_nil (s : string) : String.prefix EmptyString s = true.
Proof. destruct s; reflexivity. Qed.

Lemma tagged_Error (msg : string) : tagged ("Error: " ++ msg) = true.
Proof. unfold tagged, error_tags. cbn. rewrite prefix_nil. reflexivity. Qed.

(** **** X8
    Whatever [call_claude_api] returns is either the [text] of the first
    content block of the decoded response, or a string that begins with
    one of the six error prefixes: the caller can tell a failure from its
    first words. *)
Theorem returned_value_classified
        (w : world) (prompt : string) (st : io_state) (v : pyval) :
  fst (call_claude_api w prompt st) = Return v ->
  (exists body result,
      urlopen w (List.length (sent st)) (api_request w prompt) = Response (Return body)
      /\ json_loads w body = Return result
      /\ first_text result = Some v)
  \/ (exists s : string, v = PStr s /\ tagged s = true).
Proof.
  destruct (truthy (ANTHROPIC_API_KEY w)) eqn:K.
  - rewrite (call_claude_api_sends _ _ _ K).
    destruct (urlopen w (List.length (sent st)) (api_request w prompt))
      as [[body|e]|code [error_body|e]|reason|e].
    + destruct (json_loads w body) as [result|e] eqn:J; cbn [obind].
      * destruct (extract_text result) as [x|e] eqn:X; cbn.
        -- intros H; injection H as <-.
           destruct (extract_text_value _ _ X) as [F | ->].
           ++ left. exists body, result. auto.
           ++ right. eexists; split; reflexivity.
        -- destruct (is_Exception e); cbn; [|discriminate].
           intros H; injection H as <-. right. eexists; split; [reflexivity|].
           apply tagged_Error.
      * cbn. destruct (is_Exception e); cbn; [|discriminate].
        intros H; injection H as <-. right. eexists; split; [reflexivity|].
        apply tagged_Error.
    + cbn. destruct (is_Exception e); cbn; [|discriminate].
      intros H; injection H as <-. right. eexists; split; [reflexivity|].
      apply tagged_Error.
    + cbn. intros H; injection H as <-. right. eexists; split; [reflexivity|].
      destruct (http_error_text_forms w code error_body) as (tail & [E|E]); rewrite E;
        unfold tagged, error_tags; cbn; rewrite prefix_nil, ?orb_true_r; reflexivity.
    + cbn. discriminate.
    + cbn. intros H; injection H as <-. right. eexists; split; [reflexivity|].
      unfold tagged, error_tags; cbn; rewrite prefix_nil, ?orb_true_r; reflexivity.
    + cbn. destruct (is_Exception e); cbn; [|discriminate].
      intros H; injection H as <-. right. eexists; split; [reflexivity|].
      apply tagged_Error.
  - rewrite (missing_key_short_circuit_state _ _ _ K). cbn.
    intros H; injection H as <-. right. eexists; split; reflexivity.
Qed.

Lemma returned_value_classified_witness :
  exists s : string,
    PStr "Connection Error: [Errno 61] Connection refused" = PStr s /\ tagged s = true.
Proof.
  destruct (returned_value_classified
              (Scenario.world_of Scenario.key Scenario.unreachable) "hi" Scenario.start
              (PStr "Connection Error: [Errno 61] Connection refused") eq_refl)
    as [(body & result & N & _) | H]; [discriminate N | exact H].
Defined.

(** **** X9
    In a world where reading a file fails with [IOError] only, the body of
    an error response can be read, and what the network and the decoder
    raise derives from [Exception], no command raises: [send_to_claude]
    returns a value for every prompt and every list of files, and an
    interactive session returns with status zero whatever lines are typed
    and however often it is interrupted.  Only [input] can still end the
    session: when it raises what neither handler of the loop catches, as
    it does on bytes that are not text, before any [quit], that exception
    leaves [main]. *)
Theorem client_returns_in_tame_world (w : world) :
  tame w ->
  (forall prompt context_files st,
      exists v st', send_to_claude w prompt context_files st = (Return v, st'))
  /\ (forall prog stdin st,
        Forall handled_input stdin ->
        fst (main w [prog] stdin st) = Return tt
        /\ exit_status (fst (main w [prog] stdin st)) = 0)
  /\ (forall prog before e after st,
        truthy (ANTHROPIC_API_KEY w) = true ->
        Forall keeps_going before ->
        is_KeyboardInterrupt e = false ->
        is_EOFError e = false ->
        fst (main w [prog] (before ++ InputRaises e :: after)%list st) = Raise e).
Proof.
  intros T. split; [|split].
  - intros prompt context_files st. exact (send_to_claude_returns w T _ _ st).
  - intros prog stdin st F.
    rewrite (interactive_exit_zero w prog stdin st T F). split; reflexivity.
  - intros prog before e after st Key G K Q.
    unfold main. cbn [List.length Nat.eqb].
    apply interactive_mode_raises; try assumption.
    apply tame_turns; [exact T | now apply keeps_going_handled].
Qed.

Lemma client_returns_in_tame_world_witness :
  exit_status
    (fst (main (Scenario.world_on Scenario.text_disk Scenario.key
                                  (Scenario.replies Scenario.hello_body))
               ["claude"] [Line "explain photo.jpg"; Interrupt; Line "quit"]
               Scenario.start)) = 0
  /\ fst (main (Scenario.world_on Scenario.text_disk Scenario.key
                                  (Scenario.replies Scenario.hello_body))
               ["claude"] [Line "ask hello"; InputRaises Scenario.undecodable; Line "quit"]
               Scenario.start) = Raise Scenario.undecodable.
Proof.
  assert (T : tame (Scenario.world_on Scenario.text_disk Scenario.key
                                      (Scenario.replies Scenario.hello_body))).
  { split.
    - intros filepath.
      unfold caught, Scenario.world_on, Scenario.text_disk, Scenario.disk. cbn [fs].
      destruct (String.eqb filepath "photo.jpg"); [reflexivity|].
      destruct (String.eqb filepath "notes.txt"); [reflexivity|].
      destruct (String.eqb filepath "empty.txt"); reflexivity.
    - intros n req e. cbn. discriminate. }
  split.
  - refine (proj2 (proj1 (proj2 (client_returns_in_tame_world _ T))
                         "claude" [Line "explain photo.jpg"; Interrupt; Line "quit"]
                         Scenario.start _)).
    repeat constructor.
  - refine (proj2 (proj2 (client_returns_in_tame_world _ T))
                  "claude" [Line "ask hello"] Scenario.undecodable [Line "quit"]
                  Scenario.start eq_refl _ eq_refl eq_refl).
    constructor; [|constructor]. cbn. discriminate.
Defined.

(** ** The builder, file by file *)

Lemma app_empty_r (s : string) : s ++ EmptyString = s.
Proof. induction s; simpl; congruence. Qed.

(** The whole run of the loop over files that can be read or fail with an
    [IOError]: the text, what was printed, and an untouched log. *)
Lemma append_context_run (w : world) (files : list string) :
  Forall (fun filepath => caught w filepath = true) files ->
  forall (full_prompt : string) (st : io_state),
    append_context w full_prompt files st =
    (Return (full_prompt ++ sections w files),
     mk_state (stdout st ++ read_errors w files)%list (sent st)).
Proof.
  induction 1 as [|filepath rest Hc _ IH]; intros full_prompt st.
  - cbn. rewrite app_empty_r, app_nil_r. now destruct st.
  - cbn [append_context sections read_errors]. unfold bind, read_file.
    unfold caught in Hc. rewrite <- file_section_of.
    destruct (fs w filepath) as [text|e].
    + cbn [ret]. rewrite IH, app_assoc_str. reflexivity.
    + rewrite Hc. cbv [bind print write ret]. rewrite IH. cbn [stdout sent].
      rewrite app_assoc_str, <- app_assoc, app_assoc_str. reflexivity.
Qed.

(** **** X10
    When every context file can be read or fails with an [IOError], the
    text built is the prompt, the line [Context files:], and one section
    per path in the order given: the file's text, or the marker when the
    read failed or gave nothing.  Each failed read is reported on standard
    output, in the same order, and nothing is sent while building. *)
Theorem sections_in_order
        (w : world) (prompt filepath : string) (rest : list string) (st : io_state) :
  Forall (fun p => caught w p = true) (filepath :: rest) ->
  build_full_prompt w prompt (Some (filepath :: rest)) st =
  (Return (prompt ++ nl ++ nl ++ "Context files:" ++ nl ++ sections w (filepath :: rest)),
   mk_state (stdout st ++ read_errors w (filepath :: rest))%list (sent st)).
Proof.
  intros H. unfold build_full_prompt.
  rewrite (append_context_run w _ H), !app_assoc_str. reflexivity.
Qed.

Lemma sections_in_order_witness :
  build_full_prompt (Scenario.world_of Scenario.key Scenario.unreachable)
                    "Compare" (Some ["missing.txt"; "notes.txt"]) Scenario.start
  = (Return ("Compare" ++ nl ++ nl ++ "Context files:" ++ nl
             ++ nl ++ "--- missing.txt ---" ++ nl ++ "[Could not read file]" ++ nl
             ++ nl ++ "--- notes.txt ---" ++ nl ++ "remember the milk" ++ nl),
     mk_state [("Error reading file: [Errno 2] No such file or directory: 'missing.txt'"
                ++ nl)%string] []).
Proof.
  apply (sections_in_order (Scenario.world_of Scenario.key Scenario.unreachable)
           "Compare" "missing.txt" ["notes.txt"] Scenario.start).
  repeat constructor.
Defined.




(** ** Commands about a file *)

Lemma send_to_claude_log (w : world) (prompt : string)
      (context_files : option (list string)) (st : io_state) (full_prompt : string) :
  truthy (ANTHROPIC_API_KEY w) = true ->
  fst (build_full_prompt w prompt context_files st) = Return full_prompt ->
  sent (snd (send_to_claude w prompt context_files st)) =
  (sent st ++ [api_request w full_prompt])%list.
Proof.
  intros K B. unfold send_to_claude, bind.
  pose proof (build_full_prompt_keeps_log w prompt context_files st) as L.
  destruct (build_full_prompt w prompt context_files st) as [r st1].
  cbn [fst snd] in *. subst r.
  rewrite call_claude_api_log, K, L. reflexivity.
Qed.

Lemma file_command_log (w : world) (verb path : string) (more : list string)
      (usage progress instruction : string) (st : io_state) :
  truthy (ANTHROPIC_API_KEY w) = true ->
  caught w path = true ->
  sent (snd (file_command w (verb :: path :: more) usage progress instruction st)) =
  (sent st ++ [api_request w (instruction ++ nl ++ nl ++ "Context files:" ++ nl
                              ++ section_of w path)])%list.
Proof.
  intros K C. unfold file_command. cbn [List.length Nat.ltb Nat.leb nth].
  unfold bind at 1. unfold print at 1, write.
  set (st1 := mk_state (stdout st ++ [((nl ++ progress) ++ nl)%string])%list (sent st)).
  assert (B : fst (build_full_prompt w instruction (Some [path]) st1)
              = Return (instruction ++ nl ++ nl ++ "Context files:" ++ nl
                        ++ section_of w path)).
  { rewrite (build_full_prompt_sections w instruction path [] st1)
      by (repeat constructor; exact C).
    cbn [sections]. now rewrite app_empty_r. }
  pose proof (send_to_claude_log w instruction (Some [path]) st1 _ K B) as L.
  unfold bind.
  destruct (send_to_claude w instruction (Some [path]) st1) as [[response|e] st2];
    cbn [snd] in L; unfold print, write, ret; cbn [snd sent]; exact L.
Qed.

(** **** X13
    [explain], [fix], [review] and [test] followed by a path send, with a
    key, exactly one request: its prompt is the fixed instruction of the
    verb, the line [Context files:] and the section of that file, which
    holds the marker when the file is missing or empty.  A file that
    cannot be read does not stop the request. *)
Theorem file_verbs_attach_the_file
        (w : world) (line verb path instruction : string) (more : list string)
        (st : io_state) :
  split_ws 2 (strip line) = verb :: path :: more ->
  instruction_of verb = Some instruction ->
  truthy (ANTHROPIC_API_KEY w) = true ->
  caught w path = true ->
  sent (snd (handle_line w line st)) =
  (sent st ++ [api_request w (instruction ++ nl ++ nl ++ "Context files:" ++ nl
                              ++ section_of w path)])%list.
Proof.
  intros P I K C.
  assert (Q : String.eqb (strip line) "quit" = false).
  { destruct (String.eqb (strip line) "quit") eqn:Q; [|reflexivity].
    apply String.eqb_eq in Q. rewrite Q in P. vm_compute in P. discriminate P. }
  rewrite (handle_line_words w line verb (path :: more) P Q).
  unfold instruction_of in I.
  destruct (String.eqb verb "explain") eqn:E1;
    [apply String.eqb_eq in E1; subst verb; injection I as <-;
     exact (file_command_log w "explain" path more _ _ _ st K C)|].
  destruct (String.eqb verb "fix") eqn:E2;
    [apply String.eqb_eq in E2; subst verb; injection I as <-;
     exact (file_command_log w "fix" path more _ _ _ st K C)|].
  destruct (String.eqb verb "review") eqn:E3;
    [apply String.eqb_eq in E3; subst verb; injection I as <-;
     exact (file_command_log w "review" path more _ _ _ st K C)|].
  destruct (String.eqb verb "test") eqn:E4; [|discriminate I].
  apply String.eqb_eq in E4; subst verb; injection I as <-.
  exact (file_command_log w "test" path more _ _ _ st K C).
Qed.

Lemma file_verbs_attach_the_file_witness :
  sent (snd (handle_line (Scenario.world_of Scenario.key Scenario.unreachable)
                         "explain foo.txt" Scenario.start))
  = [api_request (Scenario.world_of Scenario.key Scenario.unreachable)
       ("Please explain what this code does, how it works, and any important details:"
        ++ nl ++ nl ++ "Context files:" ++ nl
        ++ nl ++ "--- foo.txt ---" ++ nl ++ "[Could not read file]" ++ nl)].
Proof.
  apply (file_verbs_attach_the_file
           (Scenario.world_of Scenario.key Scenario.unreachable)
           "explain foo.txt" "explain" "foo.txt" _ [] Scenario.start);
    reflexivity.
Defined.

(** * Properties of the diagnostics *)

Lemma tuple_lt_3_10 (a b c : Z) :
  test_setup.tuple_lt [a; b; c] [3; 10]
  = negb ((3 <? a) || ((a =? 3) && (10 <=? b))).
Proof.
  cbn [test_setup.tuple_lt].
  destruct (Z.ltb_spec a 3), (Z.ltb_spec 3 a), (Z.eqb_spec a 3),
    (Z.ltb_spec b 10), (Z.ltb_spec 10 b), (Z.leb_spec 10 b);
    cbn; try reflexivity; lia.
Qed.

Ltac run_prints :=
  unfold test_setup.print_header; cbv [bind print write ret raise]; cbn [stdout sent].

Ltac returned H :=
  injection H as <- <-; cbn [sent stdout]; repeat split; try reflexivity.

Lemma check_python_inv (h : test_setup.host) (st st' : io_state) (b : bool) :
  test_setup.check_python h st = (Return b, st') ->
  b = python_ok h /\ sent st' = sent st.
Proof.
  unfold test_setup.check_python, python_ok. rewrite tuple_lt_3_10.
  destruct ((3 <? _) || _); run_prints; intros H; returned H.
Qed.

Lemma check_python_returns (h : test_setup.host) : returns (test_setup.check_python h).
Proof.
  intros st. unfold test_setup.check_python.
  destruct (test_setup.tuple_lt _ _); run_prints; eexists; eexists; reflexivity.
Qed.

(** **** X14
    [check_python] always returns, and it passes exactly from Python 3.10
    on: major above 3, or major 3 and minor at least 10.  The micro
    version plays no part. *)
Theorem check_python_threshold (h : test_setup.host) (st : io_state) :
  exists b : bool,
    fst (test_setup.check_python h st) = Return b
    /\ (b = true <->
        3 < test_setup.version_major h
        \/ (test_setup.version_major h = 3 /\ 10 <= test_setup.version_minor h)).
Proof.
  destruct (check_python_returns h st) as (b & st' & E).
  exists b. rewrite E. split; [reflexivity|].
  destruct (check_python_inv h st st' b E) as [-> _]. unfold python_ok.
  rewrite orb_true_iff, andb_true_iff, Z.ltb_lt, Z.eqb_eq, Z.leb_le. reflexivity.
Qed.

Lemma check_ssl_inv (h : test_setup.host) (st st' : io_state) (b : bool) :
  test_setup.check_ssl h st = (Return b, st') ->
  b = tls_ok h /\ sent st' = sent st.
Proof.
  unfold test_setup.check_ssl, tls_ok.
  destruct (test_setup.ssl_importable h); cbn [andb].
  - destruct (ssl_OPENSSL_VERSION (test_setup.host_world h)) as [version|];
      [|run_prints; discriminate].
    destruct (ssl_has_PROTOCOL_TLSv1_2 (test_setup.host_world h));
      [destruct (test_setup.ssl_has_PROTOCOL_TLS h)|];
      run_prints; intros H; returned H.
  - run_prints; intros H; returned H.
Qed.

Lemma check_json_inv (w : world) (st st' : io_state) (b : bool) :
  test_setup.check_json w st = (Return b, st') ->
  b = json_ok w /\ sent st' = sent st.
Proof.
  unfold test_setup.check_json, test_setup.json_not_available, json_ok.
  destruct (json_importable w); cbn [andb];
    [|run_prints; intros H; returned H].
  destruct (json_loads w (json_dumps w test_setup.test_obj)) as [decoded|e].
  - destruct (py_eq decoded test_setup.test_obj); run_prints; intros H; returned H.
  - destruct (test_setup.is_ImportError e); run_prints; [intros H; returned H | discriminate].
Qed.

Lemma check_urllib_inv (h : test_setup.host) (st st' : io_state) (b : bool) :
  test_setup.check_urllib h st = (Return b, st') ->
  b = https_ok h /\ sent st' = sent st.
Proof.
  unfold test_setup.check_urllib, test_setup.urllib_not_available, https_ok.
  destruct (test_setup.urllib_importable h); cbn [andb];
    [|run_prints; intros H; returned H].
  destruct (test_setup.HTTPSHandler h) as [[]|e].
  - run_prints; intros H; returned H.
  - destruct (test_setup.is_ImportError e); run_prints; [intros H; returned H | discriminate].
Qed.

Lemma check_api_key_inv (h : test_setup.host) (st st' : io_state) (b : bool) :
  test_setup.check_api_key h st = (Return b, st') ->
  b = key_ok (test_setup.host_world h) /\ sent st' = sent st.
Proof.
  unfold test_setup.check_api_key, key_ok.
  destruct (environ_get (test_setup.host_world h) "ANTHROPIC_API_KEY") as [|c key] eqn:E.
  - run_prints; intros H; returned H.
  - cbn [truthy negb].
    destruct (String.prefix "sk-ant-" (String c key)); run_prints; intros H; returned H.
Qed.

Lemma scan_locations_run (h : test_setup.host) (locations : list string) :
  forall (found : bool) (st : io_state),
  exists out,
    test_setup.scan_locations h found locations st =
    (Return (found || existsb (test_setup.path_exists h) locations),
     mk_state (stdout st ++ out)%list (sent st)).
Proof.
  induction locations as [|loc rest IH]; intros found st; cbn [test_setup.scan_locations existsb].
  - exists []. rewrite orb_false_r, app_nil_r. now destruct st.
  - destruct (test_setup.path_exists h loc); cbv [bind print write];
      match goal with |- context [test_setup.scan_locations h ?f rest ?s] =>
        destruct (IH f s) as (out & ->) end;
      cbn [stdout sent]; eexists; rewrite <- app_assoc;
      [rewrite orb_true_r | rewrite orb_false_l]; reflexivity.
Qed.

Lemma check_certificates_inv (h : test_setup.host) (st st' : io_state) (b : bool) :
  test_setup.check_certificates h st = (Return b, st') ->
  b = certs_ok h /\ sent st' = sent st.
Proof.
  unfold test_setup.check_certificates, certs_ok, test_setup.print_header.
  set (cert_file := environ_get (test_setup.host_world h) "SSL_CERT_FILE").
  destruct (truthy cert_file);
    [destruct (test_setup.path_exists h cert_file)|];
    cbv [bind print write];
    match goal with
    | |- context [test_setup.scan_locations h false ?l ?s] =>
        destruct (scan_locations_run h l false s) as (out & ->)
    end;
    cbn [orb negb andb];
    destruct (existsb (test_setup.path_exists h) test_setup.cert_locations);
    cbn [negb andb orb]; cbv [ret]; cbn [stdout sent];
    intros H; returned H.
Qed.

(** **** X15
    [check_api_key] passes exactly when the key begins with [sk-ant-], and
    what it prints tells the length of the key and nothing more: two keys
    of the same length that both begin with [sk-ant-] give the same
    output, character for character. *)
Theorem check_api_key_shows_length_only (h1 h2 : test_setup.host) (st : io_state) :
  let key1 := environ_get (test_setup.host_world h1) "ANTHROPIC_API_KEY" in
  let key2 := environ_get (test_setup.host_world h2) "ANTHROPIC_API_KEY" in
  fst (test_setup.check_api_key h1 st) = Return (String.prefix "sk-ant-" key1)
  /\ (String.prefix "sk-ant-" key1 = true ->
      String.prefix "sk-ant-" key2 = true ->
      String.length key1 = String.length key2 ->
      test_setup.check_api_key h1 st = test_setup.check_api_key h2 st).
Proof.
  cbv zeta. unfold test_setup.check_api_key.
  destruct (environ_get (test_setup.host_world h1) "ANTHROPIC_API_KEY") as [|c1 k1];
    destruct (environ_get (test_setup.host_world h2) "ANTHROPIC_API_KEY") as [|c2 k2];
    split; try reflexivity; try discriminate.
  - cbn [truthy negb]. destruct (String.prefix "sk-ant-" (String c1 k1)); reflexivity.
  - cbn [truthy negb]. destruct (String.prefix "sk-ant-" (String c1 k1)); reflexivity.
  - intros P1 P2 L. cbn [truthy negb]. rewrite P1, P2, L. reflexivity.
Qed.

Lemma check_api_key_shows_length_only_witness :
  test_setup.check_api_key
    (Scenario.machine (Scenario.world_of (Some "sk-ant-alpha") Scenario.unreachable)
                      (test_setup.ProbeResponse 200)) Scenario.start
  = test_setup.check_api_key
      (Scenario.machine (Scenario.world_of (Some "sk-ant-omega") Scenario.unreachable)
                        (test_setup.ProbeResponse 200)) Scenario.start.
Proof.
  apply (proj2 (check_api_key_shows_length_only
                  (Scenario.machine
                     (Scenario.world_of (Some "sk-ant-alpha") Scenario.unreachable)
                     (test_setup.ProbeResponse 200))
                  (Scenario.machine
                     (Scenario.world_of (Some "sk-ant-omega") Scenario.unreachable)
                     (test_setup.ProbeResponse 200))
                  Scenario.start));
    reflexivity.
Defined.

Lemma check_certificates_returns (h : test_setup.host) :
  returns (test_setup.check_certificates h).
Proof.
  intros st. unfold test_setup.check_certificates, test_setup.print_header.
  destruct (truthy (environ_get (test_setup.host_world h) "SSL_CERT_FILE"));
    [destruct (test_setup.path_exists h _)|];
    cbv [bind print write];
    match goal with
    | |- context [test_setup.scan_locations h false ?l ?s] =>
        destruct (scan_locations_run h l false s) as (out & ->)
    end;
    cbn [orb negb andb];
    destruct (existsb (test_setup.path_exists h) test_setup.cert_locations);
    cbn [negb andb orb]; cbv [ret]; eexists; eexists; reflexivity.
Qed.

(** **** X16
    [check_certificates] always returns, and it passes exactly when
    [SSL_CERT_FILE] is set to a non-empty value or one of the four usual
    places exists.  Whether the file named by [SSL_CERT_FILE] exists
    changes the text printed, not the verdict. *)
Theorem certificates_verdict (h : test_setup.host) (st : io_state) :
  exists b : bool,
    fst (test_setup.check_certificates h st) = Return b
    /\ (b = true <->
        truthy (environ_get (test_setup.host_world h) "SSL_CERT_FILE") = true
        \/ exists place, In place ["/usr/local/ssl/cert.pem";
                                   "/usr/local/ssl/certs/ca-bundle.crt";
                                   "/etc/ssl/cert.pem";
                                   "/System/Library/OpenSSL/certs"]
                         /\ test_setup.path_exists h place = true).
Proof.
  destruct (check_certificates_returns h st) as (b & st' & E).
  exists b. rewrite E. split; [reflexivity|].
  destruct (check_certificates_inv h st st' b E) as [-> _]. unfold certs_ok.
  rewrite orb_true_iff, existsb_exists. reflexivity.
Qed.

Lemma test_https_connection_inv (h : test_setup.host) (st st' : io_state) (b : bool) :
  test_setup.test_https_connection h st = (Return b, st') ->
  test_setup.urllib_importable h = true
  /\ b = probe_ok h
  /\ sent st' = (sent st ++ [test_setup.probe_request])%list.
Proof.
  unfold test_setup.test_https_connection, test_setup.urllib_unbound, probe_ok,
    test_setup.do_probe.
  destruct (test_setup.urllib_importable h); [|run_prints; discriminate].
  destruct (test_setup.probe h) as [code|code|reason|e].
  - run_prints; intros H; returned H.
  - run_prints; intros H; returned H.
  - run_prints.
    destruct (test_setup.in_upper "CERTIFICATE" reason);
      [|destruct (test_setup.in_upper "SSL" reason)];
      intros H; returned H.
  - run_prints. destruct (is_Exception e); [intros H; returned H | discriminate].
Qed.

(** **** X17
    When [urllib] can be imported, [test_https_connection] sends the bare
    probe once, and it passes exactly when the host answered, be it with
    an error status: only a failure of the transport, or another
    exception, fails the check. *)
Theorem probe_verdict (h : test_setup.host) (st : io_state) :
  test_setup.urllib_importable h = true ->
  sent (snd (test_setup.test_https_connection h st))
  = (sent st ++ [test_setup.probe_request])%list
  /\ (fst (test_setup.test_https_connection h st) = Return true <->
      exists code, test_setup.probe h = test_setup.ProbeResponse code
                   \/ test_setup.probe h = test_setup.ProbeHTTPError code).
Proof.
  intros U.
  unfold test_setup.test_https_connection, test_setup.do_probe. rewrite U.
  destruct (test_setup.probe h) as [code|code|reason|e].
  - run_prints. split; [reflexivity|]. split; [eauto | reflexivity].
  - run_prints. split; [reflexivity|]. split; [eauto | reflexivity].
  - run_prints.
    destruct (test_setup.in_upper "CERTIFICATE" reason);
      [|destruct (test_setup.in_upper "SSL" reason)];
      (split; [reflexivity|]);
      (split; [discriminate | intros (code & [H|H]); discriminate H]).
  - run_prints. destruct (is_Exception e); (split; [reflexivity|]);
      (split; [discriminate | intros (code & [H|H]); discriminate H]).
Qed.

Lemma probe_verdict_witness :
  fst (test_setup.test_https_connection
         (Scenario.machine (Scenario.world_of None Scenario.unreachable)
                           (test_setup.ProbeHTTPError 404)) Scenario.start)
  = Return true.
Proof.
  apply (proj2 (probe_verdict
                  (Scenario.machine (Scenario.world_of None Scenario.unreachable)
                                    (test_setup.ProbeHTTPError 404))
                  Scenario.start eq_refl)).
  exists 404. right. reflexivity.
Defined.

(** ** The live call *)

Lemma api_call_failed_inv (e : exn) (st st' : io_state) (b : bool) :
  test_setup.api_call_failed e st = (Return b, st') -> b = false /\ sent st' = sent st.
Proof.
  unfold test_setup.api_call_failed.
  destruct (is_Exception e); run_prints; [intros H; returned H | discriminate].
Qed.

Lemma api_call_failed_returns (e : exn) :
  is_Exception e = true -> returns (test_setup.api_call_failed e).
Proof.
  intros E st. unfold test_setup.api_call_failed. rewrite E.
  run_prints. eexists; eexists; reflexivity.
Qed.

Ltac reply_case :=
  first [ intros H; apply api_call_failed_inv in H; destruct H as [-> ->];
          split; reflexivity
        | run_prints; intros H; returned H ].

Lemma report_reply_inv (w : world) (result : pyval) (st st' : io_state) (b : bool) :
  test_setup.report_reply w result st = (Return b, st') ->
  b = match first_text result with Some _ => true | None => false end
  /\ sent st' = sent st.
Proof.
  unfold test_setup.report_reply, first_text.
  destruct result as [| x | n | f | s | items | d]; cbn [py_in obind]; try reply_case.
  - destruct (contains "content" s); cbn [py_getitem_str obind]; reply_case.
  - destruct (existsb _ items); cbn [py_getitem_str obind]; reply_case.
  - cbn [py_getitem_str].
    destruct (dict_get d "content") as [content|]; cbn [obind]; [|reply_case].
    destruct content as [| x | n | f | s | [|first more] | [|entry rest]];
      cbn [py_len obind py_getitem_0 List.length String.length Z.of_nat Z.ltb Z.compare];
      try reply_case.
    + destruct s as [|c s]; [reply_case|].
      replace (0 <? Z.of_nat (String.length (String c s))) with true
        by (symmetry; apply Z.ltb_lt; cbn [String.length]; lia).
      cbn [obind py_getitem_str]. reply_case.
    + destruct first as [| x | n | f | s | items | block];
        cbn [py_getitem_str obind not_subscriptable]; try reply_case.
      destruct (dict_get block "text"); reply_case.
Qed.

Ltac reply_returns :=
  first [ apply api_call_failed_returns; reflexivity
        | returns_steps; fail
        | intros ?; unfold test_setup.api_call_failed; run_prints;
          cbn [is_Exception]; eexists; eexists; reflexivity ].

Lemma report_reply_returns (w : world) (result : pyval) :
  returns (test_setup.report_reply w result).
Proof.
  unfold test_setup.report_reply.
  destruct result as [| x | n | f | s | items | d]; cbn [py_in obind]; try reply_returns.
  - destruct (contains "content" s); cbn [py_getitem_str obind]; reply_returns.
  - destruct (existsb _ items); cbn [py_getitem_str obind]; reply_returns.
  - cbn [py_getitem_str].
    destruct (dict_get d "content") as [content|]; cbn [obind]; [|reply_returns].
    destruct content as [| x | n | f | s | [|first more] | [|entry rest]];
      cbn [py_len obind py_getitem_0 List.length String.length Z.of_nat Z.ltb Z.compare];
      try reply_returns.
    + destruct s as [|c s]; [reply_returns|].
      replace (0 <? Z.of_nat (String.length (String c s))) with true
        by (symmetry; apply Z.ltb_lt; cbn [String.length]; lia).
      cbn [obind py_getitem_str]. reply_returns.
    + destruct first as [| x | n | f | s | items | block];
        cbn [py_getitem_str obind not_subscriptable]; try reply_returns.
      destruct (dict_get block "text"); reply_returns.
Qed.

Lemma report_http_error_run (w : world) (code : Z) (body : outcome bytes) (st : io_state) :
  exists out,
    test_setup.report_http_error w code body st =
    (Return false, mk_state (stdout st ++ out)%list (sent st)).
Proof.
  unfold test_setup.report_http_error.
  destruct (let? raw := body in
            let? error_body := json_loads_bytes w raw in
            let? err := py_get error_body "error" (PDict []) in
            py_get err "message" (PStr "Unknown")) as [message|e];
    run_prints; eexists; rewrite <- app_assoc; reflexivity.
Qed.

Lemma test_api_call_inv (h : test_setup.host) (st st' : io_state) (b : bool) :
  test_setup.test_api_call h st = (Return b, st') ->
  b = api_ok h (List.length (sent st)).
Proof.
  unfold test_setup.test_api_call, api_ok, test_setup.urllib_unbound. cbv zeta.
  set (w := test_setup.host_world h).
  destruct (truthy (environ_get w "ANTHROPIC_API_KEY")); cbn [negb andb];
    [|run_prints; intros H; returned H].
  destruct (test_setup.urllib_importable h); cbn [negb];
    [|run_prints; discriminate].
  destruct (json_importable w); cbn [negb];
    [|run_prints; intros H; returned H].
  unfold test_setup.print_header, do_urlopen.
  cbv [bind print write]. cbn [sent stdout].
  destruct (urlopen w (List.length (sent st)) (test_setup.test_request w))
    as [[body|e]|code body|reason|e].
  - destruct (json_loads w body) as [result|e].
    + intros H. apply report_reply_inv in H. tauto.
    + intros H. apply api_call_failed_inv in H. tauto.
  - intros H. apply api_call_failed_inv in H. tauto.
  - match goal with
    | |- test_setup.report_http_error w code body ?s = _ -> _ =>
        destruct (report_http_error_run w code body s) as (out & ->)
    end.
    intros H; injection H as <- _; reflexivity.
  - intros H. apply api_call_failed_inv in H. tauto.
  - intros H. apply api_call_failed_inv in H. tauto.
Qed.

Lemma test_api_call_returns (h : test_setup.host) :
  test_setup.urllib_importable h = true ->
  (forall n req, handled_answer (test_setup.host_world h)
                                (urlopen (test_setup.host_world h) n req)) ->
  returns (test_setup.test_api_call h).
Proof.
  intros U T. unfold test_setup.test_api_call. cbv zeta. rewrite U. cbn [negb].
  set (w := test_setup.host_world h) in *.
  apply returns_bind; [unfold test_setup.print_header; returns_steps | intros _].
  destruct (truthy (environ_get w "ANTHROPIC_API_KEY")); cbn [negb]; [|returns_steps].
  destruct (json_importable w); cbn [negb];
    [|apply api_call_failed_returns; reflexivity].
  apply returns_bind; [apply returns_print | intros _].
  apply returns_bind; [apply returns_print | intros _].
  intros st. unfold bind, do_urlopen.
  specialize (T (List.length (sent st)) (test_setup.test_request w)).
  destruct (urlopen w (List.length (sent st)) (test_setup.test_request w))
    as [[body|e]|code body|reason|e]; cbn in T; cbv beta iota.
  - destruct (json_loads w body) as [result|e] eqn:J.
    + apply report_reply_returns.
    + apply api_call_failed_returns. now apply T.
  - now apply api_call_failed_returns.
  - match goal with
    | |- context [test_setup.report_http_error w code body ?s] =>
        destruct (report_http_error_run w code body s) as (out & ->)
    end.
    eexists; eexists; reflexivity.
  - now apply api_call_failed_returns.
  - now apply api_call_failed_returns.
Qed.

(** **** X18
    [test_api_call] keeps every failure of the live call to itself: when
    [urllib] can be imported and what the network and the decoder raise
    derives from [Exception], it returns a verdict, also when the body of
    an error response cannot be read, the case that makes
    [call_claude_api] raise. *)
Theorem live_call_never_raises (h : test_setup.host) (st : io_state) :
  test_setup.urllib_importable h = true ->
  (forall n req, handled_answer (test_setup.host_world h)
                                (urlopen (test_setup.host_world h) n req)) ->
  exists b st', test_setup.test_api_call h st = (Return b, st').
Proof. intros U T. exact (test_api_call_returns h U T st). Qed.

Lemma live_call_never_raises_witness :
  (exists b st',
      test_setup.test_api_call
        (Scenario.machine (Scenario.world_of Scenario.key Scenario.drops_error_body)
                          (test_setup.ProbeResponse 200)) Scenario.start
      = (Return b, st'))
  /\ fst (call_claude_api (Scenario.world_of Scenario.key Scenario.drops_error_body)
                          "hi" Scenario.start)
     = Raise (Exc OtherException "IncompleteRead(0 bytes read)").
Proof.
  split; [|reflexivity].
  apply (live_call_never_raises
           (Scenario.machine (Scenario.world_of Scenario.key Scenario.drops_error_body)
                             (test_setup.ProbeResponse 200)) Scenario.start eq_refl).
  intros n req. exact I.
Defined.

Lemma test_api_call_log (h : test_setup.host) (st : io_state) :
  test_setup.urllib_importable h = true ->
  json_importable (test_setup.host_world h) = true ->
  sent (snd (test_setup.test_api_call h st))
  = (sent st ++ if truthy (environ_get (test_setup.host_world h) "ANTHROPIC_API_KEY")
                then [test_setup.test_request (test_setup.host_world h)] else [])%list.
Proof.
  intros U J.
  unfold test_setup.test_api_call, test_setup.print_header. cbv zeta. rewrite U, J.
  destruct (truthy (environ_get (test_setup.host_world h) "ANTHROPIC_API_KEY"));
    cbn [negb]; [|run_prints; now rewrite app_nil_r].
  unfold do_urlopen. cbv [bind print write]. cbn [sent stdout].
  set (w := test_setup.host_world h).
  destruct (urlopen w (List.length (sent st)) (test_setup.test_request w))
    as [[body|e]|code body|reason|e].
  + destruct (json_loads w body) as [result|e].
    * match goal with |- sent (snd (?m ?s)) = _ =>
        destruct (report_reply_returns w result s) as (b & st' & E);
        rewrite E; apply report_reply_inv in E; cbn [snd]; tauto end.
    * unfold test_setup.api_call_failed. destruct (is_Exception e); reflexivity.
  + unfold test_setup.api_call_failed. destruct (is_Exception e); reflexivity.
  + match goal with
    | |- context [test_setup.report_http_error w code body ?s] =>
        destruct (report_http_error_run w code body s) as (out & ->)
    end. reflexivity.
  + reflexivity.
  + unfold test_setup.api_call_failed. destruct (is_Exception e); reflexivity.
Qed.

(** **** X19
    The live call of the diagnostics is made with the key of the
    environment, fifty tokens and thirty seconds, once; without a key it
    is skipped and nothing is sent.  It passes exactly on the responses
    from which the client would extract a reply: a body that decodes to an
    object whose first content block has a [text]. *)
Theorem live_call_verdict (h : test_setup.host) (st : io_state) :
  let w := test_setup.host_world h in
  test_setup.urllib_importable h = true ->
  json_importable w = true ->
  sent (snd (test_setup.test_api_call h st))
  = (sent st ++ if truthy (environ_get w "ANTHROPIC_API_KEY")
                then [test_setup.test_request w] else [])%list
  /\ (fst (test_setup.test_api_call h st) = Return true <->
      truthy (environ_get w "ANTHROPIC_API_KEY") = true
      /\ exists body result reply,
           urlopen w (List.length (sent st)) (test_setup.test_request w)
           = Response (Return body)
           /\ json_loads w body = Return result
           /\ first_text result = Some reply).
Proof.
  cbv zeta. intros U J. split; [exact (test_api_call_log h st U J)|].
  destruct (test_setup.test_api_call h st) as [[b|e] st'] eqn:E; cbn [fst].
  - apply test_api_call_inv in E. subst b. unfold api_ok. cbv zeta. rewrite J.
    set (w := test_setup.host_world h).
    destruct (truthy (environ_get w "ANTHROPIC_API_KEY")); cbn [andb];
      [|split; [discriminate | intros [K _]; discriminate K]].
    destruct (urlopen w (List.length (sent st)) (test_setup.test_request w))
      as [[body|e]|code body|reason|e];
      try (split; [discriminate | intros [_ (x & y & z & N & _)]; discriminate N]).
    destruct (json_loads w body) as [result|e] eqn:JL;
      [|split; [discriminate | intros [_ (x & y & z & N & L & _)];
                injection N as <-; rewrite JL in L; discriminate L]].
    destruct (first_text result) as [reply|] eqn:F.
    + split; [intros _; split; [reflexivity|]; exists body, result, reply; auto
             |reflexivity].
    + split; [discriminate|].
      intros [_ (x & y & z & N & L & F')]. injection N as <-.
      rewrite JL in L. injection L as <-. rewrite F in F'. discriminate F'.
  - split; [discriminate|].
    intros [K (body & result & reply & N & L & F)].
    exfalso. revert E.
    unfold test_setup.test_api_call, test_setup.print_header, do_urlopen.
    cbv zeta. rewrite U, J, K. cbn [negb]. cbv [bind print write]. cbn [sent stdout].
    rewrite N, L.
    match goal with |- ?m ?s = _ -> _ =>
      destruct (report_reply_returns (test_setup.host_world h) result s)
        as (b & st2 & ->) end.
    discriminate.
Qed.

Lemma live_call_verdict_witness :
  fst (test_setup.test_api_call
         (Scenario.machine (Scenario.world_of Scenario.key
                                              (Scenario.replies Scenario.hello_body))
                           (test_setup.ProbeResponse 200)) Scenario.start)
  = Return true.
Proof.
  apply (proj2 (proj2 (live_call_verdict
                  (Scenario.machine (Scenario.world_of Scenario.key
                                                       (Scenario.replies Scenario.hello_body))
                                    (test_setup.ProbeResponse 200))
                  Scenario.start eq_refl eq_refl))).
  split; [reflexivity|].
  exists Scenario.hello_body,
    (PDict [("id", PStr "msg_01");
            ("content", PList [PDict [("type", PStr "text"); ("text", PStr "Hello!")]])]),
    (PStr "Hello!").
  repeat split.
Defined.

(** What [test_api_call] sends, with or without the [json] module. *)
Lemma test_api_call_requests (h : test_setup.host) (st : io_state) :
  test_setup.urllib_importable h = true ->
  sent (snd (test_setup.test_api_call h st))
  = (sent st ++ if truthy (environ_get (test_setup.host_world h) "ANTHROPIC_API_KEY")
                   && json_importable (test_setup.host_world h)
                then [test_setup.test_request (test_setup.host_world h)] else [])%list.
Proof.
  intros U. destruct (json_importable (test_setup.host_world h)) eqn:J.
  - rewrite (test_api_call_log h st U J), andb_true_r. reflexivity.
  - rewrite andb_false_r, app_nil_r.
    unfold test_setup.test_api_call, test_setup.print_header. cbv zeta. rewrite U, J.
    destruct (truthy (environ_get (test_setup.host_world h) "ANTHROPIC_API_KEY"));
      cbn [negb]; run_prints; reflexivity.
Qed.

(** ** The whole run *)

Ltac step_print H :=
  apply bind_inv in H;
  let u := fresh "u" in
  let s := fresh "s" in
  let P := fresh "P" in
  destruct H as (u & s & P & H);
  cbv [test_setup.print_header bind print write] in P; injection P as <- <-.

(** The eight results, in the order of the checks, when all of them
    returned. *)
Lemma run_checks_inv (h : test_setup.host) (st st' : io_state)
      (results : list (string * bool)) :
  test_setup.run_checks h st = (Return results, st') ->
  results = [("Python", python_ok h);
             ("SSL/TLS", tls_ok h);
             ("JSON", json_ok (test_setup.host_world h));
             ("HTTP/HTTPS", https_ok h);
             ("API Key", key_ok (test_setup.host_world h));
             ("Certificates", certs_ok h);
             ("HTTPS Connection", probe_ok h);
             ("API Call", api_ok h (S (List.length (sent st))))]
  /\ sent st' =
     (sent st ++ test_setup.probe_request ::
      if truthy (environ_get (test_setup.host_world h) "ANTHROPIC_API_KEY")
         && json_importable (test_setup.host_world h)
      then [test_setup.test_request (test_setup.host_world h)] else [])%list.
Proof.
  unfold test_setup.run_checks. intros H.
  apply bind_inv in H. destruct H as (r1 & s1 & E1 & H).
  apply bind_inv in H. destruct H as (r2 & s2 & E2 & H).
  apply bind_inv in H. destruct H as (r3 & s3 & E3 & H).
  apply bind_inv in H. destruct H as (r4 & s4 & E4 & H).
  apply bind_inv in H. destruct H as (r5 & s5 & E5 & H).
  apply bind_inv in H. destruct H as (r6 & s6 & E6 & H).
  apply bind_inv in H. destruct H as (r7 & s7 & E7 & H).
  apply bind_inv in H. destruct H as (r8 & s8 & E8 & H).
  injection H as <- <-.
  apply check_python_inv in E1. destruct E1 as [-> S1].
  apply check_ssl_inv in E2. destruct E2 as [-> S2].
  apply check_json_inv in E3. destruct E3 as [-> S3].
  apply check_urllib_inv in E4. destruct E4 as [-> S4].
  apply check_api_key_inv in E5. destruct E5 as [-> S5].
  apply check_certificates_inv in E6. destruct E6 as [-> S6].
  apply test_https_connection_inv in E7. destruct E7 as (U & -> & S7).
  assert (L : sent s7 = (sent st ++ [test_setup.probe_request])%list) by congruence.
  pose proof (test_api_call_inv h s7 s8 r8 E8) as V. rewrite L, length_app in V.
  cbn [List.length] in V. rewrite Nat.add_1_r in V. subst r8.
  split; [reflexivity|].
  pose proof (test_api_call_requests h s7 U) as S8.
  rewrite E8, L, <- app_assoc in S8. exact S8.
Qed.

Lemma last_four {A : Type} (l : list A) (a b c d : A) :
  ((((l ++ [a]) ++ [b]) ++ [c]) ++ [d] = l ++ [a; b; c; d])%list.
Proof. now rewrite <- !app_assoc. Qed.

Lemma summary_line_text (name : string) (passed : bool) :
  ((if passed then test_setup.check_mark else test_setup.cross_mark)
   ++ " " ++ name ++ ": " ++ (if passed then "PASS" else "FAIL")) ++ nl
  = summary_line (name, passed).
Proof. destruct passed; cbn [summary_line]; rewrite !app_assoc_str; reflexivity. Qed.

(** The summary writes one line per result, in order. *)
Lemma summarise_lines (results : list (string * bool)) :
  forall (all_passed : bool) (st : io_state),
    test_setup.summarise all_passed results st =
    (Return (all_passed && forallb snd results),
     mk_state (stdout st ++ map summary_line results)%list (sent st)).
Proof.
  induction results as [|[name passed] rest IH]; intros all_passed st;
    cbn [test_setup.summarise forallb snd map].
  - rewrite andb_true_r, app_nil_r. now destruct st.
  - cbv [bind print write]. rewrite IH. cbn [stdout sent].
    rewrite <- app_assoc. cbn [app]. rewrite summary_line_text.
    destruct passed, all_passed; reflexivity.
Qed.

(** The eight checks run one after the other, each from the state the
    one before left, whatever the earlier results. *)
Lemma run_checks_chain (h : test_setup.host) (st st' : io_state)
      (results : list (string * bool)) :
  test_setup.run_checks h st = (Return results, st') ->
  exists s1 s2 s3 s4 s5 s6 s7 : io_state,
    test_setup.check_python h st = (Return (python_ok h), s1)
    /\ test_setup.check_ssl h s1 = (Return (tls_ok h), s2)
    /\ test_setup.check_json (test_setup.host_world h) s2
       = (Return (json_ok (test_setup.host_world h)), s3)
    /\ test_setup.check_urllib h s3 = (Return (https_ok h), s4)
    /\ test_setup.check_api_key h s4 = (Return (key_ok (test_setup.host_world h)), s5)
    /\ test_setup.check_certificates h s5 = (Return (certs_ok h), s6)
    /\ test_setup.test_https_connection h s6 = (Return (probe_ok h), s7)
    /\ test_setup.test_api_call h s7
       = (Return (api_ok h (S (List.length (sent st)))), st').
Proof.
  unfold test_setup.run_checks. intros H.
  apply bind_inv in H. destruct H as (r1 & s1 & E1 & H).
  apply bind_inv in H. destruct H as (r2 & s2 & E2 & H).
  apply bind_inv in H. destruct H as (r3 & s3 & E3 & H).
  apply bind_inv in H. destruct H as (r4 & s4 & E4 & H).
  apply bind_inv in H. destruct H as (r5 & s5 & E5 & H).
  apply bind_inv in H. destruct H as (r6 & s6 & E6 & H).
  apply bind_inv in H. destruct H as (r7 & s7 & E7 & H).
  apply bind_inv in H. destruct H as (r8 & s8 & E8 & H).
  injection H as _ <-.
  exists s1, s2, s3, s4, s5, s6, s7.
  pose proof (check_python_inv _ _ _ _ E1) as [-> S1].
  pose proof (check_ssl_inv _ _ _ _ E2) as [-> S2].
  pose proof (check_json_inv _ _ _ _ E3) as [-> S3].
  pose proof (check_urllib_inv _ _ _ _ E4) as [-> S4].
  pose proof (check_api_key_inv _ _ _ _ E5) as [-> S5].
  pose proof (check_certificates_inv _ _ _ _ E6) as [-> S6].
  pose proof (test_https_connection_inv _ _ _ _ E7) as (U & -> & S7).
  assert (L : sent s7 = (sent st ++ [test_setup.probe_request])%list) by congruence.
  pose proof (test_api_call_inv h s7 s8 r8 E8) as V. rewrite L, length_app in V.
  cbn [List.length] in V. rewrite Nat.add_1_r in V. subst r8.
  repeat split; assumption.
Qed.

Lemma summary_after {A : Type} (l lines : list A) (a b c d e f g : A) :
  ((((((((l ++ [a]) ++ [b]) ++ [c]) ++ lines) ++ [d]) ++ [e]) ++ [f]) ++ [g]
   = l ++ [a; b; c] ++ lines ++ [d; e; f; g])%list.
Proof. rewrite <- !app_assoc. cbn [app]. reflexivity. Qed.

(** **** X20
    When the diagnostics run to their end, every check has run, in the
    order of the source and each from the state the one before left,
    whatever the earlier results: none is skipped because an earlier one
    failed.  Each returns whether its requirement holds: Python 3.10 or
    later, an [ssl] module with TLS 1.2, a [json] module that reads the
    fixed object back, an HTTPS handler, a key that begins with [sk-ant-],
    a certificate bundle, an answer to the probe, and a live call that
    brings a reply.  After the output of the last check come the header of
    the summary, one line per check with its mark and [PASS] or [FAIL], in
    the same order, and the verdict, which is [SUCCESS!] exactly when all
    eight requirements hold and [PROBLEMS DETECTED] otherwise.  The run
    sends the probe and, with a key, one API request after it, and
    nothing else. *)
Theorem diagnostics_verdict (h : test_setup.host) (st st' : io_state) :
  test_setup.main h st = (Return tt, st') ->
  (exists out,
      stdout st' =
      (out ++ verdict_lines
                (python_ok h && tls_ok h && json_ok (test_setup.host_world h)
                 && https_ok h && key_ok (test_setup.host_world h) && certs_ok h
                 && probe_ok h && api_ok h (S (List.length (sent st)))))%list)
  /\ sent st' =
     (sent st ++ test_setup.probe_request ::
      if truthy (environ_get (test_setup.host_world h) "ANTHROPIC_API_KEY")
         && json_importable (test_setup.host_world h)
      then [test_setup.test_request (test_setup.host_world h)] else [])%list
  /\ exists s1 s2 s3 s4 s5 s6 s7 s8 : io_state,
       test_setup.check_python h (mk_state (stdout st ++ banner)%list (sent st))
       = (Return (python_ok h), s1)
       /\ test_setup.check_ssl h s1 = (Return (tls_ok h), s2)
       /\ test_setup.check_json (test_setup.host_world h) s2
          = (Return (json_ok (test_setup.host_world h)), s3)
       /\ test_setup.check_urllib h s3 = (Return (https_ok h), s4)
       /\ test_setup.check_api_key h s4
          = (Return (key_ok (test_setup.host_world h)), s5)
       /\ test_setup.check_certificates h s5 = (Return (certs_ok h), s6)
       /\ test_setup.test_https_connection h s6 = (Return (probe_ok h), s7)
       /\ test_setup.test_api_call h s7
          = (Return (api_ok h (S (List.length (sent st)))), s8)
       /\ stdout st' =
          (stdout s8 ++ header_lines "Summary"
           ++ map summary_line
                  [("Python", python_ok h);
                   ("SSL/TLS", tls_ok h);
                   ("JSON", json_ok (test_setup.host_world h));
                   ("HTTP/HTTPS", https_ok h);
                   ("API Key", key_ok (test_setup.host_world h));
                   ("Certificates", certs_ok h);
                   ("HTTPS Connection", probe_ok h);
                   ("API Call", api_ok h (S (List.length (sent st))))]
           ++ verdict_lines
                (python_ok h && tls_ok h && json_ok (test_setup.host_world h)
                 && https_ok h && key_ok (test_setup.host_world h) && certs_ok h
                 && probe_ok h && api_ok h (S (List.length (sent st)))))%list.
Proof.
  unfold test_setup.main. intros H.
  step_print H. step_print H. step_print H.
  apply bind_inv in H. destruct H as (results & s8 & R & H).
  pose proof (run_checks_chain _ _ _ _ R) as C. cbn [sent] in C.
  apply run_checks_inv in R. cbn [sent] in R. destruct R as [-> S1].
  step_print H.
  apply bind_inv in H. destruct H as (all_passed & s9 & A & H).
  rewrite summarise_lines in A. injection A as <- <-.
  cbn [forallb snd andb] in H. rewrite andb_true_r in H.
  step_print H.
  match type of H with context [if ?c then _ else _] => set (ok := c) in H end.
  assert (V : ok = (python_ok h && tls_ok h && json_ok (test_setup.host_world h)
                    && https_ok h && key_ok (test_setup.host_world h) && certs_ok h
                    && probe_ok h && api_ok h (S (List.length (sent st)))))
    by (unfold ok; now rewrite !andb_assoc).
  rewrite <- V. clearbody ok.
  destruct C as (s1 & s2 & s3 & s4 & s5 & s6 & s7 & C1 & C2 & C3 & C4 & C5 & C6 & C7 & C8).
  assert (B : test_setup.check_python h (mk_state (stdout st ++ banner)%list (sent st))
              = (Return (python_ok h), s1))
    by (rewrite <- C1; unfold banner; rewrite <- !app_assoc; reflexivity).
  clear C1.
  destruct ok; cbv [bind print write] in H; injection H as <-;
    cbn [stdout sent]; (split; [eexists; apply last_four|]); (split; [exact S1|]);
    exists s1, s2, s3, s4, s5, s6, s7, s8;
    (repeat (split; [assumption|])); apply summary_after.
Qed.

Lemma diagnostics_verdict_witness :
  exists out,
    stdout (snd (test_setup.main
                   (Scenario.machine (Scenario.world_of None Scenario.unreachable)
                                     (test_setup.ProbeHTTPError 404))
                   Scenario.start))
    = (out ++ verdict_lines false)%list.
Proof.
  assert (R : test_setup.main
                (Scenario.machine (Scenario.world_of None Scenario.unreachable)
                                  (test_setup.ProbeHTTPError 404)) Scenario.start
              = (Return tt,
                 snd (test_setup.main
                        (Scenario.machine (Scenario.world_of None Scenario.unreachable)
                                          (test_setup.ProbeHTTPError 404))
                        Scenario.start)))
    by (vm_compute; reflexivity).
  exact (proj1 (diagnostics_verdict _ _ _ R)).
Defined.

(** ** Where the diagnostics stop *)

Lemma run_checks_needs_urllib (h : test_setup.host) (st st' : io_state)
      (results : list (string * bool)) :
  test_setup.run_checks h st = (Return results, st') ->
  test_setup.urllib_importable h = true
  /\ (test_setup.ssl_importable h = true ->
      ssl_OPENSSL_VERSION (test_setup.host_world h) <> None).
Proof.
  unfold test_setup.run_checks. intros H.
  apply bind_inv in H. destruct H as (r1 & s1 & E1 & H).
  apply bind_inv in H. destruct H as (r2 & s2 & E2 & H).
  apply bind_inv in H. destruct H as (r3 & s3 & E3 & H).
  apply bind_inv in H. destruct H as (r4 & s4 & E4 & H).
  apply bind_inv in H. destruct H as (r5 & s5 & E5 & H).
  apply bind_inv in H. destruct H as (r6 & s6 & E6 & H).
  apply bind_inv in H. destruct H as (r7 & s7 & E7 & H).
  apply test_https_connection_inv in E7. destruct E7 as (U & _).
  split; [exact U|].
  intros I V. revert E2. unfold test_setup.check_ssl. rewrite I, V.
  run_prints. discriminate.
Qed.

Lemma main_runs_checks (h : test_setup.host) (st st' : io_state) :
  test_setup.main h st = (Return tt, st') ->
  exists st0 results st1, test_setup.run_checks h st0 = (Return results, st1).
Proof.
  unfold test_setup.main. intros H.
  step_print H. step_print H. step_print H.
  apply bind_inv in H. destruct H as (results & s1 & R & H).
  eauto.
Qed.

(** **** X21
    Without [urllib.request] the diagnostics do not reach their summary:
    [check_urllib] reports the missing module and fails, but
    [test_https_connection] raises, its handlers naming a module that was
    never bound, and so does [test_api_call] when there is a key; [main]
    never returns. *)
Theorem diagnostics_need_urllib (h : test_setup.host) :
  test_setup.urllib_importable h = false ->
  (forall st, fst (test_setup.check_urllib h st) = Return false)
  /\ (forall st,
        fst (test_setup.test_https_connection h st)
        = Raise (Exc OtherException "local variable 'urllib' referenced before assignment")
        /\ sent (snd (test_setup.test_https_connection h st)) = sent st)
  /\ (truthy (environ_get (test_setup.host_world h) "ANTHROPIC_API_KEY") = true ->
      forall st,
        fst (test_setup.test_api_call h st)
        = Raise (Exc OtherException "local variable 'urllib' referenced before assignment"))
  /\ (forall st st', test_setup.main h st <> (Return tt, st')).
Proof.
  intros U. repeat split.
  - unfold test_setup.check_urllib. rewrite U. reflexivity.
  - unfold test_setup.test_https_connection. rewrite U. reflexivity.
  - unfold test_setup.test_https_connection. rewrite U. reflexivity.
  - intros K st. unfold test_setup.test_api_call. cbv zeta. rewrite K, U. reflexivity.
  - intros st st' H.
    destruct (main_runs_checks h st st' H) as (st0 & results & st1 & R).
    apply run_checks_needs_urllib in R. destruct R as [U' _]. congruence.
Qed.

Lemma diagnostics_need_urllib_witness :
  fst (test_setup.test_https_connection
         (test_setup.mk_host (Scenario.world_of Scenario.key Scenario.unreachable)
                             "3.11.4" "/usr/local/bin/python3" 3 11 4
                             true true false (Return tt) (fun _ => false)
                             (test_setup.ProbeResponse 200))
         Scenario.start)
  = Raise (Exc OtherException "local variable 'urllib' referenced before assignment").
Proof.
  exact (proj1 (proj1 (proj2 (diagnostics_need_urllib
           (test_setup.mk_host (Scenario.world_of Scenario.key Scenario.unreachable)
                               "3.11.4" "/usr/local/bin/python3" 3 11 4
                               true true false (Return tt) (fun _ => false)
                               (test_setup.ProbeResponse 200))
           eq_refl)) Scenario.start)).
Defined.

(** **** X22
    The two [check_ssl] differ on an [ssl] module without
    [OPENSSL_VERSION]: the one of the client catches the [AttributeError],
    prints that the module is too old and returns [False]; the one of the
    diagnostics handles [ImportError] only and raises, so that the
    diagnostics end there.  The client's never raises, and passes exactly
    when the version is there and TLS 1.2 is known. *)
Theorem check_ssl_on_old_module (h : test_setup.host) (st : io_state) :
  (exists b st',
      claude_powerbook.check_ssl (test_setup.host_world h) st = (Return b, st')
      /\ sent st' = sent st
      /\ (b = true <->
          ssl_OPENSSL_VERSION (test_setup.host_world h) <> None
          /\ ssl_has_PROTOCOL_TLSv1_2 (test_setup.host_world h) = true))
  /\ (test_setup.ssl_importable h = true ->
      ssl_OPENSSL_VERSION (test_setup.host_world h) = None ->
      fst (test_setup.check_ssl h st)
      = Raise (Exc AttributeError "module 'ssl' has no attribute 'OPENSSL_VERSION'")
      /\ forall st0 st', test_setup.main h st0 <> (Return tt, st')).
Proof.
  split.
  - unfold claude_powerbook.check_ssl.
    destruct (ssl_OPENSSL_VERSION (test_setup.host_world h)) as [version|];
      [destruct (ssl_has_PROTOCOL_TLSv1_2 (test_setup.host_world h))|];
      cbn [negb]; run_prints; eexists; eexists;
      (split; [reflexivity|]); (split; [reflexivity|]);
      split; try discriminate; try (intros [A B]; congruence);
      intros _; split; [discriminate | reflexivity].
  - intros I V. split.
    + unfold test_setup.check_ssl. rewrite I, V. reflexivity.
    + intros st0 st' H.
      destruct (main_runs_checks h st0 st' H) as (st1 & results & st2 & R).
      apply run_checks_needs_urllib in R. destruct R as [_ N]. exact (N I V).
Qed.

Lemma check_ssl_on_old_module_witness :
  fst (test_setup.check_ssl
         (test_setup.mk_host
            (mk_world (Scenario.key_only Scenario.key) Scenario.disk Scenario.unreachable
                      (MiniJson.dumps Scenario.float_text) MiniJson.loads
                      MiniJson.loads_bytes true Scenario.object_text None true)
            "3.11.4" "/usr/local/bin/python3" 3 11 4
            true true true (Return tt) (fun _ => false) (test_setup.ProbeResponse 200))
         Scenario.start)
  = Raise (Exc AttributeError "module 'ssl' has no attribute 'OPENSSL_VERSION'").
Proof.
  exact (proj1 (proj2 (check_ssl_on_old_module
           (test_setup.mk_host
              (mk_world (Scenario.key_only Scenario.key) Scenario.disk Scenario.unreachable
                        (MiniJson.dumps Scenario.float_text) MiniJson.loads
                        MiniJson.loads_bytes true Scenario.object_text None true)
              "3.11.4" "/usr/local/bin/python3" 3 11 4
              true true true (Return tt) (fun _ => false) (test_setup.ProbeResponse 200))
           Scenario.start) eq_refl eq_refl)).
Defined.
